(** * DexScreener monitor bot: change detection, formatting and delivery

    A shallow embedding of [dexscreener_bot.py].  The module-level globals
    of the script (the [stats] dict, the seen-sets and seen-maps, the
    profile caches and the known-token set) are the fields of one [state]
    record that every function threads explicitly.  The outside world
    (the HTTP servers the script talks to) is an oracle indexed by the
    number of requests made so far; console output, log records and
    Telegram requests are appended to a trace kept in the state.

    Strings are byte strings: the literals of the script appear as their
    UTF-8 encodings, and the string helpers below agree with Python's on
    ASCII data. *)

From Stdlib Require Import ZArith Ascii String List Bool Lia.
From stdpp Require Import base gmap strings list pretty.

(** ** Python string methods used by the script *)

Module PyStr.

Definition nl : string := String (ascii_of_nat 10) "".

Definition is_space (c : ascii) : bool :=
  let n := nat_of_ascii c in
  ((9 <=? n) && (n <=? 13) || (28 <=? n) && (n <=? 32))%nat.

Definition is_digit (c : ascii) : bool :=
  let n := nat_of_ascii c in ((48 <=? n) && (n <=? 57))%nat.

Definition is_upper (c : ascii) : bool :=
  let n := nat_of_ascii c in ((65 <=? n) && (n <=? 90))%nat.

Definition is_lower (c : ascii) : bool :=
  let n := nat_of_ascii c in ((97 <=? n) && (n <=? 122))%nat.

Definition to_upper (c : ascii) : ascii :=
  if is_lower c then ascii_of_nat (nat_of_ascii c - 32) else c.

Definition to_lower (c : ascii) : ascii :=
  if is_upper c then ascii_of_nat (nat_of_ascii c + 32) else c.

Fixpoint map (f : ascii -> ascii) (s : string) : string :=
  match s with
  | EmptyString => EmptyString
  | String c s' => String (f c) (map f s')
  end.

(** [s.upper()], [s.lower()] *)
Definition upper : string -> string := map to_upper.
Definition lower : string -> string := map to_lower.

(** [s.title()]: a letter that follows a letter is lowered, any other
    letter is raised. *)
Fixpoint title_go (after_letter : bool) (s : string) : string :=
  match s with
  | EmptyString => EmptyString
  | String c s' =>
      let letter := is_upper c || is_lower c in
      String (if after_letter then to_lower c else to_upper c)
             (title_go letter s')
  end.
Definition title : string -> string := title_go false.

(** [s.startswith(p)] *)
Definition startswith (s p : string) : bool := String.prefix p s.

(** [sub in s] *)
Fixpoint contains (sub s : string) : bool :=
  String.prefix sub s ||
  match s with
  | EmptyString => false
  | String _ s' => contains sub s'
  end.

(** [s.replace(old, new)] for a non-empty [old]: leftmost matches,
    not overlapping.  [skip] counts the characters of a match that are
    still to be dropped. *)
Fixpoint replace_go (old new : string) (skip : nat) (s : string) : string :=
  match s with
  | EmptyString => EmptyString
  | String c s' =>
      match skip with
      | S k => replace_go old new k s'
      | O =>
          if String.prefix old s
          then new +:+ replace_go old new (String.length old - 1) s'
          else String c (replace_go old new 0 s')
      end
  end.
Definition replace (s old new : string) : string := replace_go old new 0 s.

(** [s.lstrip(chars)], [s.rstrip(chars)], with the character set as a test *)
Fixpoint lstrip_by (p : ascii -> bool) (s : string) : string :=
  match s with
  | EmptyString => EmptyString
  | String c s' => if p c then lstrip_by p s' else s
  end.

Fixpoint rstrip_by (p : ascii -> bool) (s : string) : string :=
  match s with
  | EmptyString => EmptyString
  | String c s' =>
      match rstrip_by p s' with
      | EmptyString => if p c then EmptyString else String c EmptyString
      | r => String c r
      end
  end.

(** [s.strip()] *)
Definition strip (s : string) : string := rstrip_by is_space (lstrip_by is_space s).

(** [s.rstrip(c)] for a one-character argument *)
Definition rstrip_char (c : ascii) : string -> string := rstrip_by (Ascii.eqb c).

(** [s.split(sep)] for a non-empty separator: never the empty list.
    The head of the result is the part being read. *)
Fixpoint split_go (sep : string) (skip : nat) (s : string) : list string :=
  match s with
  | EmptyString => [EmptyString]
  | String c s' =>
      match skip with
      | S k => split_go sep k s'
      | O =>
          if String.prefix sep s
          then EmptyString :: split_go sep (String.length sep - 1) s'
          else
            match split_go sep 0 s' with
            | hd :: tl => String c hd :: tl
            | [] => [String c EmptyString]
            end
      end
  end.
Definition split (s sep : string) : list string := split_go sep 0 s.

(** [s[:n]] *)
Fixpoint take (n : nat) (s : string) : string :=
  match n, s with
  | S k, String c s' => String c (take k s')
  | _, _ => EmptyString
  end.

(** [sep.join(parts)] *)
Fixpoint join (sep : string) (parts : list string) : string :=
  match parts with
  | [] => EmptyString
  | [p] => p
  | p :: rest => p +:+ sep +:+ join sep rest
  end.

(** [s * n] *)
Fixpoint repeat (s : string) (n : nat) : string :=
  match n with
  | O => EmptyString
  | S k => s +:+ repeat s k
  end.

(** every character passes the test *)
Fixpoint forallb (p : ascii -> bool) (s : string) : bool :=
  match s with
  | EmptyString => true
  | String c s' => p c && forallb p s'
  end.

(** does the string end with a character that passes the test *)
Fixpoint ends_with (p : ascii -> bool) (s : string) : bool :=
  match s with
  | EmptyString => false
  | String c EmptyString => p c
  | String _ s' => ends_with p s'
  end.

(** truth value of a string: [bool(s)] *)
Definition nonempty (s : string) : bool :=
  match s with EmptyString => false | _ => true end.

End PyStr.

(** ** Exceptions

    A Python call either returns or raises.  Only the exceptions that the
    modelled calls can raise are listed; all of them derive from
    [Exception]. *)

Inductive exn := ValueError | TypeError | OverflowError | TransportError | JSONDecodeError.

Inductive outcome (A : Type) := Returned (a : A) | Raised (e : exn).
Arguments Returned {A} a.
Arguments Raised {A} e.

Definition bind {A B} (o : outcome A) (k : A -> outcome B) : outcome B :=
  match o with
  | Returned a => k a
  | Raised e => Raised e
  end.

(** [try: body except: handler] for a body with no effect on the state *)
Definition try_except {A} (body : outcome A) (handler : exn -> A) : A :=
  match body with
  | Returned a => a
  | Raised e => handler e
  end.

(** ** Python floats (IEEE-754 binary64) and number formatting *)

Module PyFloat.
Local Open Scope Z_scope.

(** A finite float is [(-1)^neg * m * 2^e]; the mantissa is not
    normalised, since comparison and formatting only depend on the
    value and on the sign bit. *)
Inductive pyfloat :=
| FNan
| FInf (neg : bool)
| FFin (neg : bool) (m : N) (e : Z).

(** Round the non-negative rational [n/d] to the nearest integer, ties to
    the even one. *)
Definition round_half_even (n d : Z) : Z :=
  let q := n / d in
  let r := n mod d in
  if 2 * r <? d then q
  else if d <? 2 * r then q + 1
  else if Z.even q then q else q + 1.

(** [floor (log2 (n/d))] for positive [n], [d] *)
Definition ilog2_ratio (n d : Z) : Z :=
  let k := Z.log2 n - Z.log2 d in
  let below := if 0 <=? k then d * 2 ^ k <=? n else d <=? n * 2 ^ (- k) in
  if below then k else k - 1.

(** nearest integer to [(n/d) / 2^e] *)
Definition scaled_round (n d e : Z) : Z :=
  if 0 <=? e then round_half_even n (d * 2 ^ e)
  else round_half_even (n * 2 ^ (- e)) d.

(** Round [n/d] (with [0 <= n], [0 < d]) to binary64, nearest-even:
    53 bits of mantissa, least exponent -1074 (subnormals), overflow
    to infinity from [2^1024 - 2^970] on. *)
Definition round_binary64 (neg : bool) (n d : Z) : pyfloat :=
  if n =? 0 then FFin neg 0 0
  else
    let e := Z.max (ilog2_ratio n d - 52) (-1074) in
    let m := scaled_round n d e in
    if (971 <? e) || ((e =? 971) && (2 ^ 53 <=? m)) then FInf neg
    else FFin neg (Z.to_N m) e.

Definition is_finite (p : pyfloat) : bool :=
  match p with FFin _ _ _ => true | _ => false end.

(** [p >= 1] *)
Definition ge_one (p : pyfloat) : bool :=
  match p with
  | FNan => false
  | FInf neg => negb neg
  | FFin neg m e =>
      negb neg && (if 0 <=? e then 1 <=? Z.of_N m else 2 ^ (- e) <=? Z.of_N m)
  end.

(** *** Decimal literals accepted by [float(str)] *)

Definition digit_val (c : ascii) : Z := Z.of_nat (nat_of_ascii c) - 48.

Definition is_underscore (c : ascii) : bool := Ascii.eqb c "_"%char.

(** after one digit: any number of further digits, each optionally
    preceded by one underscore *)
Fixpoint digits_tail (s : string) : list Z * string :=
  match s with
  | EmptyString => ([], EmptyString)
  | String c s' =>
      if PyStr.is_digit c then
        let '(ds, r) := digits_tail s' in (digit_val c :: ds, r)
      else if is_underscore c then
        match s' with
        | String c2 s'' =>
            if PyStr.is_digit c2 then
              let '(ds, r) := digits_tail s'' in (digit_val c2 :: ds, r)
            else ([], s)
        | EmptyString => ([], s)
        end
      else ([], s)
  end.

Definition digitpart (s : string) : option (list Z * string) :=
  match s with
  | String c s' =>
      if PyStr.is_digit c then
        let '(ds, r) := digits_tail s' in Some (digit_val c :: ds, r)
      else None
  | EmptyString => None
  end.

Definition digits_value (ds : list Z) : Z :=
  fold_left (fun acc d => 10 * acc + d) ds 0.

(** optional sign: [true] for a minus *)
Definition read_sign (s : string) : bool * string :=
  match s with
  | String "-"%char s' => (true, s')
  | String "+"%char s' => (false, s')
  | _ => (false, s)
  end.

(** the exponent part, if any; the rest must then be empty *)
Definition read_exponent (s : string) : option Z :=
  match s with
  | EmptyString => Some 0
  | String c s' =>
      if Ascii.eqb c "e"%char || Ascii.eqb c "E"%char then
        let '(neg, s1) := read_sign s' in
        match digitpart s1 with
        | Some (ds, EmptyString) =>
            Some (if neg then - digits_value ds else digits_value ds)
        | _ => None
        end
      else None
  end.

(** mantissa digits, the number of them after the point, and the rest *)
Definition read_mantissa (s : string) : option (list Z * Z * string) :=
  match digitpart s with
  | Some (ip, String "."%char r) =>
      match digitpart r with
      | Some (fp, r') => Some (ip ++ fp, Z.of_nat (length fp), r')
      | None => Some (ip, 0, r)
      end
  | Some (ip, r) => Some (ip, 0, r)
  | None =>
      match s with
      | String "."%char r =>
          match digitpart r with
          | Some (fp, r') => Some (fp, Z.of_nat (length fp), r')
          | None => None
          end
      | _ => None
      end
  end.

(** [float(s)] for a string *)
Definition float_of_string (s : string) : outcome pyfloat :=
  let '(neg, body) := read_sign (PyStr.strip s) in
  let word := PyStr.lower body in
  if String.eqb word "inf" || String.eqb word "infinity" then Returned (FInf neg)
  else if String.eqb word "nan" then Returned FNan
  else
    match read_mantissa body with
    | Some (ds, scale, r) =>
        match read_exponent r with
        | Some ex =>
            let n := digits_value ds in
            let e10 := ex - scale in
            Returned (if 0 <=? e10 then round_binary64 neg (n * 10 ^ e10) 1
                      else round_binary64 neg n (10 ^ (- e10)))
        | None => Raised ValueError
        end
    | None => Raised ValueError
    end.

(** [float(z)] for an int: correctly rounded, [OverflowError] beyond the
    largest float *)
Definition float_of_int (z : Z) : outcome pyfloat :=
  match round_binary64 (z <? 0) (Z.abs z) 1 with
  | FInf _ => Raised OverflowError
  | p => Returned p
  end.

(** *** Fixed-point rendering: the [f] presentation type *)

Definition digit_char (d : Z) : ascii := ascii_of_nat (Z.to_nat d + 48).

(** the last [k] decimal digits of [n], padded with zeros *)
Fixpoint last_digits (k : nat) (n : Z) (acc : string) : string :=
  match k with
  | O => acc
  | S k' => last_digits k' (n / 10) (String (digit_char (n mod 10)) acc)
  end.

(** decimal digits of a non-negative integer, without grouping *)
Definition int_digits (n : Z) : string := pretty (Z.to_N n).

(** insert [,] every three digits, counted from the right *)
Fixpoint group_go (s : string) : string * nat :=
  match s with
  | EmptyString => (EmptyString, O)
  | String c s' =>
      let '(r, k) := group_go s' in
      if (k =? 3)%nat then (String c (String ","%char r), 1%nat)
      else (String c r, S k)
  end.
Definition group3 (s : string) : string := fst (group_go s).

(** [|p| * 10^k] as a fraction, for a finite [p = m * 2^e] *)
Definition scaled_exact (k : nat) (m : N) (e : Z) : Z * Z :=
  if 0 <=? e then (Z.of_N m * 2 ^ e * 10 ^ Z.of_nat k, 1)
  else (Z.of_N m * 10 ^ Z.of_nat k, 2 ^ (- e)).

(** [|p| * 10^k] rounded to an integer, ties to even *)
Definition scaled_decimal (k : nat) (m : N) (e : Z) : Z :=
  let '(num, den) := scaled_exact k m e in round_half_even num den.

Definition sign_str (neg : bool) : string := if neg then "-" else "".

(** [f"{p:.kf}"] and, with [grouped], [f"{p:,.kf}"], for [0 < k] *)
Definition format_fixed (grouped : bool) (k : nat) (p : pyfloat) : string :=
  match p with
  | FNan => "nan"
  | FInf neg => sign_str neg +:+ "inf"
  | FFin neg m e =>
      let n := scaled_decimal k m e in
      let ip := int_digits (n / 10 ^ Z.of_nat k) in
      sign_str neg +:+ (if grouped then group3 ip else ip)
        +:+ "." +:+ last_digits k n ""
  end.

(** [n] is an integer nearest to [num/den] *)
Definition nearest (n num den : Z) : Prop := 2 * Z.abs (n * den - num) <= den.

(** A digit string cut by commas into groups of three counted from the
    right; the first group has [k] digits, from one to three. *)
Inductive grouped : nat -> string -> Prop :=
| grouped_one d :
    PyStr.is_digit d = true -> grouped 1 (String d EmptyString)
| grouped_digit k d s :
    grouped k s -> (k < 3)%nat -> PyStr.is_digit d = true -> grouped (S k) (String d s)
| grouped_comma d s :
    grouped 3 s -> PyStr.is_digit d = true -> grouped 1 (String d (String ","%char s)).

(** [int(p)]: truncation towards zero *)
Definition int_of_float (p : pyfloat) : outcome Z :=
  match p with
  | FNan => Raised ValueError
  | FInf _ => Raised OverflowError
  | FFin neg m e =>
      let a := if 0 <=? e then Z.of_N m * 2 ^ e else Z.of_N m / 2 ^ (- e) in
      Returned (if neg then - a else a)
  end.

(** [f"{z:,}"] for an int *)
Definition format_int_grouped (z : Z) : string :=
  sign_str (z <? 0) +:+ group3 (int_digits (Z.abs z)).

End PyFloat.
Export PyFloat.

(** ** Dynamically typed values

    The values that reach [format_price] and [format_market_cap] through
    their [Any] parameter. *)

Inductive pyval :=
| VNone
| VBool (b : bool)
| VInt (z : Z)
| VFloat (p : pyfloat)
| VStr (s : string)
| VContainer (nonempty : bool).   (* a list or a dict *)

(** [bool(v)] *)
Definition truthy (v : pyval) : bool :=
  match v with
  | VNone => false
  | VBool b => b
  | VInt z => negb (z =? 0)%Z
  | VFloat FNan => true
  | VFloat (FInf _) => true
  | VFloat (FFin _ m _) => negb (m =? 0)%N
  | VStr s => PyStr.nonempty s
  | VContainer b => b
  end.

(** [float(v)] *)
Definition py_float (v : pyval) : outcome pyfloat :=
  match v with
  | VNone => Raised TypeError
  | VBool b => Returned (FFin false (if b then 1 else 0) 0)
  | VInt z => float_of_int z
  | VFloat p => Returned p
  | VStr s => float_of_string s
  | VContainer _ => Raised TypeError
  end.

(** [format_price]: the body of the [try] and the function with its bare
    [except]. *)
Definition format_price_try (price : pyval) : outcome string :=
  bind (py_float price) (fun p =>
    if ge_one p then Returned (format_fixed true 2 p)
    else Returned (PyStr.rstrip_char "." (PyStr.rstrip_char "0" (format_fixed false 8 p)))).

Definition format_price (price : pyval) : string :=
  try_except (format_price_try price) (fun _ => "N/A").

Definition format_market_cap_try (mc : pyval) : outcome string :=
  bind (py_float mc) (fun p =>
    bind (int_of_float p) (fun n => Returned (format_int_grouped n))).

Definition format_market_cap (mc : pyval) : string :=
  try_except (format_market_cap_try mc) (fun _ => "N/A").


(** ** Records of the feeds

    A JSON object is read through [.get(key)] only, so it is a record of
    optional fields, each with the type the DexScreener schema gives it.
    [None] stands for a missing key and, where the script reads the key
    without a default, also for a null. *)

Definition key : Type := string * string.   (* (chain_id, token_address) *)

Record link := {
  link_type : option string;
  link_url : option string;
  link_label : option string;
}.

Record ad := {
  ad_chainId : option string;
  ad_tokenAddress : option string;
  ad_date : option string;
  ad_durationHours : option Z;
  ad_url : option string;
}.

Record profile := {
  pr_chainId : option string;
  pr_tokenAddress : option string;
  pr_openGraph : option string;
  pr_header : option string;
  pr_icon : option string;
  pr_links : option (list link);
  pr_description : option string;
  pr_url : option string;
}.

Record boost := {
  bo_chainId : option string;
  bo_tokenAddress : option string;
  bo_totalAmount : option Z;
  bo_amount : option Z;
}.

(** [or_paymentTimestamp = None]: the key is missing, and [.get(key, 0)]
    yields its default. *)
Record order := {
  or_paymentTimestamp : option Z;
  or_type : option string;
  or_status : option string;
}.

Record base_token := {
  bt_name : option string;
  bt_symbol : option string;
}.

Record pair := {
  pa_baseToken : option base_token;
  pa_priceUsd : pyval;
  pa_marketCap : pyval;
  pa_fdv : pyval;
}.

(** The body of a feed: a list of records, or some other JSON value of
    which only the truth value matters. *)
Inductive feed (R : Type) :=
| Records (items : list R)
| NotAList (truth : bool).
Arguments Records {R} items.
Arguments NotAList {R} truth.

(** [bool(v)] for a fetched value; [None] is Python's [None] *)
Definition feed_truthy {R} (v : option (feed R)) : bool :=
  match v with
  | None => false
  | Some (Records l) => match l with [] => false | _ => true end
  | Some (NotAList b) => b
  end.

(** The object served by the orders endpoint: its ["orders"] list, if the
    key is there. *)
Record orders_doc := {
  od_orders : option (list order);
}.

(** One inbound Telegram update: its ["message"], if any, with the
    ["text"] and the ["chat"]["id"] of the message, and its
    ["update_id"]. *)
Record message := {
  msg_text : option string;
  msg_chat_id : option Z;
}.

Record update := {
  up_message : option message;
  up_update_id : option Z;
}.

Record updates_doc := {
  ud_ok : bool;
  ud_result : list update;
}.

(** ** The outside world *)

(** What [requests.get] / [requests.post] hand back: a status code and the
    outcome of [response.json()], where [Returned None] is a JSON null. *)
Record response (A : Type) := {
  status_code : Z;
  json : outcome (option A);
}.
Arguments status_code {A} r.
Arguments json {A} r.

(** A request raises (transport error, timeout) or gives a response. *)
Definition reply (A : Type) : Type := outcome (response A).

(** The servers' answers, indexed by the number of requests made before. *)
Record world := {
  w_ads : nat -> reply (feed ad);
  w_profiles : nat -> reply (feed profile);
  w_boosts : nat -> reply (feed boost);
  w_orders : nat -> string -> reply orders_doc;        (* by URL *)
  w_tokens : nat -> string -> reply (feed pair);       (* by URL *)
  w_post : nat -> reply unit;                          (* sendPhoto, sendMessage *)
  w_updates : nat -> reply updates_doc;                (* getUpdates *)
  w_runtime : nat -> Z;                                (* seconds since start *)
}.

(** ** Effects and state *)

Inductive level := INFO | WARNING.

Inductive effect :=
| Print (text : string)                                   (* print(...) *)
| Alert (title : string) (lines : list string) (emoji : string)
                                                          (* the console block of print_alert *)
| Log (lv : level) (msg : string)                         (* logger.info / logger.warning *)
| HttpGet (url : string)
| SendPhoto (photo_url : option string) (caption : string) (* POST .../sendPhoto *)
| SendMessage (text : string)                             (* POST .../sendMessage *)
| GetUpdates (offset : option Z).                         (* GET .../getUpdates *)

Record stats_t := {
  polls : nat;
  ads_detected : nat;
  boosts_detected : nat;
  orders_detected : nat;
  errors : nat;
}.

Record state := {
  stats : stats_t;
  seen_ads : gset key;
  seen_boosts : gmap string Z;
  seen_orders : gmap string Z;
  seen_profiles : gset key;
  profile_headers : gmap key string;
  profile_socials : gmap key (list link);
  known_tokens : gset key;
  clock : nat;             (* requests made so far *)
  trace : list effect;     (* effects so far, oldest first *)
}.

Definition initial_stats : stats_t :=
  {| polls := 0; ads_detected := 0; boosts_detected := 0; orders_detected := 0; errors := 0 |}.

Definition initial_state : state :=
  {| stats := initial_stats; seen_ads := ∅; seen_boosts := ∅; seen_orders := ∅;
     seen_profiles := ∅; profile_headers := ∅; profile_socials := ∅;
     known_tokens := ∅; clock := 0; trace := [] |}.

Definition set_stats (f : stats_t -> stats_t) (st : state) : state :=
  {| stats := f (stats st); seen_ads := seen_ads st; seen_boosts := seen_boosts st;
     seen_orders := seen_orders st; seen_profiles := seen_profiles st;
     profile_headers := profile_headers st; profile_socials := profile_socials st;
     known_tokens := known_tokens st; clock := clock st; trace := trace st |}.

Definition incr_polls (s : stats_t) : stats_t :=
  {| polls := S (polls s); ads_detected := ads_detected s; boosts_detected := boosts_detected s;
     orders_detected := orders_detected s; errors := errors s |}.
Definition incr_ads (s : stats_t) : stats_t :=
  {| polls := polls s; ads_detected := S (ads_detected s); boosts_detected := boosts_detected s;
     orders_detected := orders_detected s; errors := errors s |}.
Definition incr_boosts (s : stats_t) : stats_t :=
  {| polls := polls s; ads_detected := ads_detected s; boosts_detected := S (boosts_detected s);
     orders_detected := orders_detected s; errors := errors s |}.
Definition incr_orders (s : stats_t) : stats_t :=
  {| polls := polls s; ads_detected := ads_detected s; boosts_detected := boosts_detected s;
     orders_detected := S (orders_detected s); errors := errors s |}.
Definition incr_errors (s : stats_t) : stats_t :=
  {| polls := polls s; ads_detected := ads_detected s; boosts_detected := boosts_detected s;
     orders_detected := orders_detected s; errors := S (errors s) |}.

Definition set_seen_ads (v : gset key) (st : state) : state :=
  {| stats := stats st; seen_ads := v; seen_boosts := seen_boosts st;
     seen_orders := seen_orders st; seen_profiles := seen_profiles st;
     profile_headers := profile_headers st; profile_socials := profile_socials st;
     known_tokens := known_tokens st; clock := clock st; trace := trace st |}.
Definition set_seen_boosts (v : gmap string Z) (st : state) : state :=
  {| stats := stats st; seen_ads := seen_ads st; seen_boosts := v;
     seen_orders := seen_orders st; seen_profiles := seen_profiles st;
     profile_headers := profile_headers st; profile_socials := profile_socials st;
     known_tokens := known_tokens st; clock := clock st; trace := trace st |}.
Definition set_seen_orders (v : gmap string Z) (st : state) : state :=
  {| stats := stats st; seen_ads := seen_ads st; seen_boosts := seen_boosts st;
     seen_orders := v; seen_profiles := seen_profiles st;
     profile_headers := profile_headers st; profile_socials := profile_socials st;
     known_tokens := known_tokens st; clock := clock st; trace := trace st |}.
Definition set_seen_profiles (v : gset key) (st : state) : state :=
  {| stats := stats st; seen_ads := seen_ads st; seen_boosts := seen_boosts st;
     seen_orders := seen_orders st; seen_profiles := v;
     profile_headers := profile_headers st; profile_socials := profile_socials st;
     known_tokens := known_tokens st; clock := clock st; trace := trace st |}.
Definition set_profile_headers (v : gmap key string) (st : state) : state :=
  {| stats := stats st; seen_ads := seen_ads st; seen_boosts := seen_boosts st;
     seen_orders := seen_orders st; seen_profiles := seen_profiles st;
     profile_headers := v; profile_socials := profile_socials st;
     known_tokens := known_tokens st; clock := clock st; trace := trace st |}.
Definition set_profile_socials (v : gmap key (list link)) (st : state) : state :=
  {| stats := stats st; seen_ads := seen_ads st; seen_boosts := seen_boosts st;
     seen_orders := seen_orders st; seen_profiles := seen_profiles st;
     profile_headers := profile_headers st; profile_socials := v;
     known_tokens := known_tokens st; clock := clock st; trace := trace st |}.
Definition set_known_tokens (v : gset key) (st : state) : state :=
  {| stats := stats st; seen_ads := seen_ads st; seen_boosts := seen_boosts st;
     seen_orders := seen_orders st; seen_profiles := seen_profiles st;
     profile_headers := profile_headers st; profile_socials := profile_socials st;
     known_tokens := v; clock := clock st; trace := trace st |}.

(** one more request has been made *)
Definition tick (st : state) : state :=
  {| stats := stats st; seen_ads := seen_ads st; seen_boosts := seen_boosts st;
     seen_orders := seen_orders st; seen_profiles := seen_profiles st;
     profile_headers := profile_headers st; profile_socials := profile_socials st;
     known_tokens := known_tokens st; clock := S (clock st); trace := trace st |}.

Definition emit (e : effect) (st : state) : state :=
  {| stats := stats st; seen_ads := seen_ads st; seen_boosts := seen_boosts st;
     seen_orders := seen_orders st; seen_profiles := seen_profiles st;
     profile_headers := profile_headers st; profile_socials := profile_socials st;
     known_tokens := known_tokens st; clock := clock st; trace := trace st ++ [e] |}.

(** ** Rendering helpers *)

(** [str(v)] inside an f-string, for an optional string or int *)
Definition str_opt (o : option string) : string := default "None" o.
Definition str_opt_Z (o : option Z) : string :=
  match o with Some z => pretty z | None => "None" end.

(** [bool(v)] for an optional string *)
Definition opt_truthy (o : option string) : bool :=
  match o with Some s => PyStr.nonempty s | None => false end.

Definition str_exn (e : exn) : string :=
  match e with
  | ValueError => "ValueError"
  | TypeError => "TypeError"
  | OverflowError => "OverflowError"
  | TransportError => "ConnectionError"
  | JSONDecodeError => "JSONDecodeError"
  end.

(** ** Endpoints *)

Definition DEX_ADS_URL : string := "https://api.dexscreener.com/ads/latest/v1".
Definition DEX_BOOST_URL : string := "https://api.dexscreener.com/token-boosts/latest/v1".
Definition DEX_PROFILES_URL : string := "https://api.dexscreener.com/token-profiles/latest/v1".
Definition DEX_ORDERS_URL (chain_id token_address : string) : string :=
  "https://api.dexscreener.com/orders/v1/" +:+ chain_id +:+ "/" +:+ token_address.
Definition DEX_TOKENS_URL (chain_id token_address : string) : string :=
  "https://api.dexscreener.com/tokens/v1/" +:+ chain_id +:+ "/" +:+ token_address.

(** ** The enrichment record and the dicts rebuilt by [print_alert] *)

(** the dict returned by [get_token_info], when it is not empty *)
Record token_info := {
  ti_name : string;
  ti_symbol : string;
  ti_price_usd : pyval;
  ti_market_cap : pyval;
}.

(** [token_info.get(k)] on a possibly empty dict *)
Definition info_name (t : option token_info) : option string := ti_name <$> t.
Definition info_symbol (t : option token_info) : option string := ti_symbol <$> t.
Definition info_price_usd (t : option token_info) : pyval :=
  match t with Some i => ti_price_usd i | None => VNone end.
Definition info_market_cap (t : option token_info) : pyval :=
  match t with Some i => ti_market_cap i | None => VNone end.

(** [token_info] as [print_alert] rebuilds it from the console lines *)
Record tg_info := {
  tg_name : option string;
  tg_symbol : option string;
  tg_price_usd : option string;
  tg_market_cap : option string;
}.

(** [extra_info] as [print_alert] builds it: a dict with these keys at most *)
Record extra := {
  x_description : option string;
  x_amount : option string;
  x_total : option string;
  x_order_type : option string;
  x_status : option string;
  x_paid_at : option string;
  x_duration : option string;
  x_date : option string;
  x_url : option string;
  x_header_image : option string;
  x_social_links : option (list link);
}.

Definition empty_info : tg_info :=
  {| tg_name := None; tg_symbol := None; tg_price_usd := None; tg_market_cap := None |}.

Definition empty_extra : extra :=
  {| x_description := None; x_amount := None; x_total := None; x_order_type := None;
     x_status := None; x_paid_at := None; x_duration := None; x_date := None;
     x_url := None; x_header_image := None; x_social_links := None |}.

(** [k in d] for a key read as an optional field *)
Definition has_key {A} (o : option A) : bool :=
  match o with Some _ => true | None => false end.

(** [bool(extra_info)]: some key is set *)
Definition extra_truthy (x : extra) : bool :=
  has_key (x_description x) || has_key (x_amount x) || has_key (x_total x)
  || has_key (x_order_type x) || has_key (x_status x) || has_key (x_paid_at x)
  || has_key (x_duration x) || has_key (x_date x) || has_key (x_url x)
  || has_key (x_header_image x) || has_key (x_social_links x).

(** ** The Telegram message and its image *)

Definition event_emoji (event_type : string) : string :=
  if String.eqb event_type "AD" then "📢"
  else if String.eqb event_type "PROFILE" then "📝"
  else if String.eqb event_type "BOOST" then "🚀"
  else if String.eqb event_type "ORDER" then "💰"
  else "🔔".

Definition social_emoji (link_type : string) : string :=
  if String.eqb link_type "twitter" then "𝕏"
  else if String.eqb link_type "telegram" then "✈️"
  else if String.eqb link_type "discord" then "💬"
  else if String.eqb link_type "website" then "🌐"
  else if String.eqb link_type "reddit" then "🔴"
  else "🔗".

(** [lines.append(x)] under a condition *)
Definition append_if (c : bool) (x : list string) (lines : list string) : list string :=
  if c then lines ++ x else lines.

(** one line of the [key in extra_info] kind *)
Definition field_line (prefix : string) (o : option string) (suffix : string)
    (lines : list string) : list string :=
  match o with
  | Some v => lines ++ [prefix +:+ v +:+ suffix]
  | None => lines
  end.

Definition social_line (l : link) : list string :=
  let link_type := default "link" (link_type l) in
  let link_url := default "" (link_url l) in
  if PyStr.nonempty link_url then
    let emoji := social_emoji (PyStr.lower link_type) in
    let label := default (PyStr.title link_type) (link_label l) in
    ["  " +:+ emoji +:+ " <a href='" +:+ link_url +:+ "'>" +:+ label +:+ "</a>"]
  else [].

(** the text of the alert: lines 169-258 of the script, for a dict
    [extra_info] *)
Definition alert_message (event_type : string) (info : tg_info)
    (chain_id token_address : string) (extra_info : extra) : string :=
  let emoji := event_emoji event_type in
  let lines :=
    ["<b>" +:+ emoji +:+ " " +:+ event_type +:+ " ALERT</b>"; ""; "━━━━━━━━━━━━━━━━━"] in
  let name := default "Unknown" (tg_name info) in
  let symbol := default "" (tg_symbol info) in
  let lines := lines ++
    ["💎 <b>" +:+ name +:+ "</b> "
       +:+ (if PyStr.nonempty symbol then "(" +:+ symbol +:+ ")" else "")] in
  let lines := lines ++ ["⛓️ Chain: <b>" +:+ PyStr.upper chain_id +:+ "</b>"] in
  let lines :=
    match tg_price_usd info with
    | Some price =>
        append_if (PyStr.nonempty price)
          ["💰 Price: <b>$" +:+ format_price (VStr price) +:+ "</b>"] lines
    | None => lines
    end in
  let lines :=
    match tg_market_cap info with
    | Some market_cap =>
        append_if (PyStr.nonempty market_cap)
          ["📊 Market Cap: <b>$" +:+ format_market_cap (VStr market_cap) +:+ "</b>"] lines
    | None => lines
    end in
  let lines := lines ++ [""] in
  let lines :=
    if extra_truthy extra_info then
      if String.eqb event_type "BOOST" then
        field_line "📈 Total Boosts: <b>" (x_total extra_info) "</b>"
          (field_line "⚡ New Boost: <b>" (x_amount extra_info) "</b>" lines)
      else if String.eqb event_type "ORDER" then
        field_line "🕐 Paid: " (x_paid_at extra_info) ""
          (field_line "✅ Status: <b>" (x_status extra_info) "</b>"
             (field_line "📋 Order Type: <b>" (x_order_type extra_info) "</b>" lines))
      else if String.eqb event_type "AD" then
        field_line "📅 Started: " (x_date extra_info) ""
          (field_line "⏱️ Duration: <b>" (x_duration extra_info) " hours</b>" lines)
      else lines
    else lines in
  let lines :=
    match x_description extra_info with
    | Some d =>
        append_if (PyStr.nonempty d) [""; "📄 Description: " +:+ PyStr.take 200 d] lines
    | None => lines
    end in
  let lines :=
    match x_social_links extra_info with
    | Some (l :: ls) =>
        lines ++ [""; "🔗 <b>Socials:</b>"] ++ concat (List.map social_line (firstn 5 (l :: ls)))
    | _ => lines
    end in
  let lines := lines ++ [""] in
  let lines := lines ++ ["📍 <b>Contract (tap to copy):</b>";
                         "<code>" +:+ token_address +:+ "</code>"; ""] in
  let dex_url := "https://dexscreener.com/" +:+ chain_id +:+ "/" +:+ token_address in
  let lines := lines ++ ["🔗 <a href='" +:+ dex_url +:+ "'>View on DexScreener</a>";
                         "━━━━━━━━━━━━━━━━━"] in
  PyStr.join PyStr.nl lines.

Definition chart_image_url (chain_id token_address : string) : string :=
  ("https://api.dexscreener.com/token-chart-img/" +:+ chain_id +:+ "/" +:+ token_address)
    +:+ "?w=800&h=450".

Definition thumbnail_url (chain_id token_address : string) : string :=
  "https://dd.dexscreener.com/ds-data/tokens/" +:+ chain_id +:+ "/" +:+ token_address +:+ ".png".

(** The three tries of the image selection, lines 260-276; each takes
    the value of [image_url] so far. *)
Definition image_first_try (extra_info : option extra) : option string :=
  match extra_info with
  | Some x => if extra_truthy x then x_header_image x else None
  | None => None
  end.

Definition image_second_try (chain_id token_address : string)
    (image_url : option string) : option string :=
  if negb (opt_truthy image_url) then Some (chart_image_url chain_id token_address)
  else image_url.

Definition image_last_resort (chain_id token_address : string)
    (image_url : option string) : option string :=
  if negb (opt_truthy image_url) then Some (thumbnail_url chain_id token_address)
  else image_url.

Definition select_image (extra_info : option extra) (chain_id token_address : string)
    : option string :=
  image_last_resort chain_id token_address
    (image_second_try chain_id token_address (image_first_try extra_info)).

(** [format_telegram_alert]: with the default [extra_info=None] the
    membership test of line 222 raises. *)
Definition format_telegram_alert (event_type : string) (info : tg_info)
    (chain_id token_address : string) (extra_info : option extra)
    : outcome (string * option string) :=
  match extra_info with
  | None => Raised TypeError
  | Some x =>
      Returned (alert_message event_type info chain_id token_address x,
                select_image extra_info chain_id token_address)
  end.

(** ** The console lines of the four alerts *)

(** the identity of a record: [None] when [chainId] or [tokenAddress] is
    missing or empty, and the loop goes on to the next record *)
Definition identity (chain_id token_address : option string) : option key :=
  match chain_id, token_address with
  | Some c, Some t =>
      if negb (PyStr.nonempty c) || negb (PyStr.nonempty t) then None else Some (c, t)
  | _, _ => None
  end.

(** the lines common to the alerts *)
Definition token_line (token_info : option token_info) : string :=
  "Token: " +:+ str_opt (info_name token_info)
    +:+ " (" +:+ str_opt (info_symbol token_info) +:+ ")".

Definition price_lines (token_info : option token_info) : list string :=
  [ "Price: $" +:+ format_price (info_price_usd token_info);
    "Market Cap: $" +:+ format_market_cap (info_market_cap token_info) ].

Definition ad_lines (a : ad) (chain_id token_address : string)
    (token_info : option token_info) : list string :=
  let lines :=
    [ "Type: BANNER AD";
      "Chain: " +:+ chain_id;
      token_line token_info;
      "Address: " +:+ token_address;
      "Started: " +:+ str_opt (ad_date a);
      "Duration: " +:+ str_opt_Z (ad_durationHours a) +:+ " hours" ]
    ++ price_lines token_info in
  append_if (opt_truthy (ad_url a)) ["URL: " +:+ str_opt (ad_url a)] lines.

Definition profile_lines (p : profile) (chain_id token_address : string)
    (token_info : option token_info) : list string :=
  let lines :=
    [ "Type: TOKEN PROFILE";
      "Chain: " +:+ chain_id;
      token_line token_info;
      "Address: " +:+ token_address ]
    ++ price_lines token_info in
  let lines :=
    append_if (opt_truthy (pr_description p))
      ["Description: " +:+ PyStr.take 100 (str_opt (pr_description p)) +:+ "..."] lines in
  append_if (opt_truthy (pr_url p)) ["URL: " +:+ str_opt (pr_url p)] lines.

(** the line that reports the stored total and the increase, only there
    when the stored total is positive *)
Definition previous_line (total_amount previous_amount : Z) : string :=
  "Previous: " +:+ pretty previous_amount
    +:+ " (+" +:+ pretty (total_amount - previous_amount)%Z +:+ ")".

Definition boost_lines (b : boost) (chain_id token_address : string)
    (total_amount previous_amount : Z) (token_info : option token_info) : list string :=
  let lines :=
    [ "Type: TOKEN BOOST";
      "Chain: " +:+ chain_id;
      token_line token_info;
      "Address: " +:+ token_address;
      "New Boost: " +:+ str_opt_Z (bo_amount b)
        +:+ " (Total: " +:+ pretty total_amount +:+ ")" ] in
  let lines :=
    append_if (0 <? previous_amount)%Z [previous_line total_amount previous_amount] lines in
  lines ++ price_lines token_info.

Definition order_lines (o : order) (chain_id token_address date_str : string)
    (token_info : option token_info) : list string :=
  let order_type := default "unknown" (or_type o) in
  let status := default "unknown" (or_status o) in
  [ "Type: PAID ORDER - " +:+ PyStr.upper order_type;
    "Chain: " +:+ chain_id;
    token_line token_info;
    "Address: " +:+ token_address;
    "Order Type: " +:+ order_type;
    "Status: " +:+ status;
    "Paid At: " +:+ date_str ]
  ++ price_lines token_info.

(** the best image of a profile: openGraph, then header, then icon *)
Definition profile_image (p : profile) : option string :=
  if opt_truthy (pr_openGraph p) then pr_openGraph p
  else if opt_truthy (pr_header p) then pr_header p
  else if opt_truthy (pr_icon p) then pr_icon p
  else None.

(** [bool(profile.get("links"))] *)
Definition links_truthy (o : option (list link)) : bool :=
  match o with Some (_ :: _) => true | _ => false end.

(** ** Observations on a run *)

(** the alerts of a trace, in order: title and console lines *)
Definition alert_of (e : effect) : option (string * list string) :=
  match e with
  | Alert title lines _ => Some (title, lines)
  | _ => None
  end.

Definition alerts (tr : list effect) : list (string * list string) := omap alert_of tr.

(** The four kinds of event, told apart by the title that the detection
    procedure hands to [print_alert]. *)
Inductive event_kind := AD | PROFILE | BOOST | ORDER.

Definition is_kind (k : event_kind) (a : string * list string) : bool :=
  match k with
  | AD => String.eqb (fst a) "NEW AD"
  | PROFILE => String.eqb (fst a) "NEW TOKEN PROFILE"
  | BOOST => String.eqb (fst a) "NEW BOOST"
  | ORDER => String.prefix "NEW ORDER - " (fst a)
  end.

(** the events of kind [k] in a trace, and their number *)
Definition events (k : event_kind) (tr : list effect) : list (string * list string) :=
  List.filter (is_kind k) (alerts tr).

Definition count_events (k : event_kind) (tr : list effect) : nat :=
  length (events k tr).

(** the requests made to Telegram to deliver something *)
Definition is_send (e : effect) : bool :=
  match e with
  | SendPhoto _ _ | SendMessage _ => true
  | _ => false
  end.

Definition sends (tr : list effect) : list effect := List.filter is_send tr.

(** the detection state: everything but the statistics, the clock and
    the trace *)
Definition data (st : state) :=
  (seen_ads st, seen_boosts st, seen_orders st, seen_profiles st,
   profile_headers st, profile_socials st, known_tokens st).

(** the detection counters *)
Definition counters (st : state) : nat * nat * nat :=
  (ads_detected (stats st), boosts_detected (stats st), orders_detected (stats st)).

(** [st'] comes from [st] by steps that detect nothing: same detection
    state, same counters, no alert *)
Definition quiet (st st' : state) : Prop :=
  data st' = data st ∧ counters st' = counters st
  ∧ alerts (trace st') = alerts (trace st).

(** [st'] comes from [st] by steps that raise no alert and count nothing *)
Definition silent (st st' : state) : Prop :=
  counters st' = counters st ∧ alerts (trace st') = alerts (trace st).

(** the seen-sets and the known-token set only grow, and a stored value
    stays stored *)
Definition grows (st st' : state) : Prop :=
  seen_ads st ⊆ seen_ads st' ∧ seen_profiles st ⊆ seen_profiles st'
  ∧ known_tokens st ⊆ known_tokens st'
  ∧ dom (seen_boosts st) ⊆ dom (seen_boosts st')
  ∧ dom (seen_orders st) ⊆ dom (seen_orders st')
  ∧ dom (profile_headers st) ⊆ dom (profile_headers st')
  ∧ dom (profile_socials st) ⊆ dom (profile_socials st').

(** every detection counter equals the number of events it stands for *)
Definition counted (st : state) : Prop :=
  ads_detected (stats st) = count_events AD (trace st)
  ∧ boosts_detected (stats st) = count_events BOOST (trace st)
  ∧ orders_detected (stats st)
    = count_events ORDER (trace st) + count_events PROFILE (trace st).

(** the caches after a profile with identity [key] has been looked at *)
Definition observe_profile (key : key) (p : profile) (st : state) : state :=
  let st := set_known_tokens ({[ key ]} ∪ known_tokens st) st in
  let st :=
    if opt_truthy (profile_image p)
    then set_profile_headers (<[ key := default "" (profile_image p) ]> (profile_headers st)) st
    else st in
  if links_truthy (pr_links p)
  then set_profile_socials (<[ key := default [] (pr_links p) ]> (profile_socials st)) st
  else st.

(** what every part of a run does: the sets only grow, and the counters
    keep counting the events *)
Definition sound (st st' : state) : Prop :=
  grows st st' ∧ (counted st → counted st').

(** a boost record of token [(c, t)] with total [total] *)
Definition observes_boost (c t : string) (total : Z) (b : boost) : Prop :=
  identity (bo_chainId b) (bo_tokenAddress b) = Some (c, t)
  ∧ bo_totalAmount b = Some total.

(** between [st] and [st'] nothing happened to the boosts of token
    address [t]: same stored total, no BOOST event *)
Definition boosts_undisturbed (t : string) (st st' : state) : Prop :=
  seen_boosts st' !! t = seen_boosts st !! t
  ∧ events BOOST (trace st') = events BOOST (trace st).

(** the same for the orders of token address [t] *)
Definition orders_undisturbed (t : string) (st st' : state) : Prop :=
  seen_orders st' !! t = seen_orders st !! t
  ∧ events ORDER (trace st') = events ORDER (trace st).

(** a console line that reports a previous total and an increase *)
Definition reports_delta (line : string) : bool := PyStr.startswith line "Previous:".

(** a delivery request succeeded: status 200, no exception *)
Definition post_ok (r : reply unit) : bool :=
  match r with
  | Returned response => (status_code response =? 200)%Z
  | Raised _ => false
  end.

(** ** Worlds that differ in one endpoint *)

(** a response with status 500, whatever its body *)
Definition http_500 {A} (body : outcome (option A)) : reply A :=
  Returned {| status_code := 500; json := body |}.

(** a response with status 200 and a JSON body *)
Definition http_ok {A} (v : A) : reply A :=
  Returned {| status_code := 200; json := Returned (Some v) |}.

Definition with_ads (w : world) (f : nat → reply (feed ad)) : world :=
  {| w_ads := f; w_profiles := w_profiles w; w_boosts := w_boosts w;
     w_orders := w_orders w; w_tokens := w_tokens w; w_post := w_post w;
     w_updates := w_updates w; w_runtime := w_runtime w |}.

Definition with_profiles (w : world) (f : nat → reply (feed profile)) : world :=
  {| w_ads := w_ads w; w_profiles := f; w_boosts := w_boosts w;
     w_orders := w_orders w; w_tokens := w_tokens w; w_post := w_post w;
     w_updates := w_updates w; w_runtime := w_runtime w |}.

Definition with_boosts (w : world) (f : nat → reply (feed boost)) : world :=
  {| w_ads := w_ads w; w_profiles := w_profiles w; w_boosts := f;
     w_orders := w_orders w; w_tokens := w_tokens w; w_post := w_post w;
     w_updates := w_updates w; w_runtime := w_runtime w |}.

Definition with_tokens (w : world) (f : nat → string → reply (feed pair)) : world :=
  {| w_ads := w_ads w; w_profiles := w_profiles w; w_boosts := w_boosts w;
     w_orders := w_orders w; w_tokens := f; w_post := w_post w;
     w_updates := w_updates w; w_runtime := w_runtime w |}.

(** ** Example data *)

Definition ex_chain : string := "solana".
Definition ex_token : string := "So1TokenAddress111".
Definition ex_key : key := (ex_chain, ex_token).

Definition ex_pair : pair :=
  {| pa_baseToken := Some {| bt_name := Some "Example"; bt_symbol := Some "EXM" |};
     pa_priceUsd := VStr "1234.5"; pa_marketCap := VInt 1000000; pa_fdv := VNone |}.

(** every feed is empty, the enrichment knows one pair, Telegram accepts
    every request *)
Definition ex_world : world :=
  {| w_ads := λ _, http_ok (Records []);
     w_profiles := λ _, http_ok (Records []);
     w_boosts := λ _, http_ok (Records []);
     w_orders := λ _ _, http_ok {| od_orders := None |};
     w_tokens := λ _ _, http_ok (Records [ex_pair]);
     w_post := λ _, Returned {| status_code := 200; json := Returned None |};
     w_updates := λ _, Raised TransportError;
     w_runtime := λ n, Z.of_nat n |}.

(** the same world with Telegram answering 500 to every request *)
Definition ex_world_down : world :=
  {| w_ads := w_ads ex_world; w_profiles := w_profiles ex_world;
     w_boosts := w_boosts ex_world; w_orders := w_orders ex_world;
     w_tokens := w_tokens ex_world;
     w_post := λ _, Returned {| status_code := 500; json := Returned None |};
     w_updates := w_updates ex_world; w_runtime := w_runtime ex_world |}.

Definition ex_bot_token : option string := Some "123:abc".
Definition ex_chat_id : option string := Some "42".

(** 2024-01-01 00:00:00 UTC *)
Definition ex_start_ms : Z := 1704067200000.

Definition ex_strftime (ts : Z) : outcome string := Raised OverflowError.

Definition ex_ad : ad :=
  {| ad_chainId := Some ex_chain; ad_tokenAddress := Some ex_token;
     ad_date := Some "2024-01-02T00:00:00Z"; ad_durationHours := Some 24%Z;
     ad_url := None |}.

Definition ex_profile (image : option string) : profile :=
  {| pr_chainId := Some ex_chain; pr_tokenAddress := Some ex_token;
     pr_openGraph := image; pr_header := None; pr_icon := None;
     pr_links := None; pr_description := None; pr_url := None |}.

Definition ex_boost (total : option Z) : boost :=
  {| bo_chainId := Some ex_chain; bo_tokenAddress := Some ex_token;
     bo_totalAmount := total; bo_amount := Some 1%Z |}.

Definition ex_order (ts : Z) : order :=
  {| or_paymentTimestamp := Some ts; or_type := Some "tokenProfile";
     or_status := Some "approved" |}.

(** two payment times after [ex_start_ms] *)
Definition ex_T1 : Z := 1704067260000.
Definition ex_T2 : Z := 1704067320000.

(** a world in which a profile appears in the feed after a while and the
    token has one order *)
Definition ex_world_profile : world :=
  with_profiles
    {| w_ads := w_ads ex_world; w_profiles := w_profiles ex_world;
       w_boosts := w_boosts ex_world;
       w_orders := λ _ _, http_ok {| od_orders := Some [ex_order ex_T1] |};
       w_tokens := w_tokens ex_world; w_post := w_post ex_world;
       w_updates := w_updates ex_world; w_runtime := w_runtime ex_world |}
    (λ n, if (n <? 5)%nat then http_ok (Records [])
          else http_ok (Records [ex_profile None])).

(** every event of the list reports a previous total and an increase *)
Definition each_reports_delta (evs : list (string * list string)) : Prop :=
  Forall (λ ev, ∃ line, line ∈ ev.2 ∧ reports_delta line = true) evs.

(** ** Relations between two states of a run *)

(** the requests made to Telegram, for delivery and by the command
    listener *)
Definition is_telegram (e : effect) : bool :=
  match e with
  | SendPhoto _ _ | SendMessage _ | GetUpdates _ => true
  | _ => false
  end.

(** console output and GET requests to DexScreener *)
Definition is_print_or_get (e : effect) : bool :=
  match e with
  | Print _ | HttpGet _ => true
  | _ => false
  end.

(** the warnings of the log *)
Definition is_warning (e : effect) : bool :=
  match e with
  | Log WARNING _ => true
  | _ => false
  end.

Definition warnings (tr : list effect) : list effect := List.filter is_warning tr.

(** the GET requests to DexScreener *)
Definition is_get (e : effect) : bool :=
  match e with
  | HttpGet _ => true
  | _ => false
  end.

Definition gets (tr : list effect) : list effect := List.filter is_get tr.

(** [st'] comes from [st] by steps that leave the poll counter alone,
    append effects that pass [P], and nothing else, to the trace, and
    count at most one error for each GET request they make *)
Definition adds (P : effect → bool) (st st' : state) : Prop :=
  polls (stats st') = polls (stats st)
  ∧ ∃ tr, trace st' = trace st ++ tr ∧ forallb P tr = true
          ∧ errors (stats st) ≤ errors (stats st')
          ∧ errors (stats st') ≤ errors (stats st) + length (gets tr).

(** the stored boost totals, read with the default of the script, did
    not go down *)
Definition boosts_mono (st st' : state) : Prop :=
  ∀ t, (default 0 (seen_boosts st !! t) ≤ default 0 (seen_boosts st' !! t))%Z.

(** the same for the stored payment times *)
Definition orders_mono (st st' : state) : Prop :=
  ∀ t, (default 0 (seen_orders st !! t) ≤ default 0 (seen_orders st' !! t))%Z.

(** what each detector has no business with: the state of the other
    detectors and their counters *)
Definition ads_frame (st : state) :=
  (seen_boosts st, seen_orders st, seen_profiles st, profile_headers st,
   profile_socials st, boosts_detected (stats st), orders_detected (stats st)).

Definition profiles_frame (st : state) :=
  (seen_ads st, seen_boosts st, seen_orders st,
   ads_detected (stats st), boosts_detected (stats st)).

Definition boosts_frame (st : state) :=
  (seen_ads st, seen_orders st, seen_profiles st, profile_headers st,
   profile_socials st, ads_detected (stats st), orders_detected (stats st)).

Definition orders_frame (st : state) :=
  (seen_ads st, seen_boosts st, seen_profiles st, profile_headers st,
   profile_socials st, known_tokens st,
   ads_detected (stats st), boosts_detected (stats st)).

(** a delivery request raised (transport error, timeout) *)
Definition post_raised (r : reply unit) : bool :=
  match r with
  | Raised _ => true
  | Returned _ => false
  end.

(** an update that carries one of the two commands *)
Definition is_command (u : update) : bool :=
  match up_message u with
  | Some {| msg_text := Some text |} =>
      PyStr.startswith text "/start" || PyStr.startswith text "/status"
  | _ => false
  end.

(** a text message comes with the id of its chat *)
Definition has_chat (u : update) : bool :=
  match up_message u with
  | Some {| msg_text := Some _; msg_chat_id := None |} => false
  | _ => true
  end.

(** ** The set-up script [test_bot.py]

    The script reads the lines of [.env], and writes the file again
    line by line: a line that starts with the name of the chat id
    variable is replaced by the assignment of the chat id found in the
    latest update ([None] when the update has no message or no chat),
    every other line is written as it is. *)

Definition env_line (chat_id : option Z) : string :=
  "TELEGRAM_CHAT_ID=" +:+ str_opt_Z chat_id +:+ PyStr.nl.

Definition update_env (chat_id : option Z) (lines : list string) : list string :=
  List.map (λ line, if PyStr.startswith line "TELEGRAM_CHAT_ID=" then env_line chat_id
                    else line) lines.

(** every token that has been seen, cached or boosted is a known token *)
Definition tracked (st : state) : Prop :=
  seen_ads st ⊆ known_tokens st
  ∧ seen_profiles st ⊆ known_tokens st
  ∧ dom (profile_headers st) ⊆ known_tokens st
  ∧ dom (profile_socials st) ⊆ known_tokens st
  ∧ ∀ t, t ∈ dom (seen_boosts st) → ∃ c, (c, t) ∈ known_tokens st.

(** ** More example data *)

(** a world whose feeds list one ad and one profile from the start *)
Definition ex_world_seeded : world :=
  with_profiles (with_ads ex_world (λ _, http_ok (Records [ex_ad])))
    (λ _, http_ok (Records [ex_profile None])).

(** a world whose enrichment answers 500 *)
Definition ex_world_bare : world :=
  with_tokens ex_world (λ _ _, http_500 (Returned None)).

(** an update with a text message *)
Definition ex_update (text : string) : update :=
  {| up_message := Some {| msg_text := Some text; msg_chat_id := Some 42%Z |};
     up_update_id := Some 7%Z |}.

(** a world in which getUpdates answers two commands and a greeting *)
Definition ex_world_commands : world :=
  {| w_ads := w_ads ex_world; w_profiles := w_profiles ex_world;
     w_boosts := w_boosts ex_world; w_orders := w_orders ex_world;
     w_tokens := w_tokens ex_world; w_post := w_post ex_world;
     w_updates := λ _, http_ok {| ud_ok := true;
                                  ud_result := [ex_update "/start"; ex_update "hello";
                                                ex_update "/status"] |};
     w_runtime := w_runtime ex_world |}.

(** what [print_alert] reads from the lines of an order alert *)
Definition ex_order_extra : extra :=
  {| x_description := None; x_amount := None; x_total := None;
     x_order_type := Some "tokenProfile"; x_status := Some "approved";
     x_paid_at := Some "2024-01-01 00:01:00 UTC"; x_duration := None; x_date := None;
     x_url := None; x_header_image := None; x_social_links := None |}.

(** ** Interruption

    Ctrl-C raises [KeyboardInterrupt] in the main thread: before the
    statement that comes next, or inside the request or the sleep in
    which the thread is blocked.  A [task] is a part of the script that
    an interrupt can cut short.  It is run against [sigint], which holds
    for every interrupt still to come the number of steps that are made
    before it arrives; it gives the value it returns, unless an interrupt
    cut it short, the interrupts that are left, and the state it leaves.

    The steps are the statements that change the state or print, the
    two halves of a request, and the sleep.  The console block of an
    alert is one step, as it is one effect.  An interrupt that arrives
    inside [format_price], [format_market_cap] or the date conversion of
    [check_orders] is swallowed by their bare [except:]: the fallback
    text takes the place of the rendered value, and the script goes on
    as if no interrupt had arrived.  The tasks do not follow an interrupt
    there; the text of a line has no part in what is proved of them. *)

Inductive signal (A : Type) :=
| Normal (a : A)               (* ran to its end *)
| KeyboardInterrupt.           (* cut short; the exception propagates *)
Arguments Normal {A} a.
Arguments KeyboardInterrupt {A}.

Definition task (A : Type) : Type :=
  list nat → state → signal A * list nat * state.

Global Instance task_ret : MRet task :=
  λ A a sigint st, (Normal a, sigint, st).

Global Instance task_bind : MBind task :=
  λ A B k t sigint st,
    match t sigint st with
    | (Normal a, sigint, st) => k a sigint st
    | (KeyboardInterrupt, sigint, st) => (KeyboardInterrupt, sigint, st)
    end.

(** one step: it is made unless the interrupt arrives first *)
Definition stmt (f : state → state) : task unit :=
  λ sigint st,
    match sigint with
    | [] => (Normal tt, [], f st)
    | S n :: rest => (Normal tt, n :: rest, f st)
    | O :: rest => (KeyboardInterrupt, rest, st)
    end.

Definition get_state : task state :=
  λ sigint st, (Normal st, sigint, st).

(** a request: it is sent, then the thread waits for the reply *)
Definition request (e : effect) : task unit :=
  stmt (emit e);; stmt tick.

(** [for x in l: body(x)] *)
Fixpoint for_each {X} (l : list X) (body : X → task unit) : task unit :=
  match l with
  | [] => mret tt
  | x :: l => body x;; for_each l body
  end.

(** [try: body] with a bare [except: pass], which catches
    [KeyboardInterrupt] as it catches everything *)
Definition try_pass (body : task unit) : task unit :=
  λ sigint st,
    match body sigint st with
    | (KeyboardInterrupt, sigint, st) => (Normal tt, sigint, st)
    | r => r
    end.

(** how [main] is found, after a number of turns of its loop at most *)
Inductive ending :=
| Stopped (asleep : bool) (st : state)
    (* [KeyboardInterrupt] reached the handler of [main], from the sleep
       or from the turn, and the handler printed the final statistics *)
| Aborted (st : state)
    (* an interrupt that nothing catches, before the loop or in the
       handler, ended the process with a traceback *)
| Running (st : state).
    (* the turns were made, the loop goes on *)

(** a task that counts nothing and raises no alert, however it ends *)
Definition calm {A} (t : task A) : Prop :=
  ∀ sigint st, silent st (t sigint st).2.

(** from a state in [P], the task ends in [Q] when it runs to its end and
    in [R] when it is cut short *)
Definition triple {A} (P : state → Prop) (t : task A) (Q R : state → Prop) : Prop :=
  ∀ sigint st, P st →
    match t sigint st with
    | (Normal _, _, st') => Q st'
    | (KeyboardInterrupt, _, st') => R st'
    end.

(** started in [st] and left alone, the task makes [n] steps, returns
    [a] and leaves [st'] *)
Definition makes {A} (t : task A) (st : state) (n : nat) (a : A) (st' : state) : Prop :=
  t [] st = (Normal a, [], st')
  ∧ ∀ m rest, t ((n + m)%nat :: rest) st = (Normal a, m :: rest, st').

(** started in [st] and left alone, the task returns [a] and leaves
    [st'], after a number of steps that an interrupt can wait for *)
Definition runs {A} (t : task A) (st : state) (a : A) (st' : state) : Prop :=
  ∃ n, makes t st n a st'.

(** the three detection counters *)
Inductive counter := Ads | Boosts | Orders.

Definition owes (c c' : counter) : nat :=
  match c, c' with
  | Ads, Ads | Boosts, Boosts | Orders, Orders => 1
  | _, _ => 0
  end.

(** counter [c] has counted a detection of which the alert is still to
    come; everything else is counted *)
Definition owed (c : counter) (st : state) : Prop :=
  ads_detected (stats st) = (count_events AD (trace st) + owes c Ads)%nat
  ∧ boosts_detected (stats st) = (count_events BOOST (trace st) + owes c Boosts)%nat
  ∧ orders_detected (stats st)
    = (count_events ORDER (trace st) + count_events PROFILE (trace st) + owes c Orders)%nat.

(** no counter is below the number of its events, and together they
    are one above at most *)
Definition lagging (st : state) : Prop :=
  (count_events AD (trace st) ≤ ads_detected (stats st))%nat
  ∧ (count_events BOOST (trace st) ≤ boosts_detected (stats st))%nat
  ∧ (count_events ORDER (trace st) + count_events PROFILE (trace st)
     ≤ orders_detected (stats st))%nat
  ∧ (ads_detected (stats st) + boosts_detected (stats st) + orders_detected (stats st)
     ≤ count_events AD (trace st) + count_events BOOST (trace st)
       + count_events ORDER (trace st) + count_events PROFILE (trace st) + 1)%nat.

(** an alert with this title is an event of the kinds that counter [c]
    counts, one event, and of no other kind *)
Definition counts_as (title : string) (c : counter) : Prop :=
  ∀ lines : list string,
    Nat.b2n (is_kind AD (title, lines)) = owes c Ads
    ∧ Nat.b2n (is_kind BOOST (title, lines)) = owes c Boosts
    ∧ (Nat.b2n (is_kind ORDER (title, lines)) + Nat.b2n (is_kind PROFILE (title, lines)))%nat
      = owes c Orders.

(** ** The bot *)

Section Bot.

(** the servers *)
Variable w : world.
(** [os.getenv("TELEGRAM_BOT_TOKEN")], [os.getenv("TELEGRAM_CHAT_ID")] *)
Variable TELEGRAM_BOT_TOKEN : option string.
Variable TELEGRAM_CHAT_ID : option string.
(** [int(BOT_START_TIME.timestamp() * 1000)] *)
Variable bot_start_ms : Z.
(** [datetime.fromtimestamp(ts / 1000, tz=timezone.utc).strftime(...)] *)
Variable strftime_utc : Z -> outcome string.
(** the order in which [list(known_tokens)] enumerates a set; Python
    leaves it open, and nothing below depends on it *)
Variable set_order : gset key -> list key.

Definition USE_TELEGRAM : bool :=
  opt_truthy TELEGRAM_BOT_TOKEN && opt_truthy TELEGRAM_CHAT_ID.

(** *** Fetching *)

(** the body of the [try] of [fetch_json] *)
Definition fetch_json_try {A} (r : reply A) : outcome (option A) :=
  bind r (fun response =>
    if negb (status_code response =? 200)%Z then Returned None
    else json response).

Definition fetch_json {A} (url : string) (r : reply A) (st : state)
    : option A * state :=
  let st := tick (emit (HttpGet url) st) in
  match fetch_json_try r with
  | Returned v => (v, st)
  | Raised exc => (None, set_stats incr_errors st)
  end.

Definition get_token_info (chain_id token_address : string) (st : state)
    : option token_info * state :=
  let url := DEX_TOKENS_URL chain_id token_address in
  let '(data, st) := fetch_json url (w_tokens w (clock st) url) st in
  match data with
  | Some (Records (pair :: _)) =>
      let base := default {| bt_name := None; bt_symbol := None |} (pa_baseToken pair) in
      (Some {| ti_name := if opt_truthy (bt_name base) then default "" (bt_name base)
                          else PyStr.take 8 token_address +:+ "...";
               ti_symbol := if opt_truthy (bt_symbol base) then default "" (bt_symbol base)
                            else "";
               ti_price_usd := pa_priceUsd pair;
               ti_market_cap := if truthy (pa_marketCap pair) then pa_marketCap pair
                                else pa_fdv pair |}, st)
  | _ => (None, st)
  end.

(** *** Delivery *)

Definition send_telegram_message (text : string) (st : state) : bool * state :=
  if negb USE_TELEGRAM then (false, st)
  else
    let r := w_post w (clock st) in
    let st := tick (emit (SendMessage text) st) in
    match r with
    | Returned response =>
        if (status_code response =? 200)%Z then (true, st)
        else (false, emit (Log WARNING ("Telegram send failed: "
                                         +:+ pretty (status_code response))) st)
    | Raised e => (false, emit (Log WARNING ("Telegram send error: " +:+ str_exn e)) st)
    end.

Definition send_telegram_photo (photo_url : option string) (caption : string)
    (st : state) : bool * state :=
  if negb USE_TELEGRAM then (false, st)
  else
    let r := w_post w (clock st) in
    let st := tick (emit (SendPhoto photo_url caption) st) in
    match r with
    | Returned response =>
        if (status_code response =? 200)%Z then (true, st)
        else send_telegram_message caption st
    | Raised e =>
        send_telegram_message caption
          (emit (Log WARNING ("Telegram photo send error: " +:+ str_exn e)) st)
    end.

(** *** [print_alert] *)

(** what the loop over the console lines collects *)
Record parsed := {
  p_info : tg_info;
  p_chain_id : string;
  p_token_address : string;
  p_extra : extra;
}.

Definition parse_line (acc : parsed) (line : string) : parsed :=
  let info := p_info acc in
  let x := p_extra acc in
  let with_info i :=
    {| p_info := i; p_chain_id := p_chain_id acc;
       p_token_address := p_token_address acc; p_extra := x |} in
  let with_extra e :=
    {| p_info := info; p_chain_id := p_chain_id acc;
       p_token_address := p_token_address acc; p_extra := e |} in
  if PyStr.startswith line "Chain:" then
    {| p_info := info; p_chain_id := PyStr.strip (PyStr.replace line "Chain: " "");
       p_token_address := p_token_address acc; p_extra := x |}
  else if PyStr.startswith line "Token:" then
    let parts := PyStr.strip (PyStr.replace line "Token: " "") in
    if PyStr.contains "(" parts then
      with_info
        {| tg_name := Some (PyStr.strip (nth 0 (PyStr.split parts "(") ""));
           tg_symbol := Some (PyStr.rstrip_char ")" (nth 1 (PyStr.split parts "(") ""));
           tg_price_usd := tg_price_usd info; tg_market_cap := tg_market_cap info |}
    else
      with_info
        {| tg_name := Some parts; tg_symbol := tg_symbol info;
           tg_price_usd := tg_price_usd info; tg_market_cap := tg_market_cap info |}
  else if PyStr.startswith line "Address:" then
    {| p_info := info; p_chain_id := p_chain_id acc;
       p_token_address := PyStr.strip (PyStr.replace line "Address: " "");
       p_extra := x |}
  else if PyStr.startswith line "Price:" then
    let price_str :=
      PyStr.strip (PyStr.replace (PyStr.replace line "Price: " "") "$" "") in
    with_info
      {| tg_name := tg_name info; tg_symbol := tg_symbol info;
         tg_price_usd := Some price_str; tg_market_cap := tg_market_cap info |}
  else if PyStr.startswith line "Market Cap:" then
    let mc_str :=
      PyStr.strip (PyStr.replace (PyStr.replace
        (PyStr.replace line "Market Cap: " "") "$" "") "," "") in
    with_info
      {| tg_name := tg_name info; tg_symbol := tg_symbol info;
         tg_price_usd := tg_price_usd info; tg_market_cap := Some mc_str |}
  else if PyStr.startswith line "Description:" then
    with_extra
      {| x_description := Some (PyStr.strip (PyStr.replace line "Description: " ""));
         x_amount := x_amount x; x_total := x_total x; x_order_type := x_order_type x;
         x_status := x_status x; x_paid_at := x_paid_at x; x_duration := x_duration x;
         x_date := x_date x; x_url := x_url x; x_header_image := x_header_image x;
         x_social_links := x_social_links x |}
  else if PyStr.startswith line "New Boost:" then
    let parts := PyStr.split (PyStr.replace line "New Boost: " "") "(Total:" in
    with_extra
      {| x_description := x_description x;
         x_amount := Some (PyStr.strip (nth 0 parts ""));
         x_total := if (1 <? length parts)%nat
                    then Some (PyStr.rstrip_char ")" (nth 1 parts ""))
                    else x_total x;
         x_order_type := x_order_type x;
         x_status := x_status x; x_paid_at := x_paid_at x; x_duration := x_duration x;
         x_date := x_date x; x_url := x_url x; x_header_image := x_header_image x;
         x_social_links := x_social_links x |}
  else if PyStr.startswith line "Order Type:" then
    with_extra
      {| x_description := x_description x; x_amount := x_amount x; x_total := x_total x;
         x_order_type := Some (PyStr.strip (PyStr.replace line "Order Type: " ""));
         x_status := x_status x; x_paid_at := x_paid_at x; x_duration := x_duration x;
         x_date := x_date x; x_url := x_url x; x_header_image := x_header_image x;
         x_social_links := x_social_links x |}
  else if PyStr.startswith line "Status:" then
    with_extra
      {| x_description := x_description x; x_amount := x_amount x; x_total := x_total x;
         x_order_type := x_order_type x;
         x_status := Some (PyStr.strip (PyStr.replace line "Status: " ""));
         x_paid_at := x_paid_at x; x_duration := x_duration x;
         x_date := x_date x; x_url := x_url x; x_header_image := x_header_image x;
         x_social_links := x_social_links x |}
  else if PyStr.startswith line "Paid At:" then
    with_extra
      {| x_description := x_description x; x_amount := x_amount x; x_total := x_total x;
         x_order_type := x_order_type x; x_status := x_status x;
         x_paid_at := Some (PyStr.strip (PyStr.replace line "Paid At: " ""));
         x_duration := x_duration x;
         x_date := x_date x; x_url := x_url x; x_header_image := x_header_image x;
         x_social_links := x_social_links x |}
  else if PyStr.startswith line "Duration:" then
    with_extra
      {| x_description := x_description x; x_amount := x_amount x; x_total := x_total x;
         x_order_type := x_order_type x; x_status := x_status x; x_paid_at := x_paid_at x;
         x_duration := Some (PyStr.strip (PyStr.replace
                               (PyStr.replace line "Duration: " "") " hours" ""));
         x_date := x_date x; x_url := x_url x; x_header_image := x_header_image x;
         x_social_links := x_social_links x |}
  else if PyStr.startswith line "Started:" then
    with_extra
      {| x_description := x_description x; x_amount := x_amount x; x_total := x_total x;
         x_order_type := x_order_type x; x_status := x_status x; x_paid_at := x_paid_at x;
         x_duration := x_duration x;
         x_date := Some (PyStr.strip (PyStr.replace line "Started: " ""));
         x_url := x_url x; x_header_image := x_header_image x;
         x_social_links := x_social_links x |}
  else if PyStr.startswith line "URL:" then
    with_extra
      {| x_description := x_description x; x_amount := x_amount x; x_total := x_total x;
         x_order_type := x_order_type x; x_status := x_status x; x_paid_at := x_paid_at x;
         x_duration := x_duration x; x_date := x_date x;
         x_url := Some (PyStr.strip (PyStr.replace line "URL: " ""));
         x_header_image := x_header_image x;
         x_social_links := x_social_links x |}
  else acc.

Definition parse_lines (lines : list string) : parsed :=
  fold_left parse_line lines
    {| p_info := empty_info; p_chain_id := ""; p_token_address := "";
       p_extra := empty_extra |}.

(** attach the cached header image and social links, lines 339-349 *)
Definition attach_profile (st : state) (p : parsed) : extra :=
  let x := p_extra p in
  if PyStr.nonempty (p_chain_id p) && PyStr.nonempty (p_token_address p) then
    let key := (p_chain_id p, p_token_address p) in
    let header_img := profile_headers st !! key in
    let social_links := profile_socials st !! key in
    {| x_description := x_description x; x_amount := x_amount x; x_total := x_total x;
       x_order_type := x_order_type x; x_status := x_status x; x_paid_at := x_paid_at x;
       x_duration := x_duration x; x_date := x_date x; x_url := x_url x;
       x_header_image := if opt_truthy header_img then header_img else x_header_image x;
       x_social_links := match social_links with
                         | Some (l :: ls) => social_links
                         | _ => x_social_links x
                         end |}
  else x.

(** the cached header image that [print_alert] finds for the lines of
    an alert *)
Definition cached_header (st : state) (lines : list string) : option string :=
  let p := parse_lines lines in
  if PyStr.nonempty (p_chain_id p) && PyStr.nonempty (p_token_address p)
  then profile_headers st !! (p_chain_id p, p_token_address p)
  else None.

Definition event_type_of (title : string) : string :=
  if PyStr.contains "PROFILE" title then "PROFILE"
  else if PyStr.contains "BOOST" title then "BOOST"
  else if PyStr.contains "ORDER" title then "ORDER"
  else if PyStr.contains "AD" title then "AD"
  else "ALERT".

Definition print_alert (title : string) (lines : list string) (emoji : string)
    (st : state) : state :=
  let st := emit (Alert title lines emoji) st in
  if USE_TELEGRAM then
    let p := parse_lines lines in
    let extra_info := attach_profile st p in
    let event_type := event_type_of title in
    match format_telegram_alert event_type (p_info p) (p_chain_id p)
            (p_token_address p) (Some extra_info) with
    | Returned (message, chart_url) =>
        let '(sent, st) := send_telegram_photo chart_url message st in
        if negb sent then snd (send_telegram_message message st) else st
    | Raised _ => st
    end
  else st.

(** *** Change detection *)

(** the body of the loop of [process_ads] *)
Definition process_ad (st : state) (a : ad) : state :=
  match identity (ad_chainId a) (ad_tokenAddress a) with
  | None => st
  | Some (chain_id, token_address) =>
      let st := set_known_tokens ({[ (chain_id, token_address) ]} ∪ known_tokens st) st in
      let key := (chain_id, token_address) in
      if bool_decide (key ∈ seen_ads st) then st
      else
        let st := set_seen_ads ({[ key ]} ∪ seen_ads st) st in
        let st := set_stats incr_ads st in
        let '(token_info, st) := get_token_info chain_id token_address st in
        let lines := ad_lines a chain_id token_address token_info in
        let st := print_alert "NEW AD" lines "📢" st in
        emit (Log INFO ("New ad: " +:+ token_address +:+ " on " +:+ chain_id)) st
  end.

Definition process_ads (ads : option (feed ad)) (st : state) : state :=
  match ads with
  | Some (Records l) => fold_left process_ad l st
  | _ => st
  end.

(** the body of the loop of [process_profiles] *)
Definition process_profile (st : state) (p : profile) : state :=
  match identity (pr_chainId p) (pr_tokenAddress p) with
  | None => st
  | Some (chain_id, token_address) =>
      let key := (chain_id, token_address) in
      let st := set_known_tokens ({[ key ]} ∪ known_tokens st) st in
      let image_url := profile_image p in
      let st :=
        if opt_truthy image_url
        then set_profile_headers (<[ key := default "" image_url ]> (profile_headers st)) st
        else st in
      let st :=
        if links_truthy (pr_links p)
        then set_profile_socials (<[ key := default [] (pr_links p) ]> (profile_socials st)) st
        else st in
      if bool_decide (key ∈ seen_profiles st) then st
      else
        let st := set_seen_profiles ({[ key ]} ∪ seen_profiles st) st in
        let st := set_stats incr_orders st in
        let '(token_info, st) := get_token_info chain_id token_address st in
        let lines := profile_lines p chain_id token_address token_info in
        let st := print_alert "NEW TOKEN PROFILE" lines "📝" st in
        emit (Log INFO ("New profile: " +:+ token_address +:+ " on " +:+ chain_id)) st
  end.

Definition process_profiles (profiles : option (feed profile)) (st : state) : state :=
  match profiles with
  | Some (Records l) => fold_left process_profile l st
  | _ => st
  end.

(** the body of the loop of [process_boosts] *)
Definition process_boost (st : state) (b : boost) : state :=
  match identity (bo_chainId b) (bo_tokenAddress b), bo_totalAmount b with
  | Some (chain_id, token_address), Some total_amount =>
      let key := (chain_id, token_address) in
      let st := set_known_tokens ({[ key ]} ∪ known_tokens st) st in
      let previous_amount := default 0%Z (seen_boosts st !! token_address) in
      if (total_amount <=? previous_amount)%Z then st
      else
        let st := set_seen_boosts (<[ token_address := total_amount ]> (seen_boosts st)) st in
        let st := set_stats incr_boosts st in
        let '(token_info, st) := get_token_info chain_id token_address st in
        let lines :=
          boost_lines b chain_id token_address total_amount previous_amount token_info in
        let st := print_alert "NEW BOOST" lines "🚀" st in
        emit (Log INFO ("New boost: " +:+ token_address +:+ " on " +:+ chain_id
                        +:+ " - Total: " +:+ pretty total_amount)) st
  | _, _ => st
  end.

Definition process_boosts (boosts : option (feed boost)) (st : state) : state :=
  match boosts with
  | Some (Records l) => fold_left process_boost l st
  | _ => st
  end.

(** *** The order checker *)

(** the body of the inner loop of [check_orders] *)
Definition check_order (chain_id token_address : string) (st : state) (o : order) : state :=
  let payment_timestamp := default 0%Z (or_paymentTimestamp o) in
  if (payment_timestamp <? bot_start_ms)%Z then st
  else
    let last_seen := default 0%Z (seen_orders st !! token_address) in
    if (payment_timestamp >? last_seen)%Z then
      let st := set_seen_orders (<[ token_address := payment_timestamp ]> (seen_orders st)) st in
      let st := set_stats incr_orders st in
      let '(token_info, st) := get_token_info chain_id token_address st in
      let order_type := default "unknown" (or_type o) in
      let date_str :=
        try_except (strftime_utc payment_timestamp) (fun _ => pretty payment_timestamp) in
      let lines := order_lines o chain_id token_address date_str token_info in
      let st := print_alert ("NEW ORDER - " +:+ PyStr.upper order_type) lines "💰" st in
      emit (Log INFO ("New order: " +:+ token_address +:+ " on " +:+ chain_id
                      +:+ " - Type: " +:+ order_type)) st
    else st.

(** the body of the outer loop: one known token.  An object without
    ["orders"] has no order to look at, whether it is empty or not. *)
Definition check_token (st : state) (k : key) : state :=
  let '(chain_id, token_address) := k in
  let url := DEX_ORDERS_URL chain_id token_address in
  let '(data, st) := fetch_json url (w_orders w (clock st) url) st in
  match data with
  | None => st
  | Some d => fold_left (check_order chain_id token_address) (default [] (od_orders d)) st
  end.

Definition check_orders (st : state) : state :=
  fold_left check_token (set_order (known_tokens st)) st.

(** *** Start-up *)

Definition initialize_ad (st : state) (a : ad) : state :=
  match identity (ad_chainId a) (ad_tokenAddress a) with
  | Some key =>
      set_known_tokens ({[ key ]} ∪ known_tokens st)
        (set_seen_ads ({[ key ]} ∪ seen_ads st) st)
  | None => st
  end.

Definition initialize_profile (st : state) (p : profile) : state :=
  match identity (pr_chainId p) (pr_tokenAddress p) with
  | Some key =>
      let st := set_seen_profiles ({[ key ]} ∪ seen_profiles st) st in
      let st := set_known_tokens ({[ key ]} ∪ known_tokens st) st in
      let image_url := profile_image p in
      let st :=
        if opt_truthy image_url
        then set_profile_headers (<[ key := default "" image_url ]> (profile_headers st)) st
        else st in
      if links_truthy (pr_links p)
      then set_profile_socials (<[ key := default [] (pr_links p) ]> (profile_socials st)) st
      else st
  | None => st
  end.

Definition initialize_boost (st : state) (b : boost) : state :=
  match identity (bo_chainId b) (bo_tokenAddress b), bo_totalAmount b with
  | Some (chain_id, token_address), Some total_amount =>
      if negb (total_amount =? 0)%Z then
        set_known_tokens ({[ (chain_id, token_address) ]} ∪ known_tokens st)
          (set_seen_boosts (<[ token_address := total_amount ]> (seen_boosts st)) st)
      else st
  | _, _ => st
  end.

Definition initialize_order (token_address : string) (st : state) (o : order) : state :=
  let payment_timestamp := default 0%Z (or_paymentTimestamp o) in
  if negb (payment_timestamp =? 0)%Z then
    set_seen_orders
      (<[ token_address :=
            Z.max (default 0%Z (seen_orders st !! token_address)) payment_timestamp ]>
         (seen_orders st)) st
  else st.

Definition initialize_token (st : state) (k : key) : state :=
  let '(chain_id, token_address) := k in
  let url := DEX_ORDERS_URL chain_id token_address in
  let '(data, st) := fetch_json url (w_orders w (clock st) url) st in
  match data with
  | Some d => fold_left (initialize_order token_address) (default [] (od_orders d)) st
  | None => st
  end.

Definition initialize (st : state) : state :=
  let st := emit (Print "🔍 Initializing bot...") st in
  let '(ads, st) := fetch_json DEX_ADS_URL (w_ads w (clock st)) st in
  let st :=
    match ads with
    | Some (Records l) =>
        let st := fold_left initialize_ad l st in
        emit (Print ("✅ Found " +:+ pretty (size (seen_ads st)) +:+ " active ads")) st
    | _ => st
    end in
  let '(profiles, st) := fetch_json DEX_PROFILES_URL (w_profiles w (clock st)) st in
  let st :=
    match profiles with
    | Some (Records (p :: ps)) =>
        let st := fold_left initialize_profile (p :: ps) st in
        emit (Print ("✅ Found " +:+ pretty (length (p :: ps)) +:+ " token profiles")) st
    | _ => st
    end in
  let '(boosts, st) := fetch_json DEX_BOOST_URL (w_boosts w (clock st)) st in
  let st :=
    match boosts with
    | Some (Records l) =>
        let st := fold_left initialize_boost l st in
        emit (Print ("✅ Found " +:+ pretty (size (seen_boosts st))
                     +:+ " tokens with boosts")) st
    | _ => st
    end in
  let st := emit (Print ("✅ Tracking " +:+ pretty (size (known_tokens st))
                         +:+ " tokens for new orders")) st in
  fold_left initialize_token (set_order (known_tokens st)) st.

(** *** The command listener *)

Definition welcome_msg : string :=
  PyStr.join PyStr.nl
    [ "";
      "<b>🤖 DexScreener Monitor Bot Active!</b>";
      "";
      "━━━━━━━━━━━━━━━━━";
      "📊 <b>Currently Monitoring:</b>";
      "• Banner Ads";
      "• Token Profiles  ";
      "• Token Boosts";
      "• Paid Orders";
      "";
      "🌐 <b>All chains supported</b>";
      "";
      "⚡ <b>Features:</b>";
      "• Real-time alerts with charts";
      "• Tap-to-copy contract addresses";
      "• Direct DexScreener links";
      "• Beautiful formatted messages";
      "";
      "✅ <b>Bot is running and will alert you when new events are detected!</b>";
      "━━━━━━━━━━━━━━━━━";
      "" ].

Definition status_msg (runtime : Z) (s : stats_t) : string :=
  PyStr.join PyStr.nl
    [ "";
      "<b>📊 Bot Status</b>";
      "";
      "⏱️ Runtime: " +:+ pretty runtime +:+ "s";
      "📢 Ads Detected: " +:+ pretty (ads_detected s);
      "🚀 Boosts Detected: " +:+ pretty (boosts_detected s);
      "💰 Orders Detected: " +:+ pretty (orders_detected s);
      "📊 Total Polls: " +:+ pretty (polls s);
      "";
      "✅ Bot is active and monitoring!";
      "" ].

(** The loop over the updates.  The flag of the result is set when a
    subscript raised ([KeyError] on a message without chat id), which
    ends the handler at its bare [except]. *)
Fixpoint handle_updates (us : list update) (st : state) : state * bool :=
  match us with
  | [] => (st, false)
  | u :: rest =>
      match up_message u with
      | Some {| msg_text := Some text; msg_chat_id := chat_id |} =>
          match chat_id with
          | None => (st, true)
          | Some _ =>
              if PyStr.startswith text "/start" then
                handle_updates rest (snd (send_telegram_message welcome_msg st))
              else if PyStr.startswith text "/status" then
                let runtime := w_runtime w (clock st) in
                handle_updates rest
                  (snd (send_telegram_message (status_msg runtime (stats st)) st))
              else handle_updates rest st
          end
      | _ => handle_updates rest st
      end
  end.

Definition handle_telegram_updates (st : state) : state :=
  if negb USE_TELEGRAM then st
  else
    let r := w_updates w (clock st) in
    let st := tick (emit (GetUpdates None) st) in
    match r with
    | Returned response =>
        if (status_code response =? 200)%Z then
          match json response with
          | Returned (Some data) =>
              match ud_result data with
              | u :: us =>
                  if ud_ok data then
                    let '(st, raised) := handle_updates (u :: us) st in
                    if raised then st
                    else
                      match up_update_id (List.last (u :: us) u) with
                      | Some last_update_id =>
                          tick (emit (GetUpdates (Some (last_update_id + 1)%Z)) st)
                      | None => st
                      end
                  else st
              | [] => st
              end
          | _ => st
          end
        else st
    | Raised _ => st
    end.

(** *** The driver loop *)

(** one turn of the [while True] loop, without the sleep *)
Definition poll_cycle (st : state) : state :=
  let st := set_stats incr_polls st in
  let st :=
    if (polls (stats st) mod 3 =? 0)%nat then handle_telegram_updates st else st in
  let '(ads, st) := fetch_json DEX_ADS_URL (w_ads w (clock st)) st in
  let '(profiles, st) := fetch_json DEX_PROFILES_URL (w_profiles w (clock st)) st in
  let '(boosts, st) := fetch_json DEX_BOOST_URL (w_boosts w (clock st)) st in
  let st := if feed_truthy ads then process_ads ads st else st in
  let st := if feed_truthy profiles then process_profiles profiles st else st in
  let st := if feed_truthy boosts then process_boosts boosts st else st in
  let st := if (polls (stats st) mod 5 =? 0)%nat then check_orders st else st in
  if (polls (stats st) mod 10 =? 0)%nat then
    let runtime := w_runtime w (clock st) in
    emit (Print (String (ascii_of_nat 13)
                   ("⏱️ " +:+ pretty runtime +:+ "s | 📊 Polls: " +:+ pretty (polls (stats st))
                    +:+ " | 📢 Ads: " +:+ pretty (ads_detected (stats st))
                    +:+ " | 🚀 Boosts: " +:+ pretty (boosts_detected (stats st))
                    +:+ " | 💰 Orders: " +:+ pretty (orders_detected (stats st))))) st
  else st.

Fixpoint poll_cycles (n : nat) (st : state) : state :=
  match n with
  | O => st
  | S k => poll_cycles k (poll_cycle st)
  end.

(** [main] up to the loop *)
Definition startup (st : state) : state :=
  let rule := PyStr.repeat "=" 70 in
  let st := emit (Print (PyStr.nl +:+ "🤖 DexScreener Monitor Bot")) st in
  let st := emit (Print rule) st in
  let st := emit (Print "📊 Monitoring:") st in
  let st := emit (Print "   • Banner Ads (/ads/latest/v1)") st in
  let st := emit (Print "   • Token Profiles (/token-profiles/latest/v1)") st in
  let st := emit (Print "   • Token Boosts (/token-boosts/latest/v1)") st in
  let st := emit (Print "   • Paid Orders (/orders/v1)") st in
  let st := emit (Print "🌐 All chains supported") st in
  let st := emit (Print "🔄 Poll interval: 2.0 seconds") st in
  let st :=
    if USE_TELEGRAM then
      let st := emit (Print ("📱 Telegram: Connected (Chat ID: "
                             +:+ str_opt TELEGRAM_CHAT_ID +:+ ")")) st in
      snd (send_telegram_message
             ("🟢 <b>Bot Started!</b>" +:+ PyStr.nl +:+ PyStr.nl
              +:+ "DexScreener Monitor is now active and watching for new events.") st)
    else emit (Print "📱 Telegram: Not configured") st in
  let st := emit (Print rule) st in
  let st := initialize st in
  emit (Print (PyStr.nl +:+ "⏳ Monitoring for new events..." +:+ PyStr.nl)) st.

(** the handler of [KeyboardInterrupt] *)
Definition shutdown (st : state) : state :=
  let st := emit (Print (PyStr.nl +:+ PyStr.nl +:+ "✅ Bot stopped!")) st in
  emit (Print ("Final stats: Ads: " +:+ pretty (ads_detected (stats st))
               +:+ ", Boosts: " +:+ pretty (boosts_detected (stats st))
               +:+ ", Orders: " +:+ pretty (orders_detected (stats st)))) st.

(** [main], interrupted during the sleep of turn [n] of the loop *)
Definition main (n : nat) : state :=
  shutdown (poll_cycles n (startup initial_state)).

(** the turn of the loop in three parts: the command listener with the
    feeds and their processing (the poll counter has been incremented),
    the order check, the status line *)
Definition poll_feeds (st : state) : state :=
  let st :=
    if (polls (stats st) mod 3 =? 0)%nat then handle_telegram_updates st else st in
  let '(ads, st) := fetch_json DEX_ADS_URL (w_ads w (clock st)) st in
  let '(profiles, st) := fetch_json DEX_PROFILES_URL (w_profiles w (clock st)) st in
  let '(boosts, st) := fetch_json DEX_BOOST_URL (w_boosts w (clock st)) st in
  let st := if feed_truthy ads then process_ads ads st else st in
  let st := if feed_truthy profiles then process_profiles profiles st else st in
  if feed_truthy boosts then process_boosts boosts st else st.

Definition poll_orders (st : state) : state :=
  if (polls (stats st) mod 5 =? 0)%nat then check_orders st else st.

Definition poll_report (st : state) : state :=
  if (polls (stats st) mod 10 =? 0)%nat then
    let runtime := w_runtime w (clock st) in
    emit (Print (String (ascii_of_nat 13)
                   ("⏱️ " +:+ pretty runtime +:+ "s | 📊 Polls: " +:+ pretty (polls (stats st))
                    +:+ " | 📢 Ads: " +:+ pretty (ads_detected (stats st))
                    +:+ " | 🚀 Boosts: " +:+ pretty (boosts_detected (stats st))
                    +:+ " | 💰 Orders: " +:+ pretty (orders_detected (stats st))))) st
  else st.

(** [main] from its first line to the call of [initialize] *)
Definition banner (st : state) : state :=
  let rule := PyStr.repeat "=" 70 in
  let st := emit (Print (PyStr.nl +:+ "🤖 DexScreener Monitor Bot")) st in
  let st := emit (Print rule) st in
  let st := emit (Print "📊 Monitoring:") st in
  let st := emit (Print "   • Banner Ads (/ads/latest/v1)") st in
  let st := emit (Print "   • Token Profiles (/token-profiles/latest/v1)") st in
  let st := emit (Print "   • Token Boosts (/token-boosts/latest/v1)") st in
  let st := emit (Print "   • Paid Orders (/orders/v1)") st in
  let st := emit (Print "🌐 All chains supported") st in
  let st := emit (Print "🔄 Poll interval: 2.0 seconds") st in
  let st :=
    if USE_TELEGRAM then
      let st := emit (Print ("📱 Telegram: Connected (Chat ID: "
                             +:+ str_opt TELEGRAM_CHAT_ID +:+ ")")) st in
      snd (send_telegram_message
             ("🟢 <b>Bot Started!</b>" +:+ PyStr.nl +:+ PyStr.nl
              +:+ "DexScreener Monitor is now active and watching for new events.") st)
    else emit (Print "📱 Telegram: Not configured") st in
  emit (Print rule) st.

(** [initialize] in four parts, one for each endpoint *)
Definition seed_ads (st : state) : state :=
  let '(ads, st) := fetch_json DEX_ADS_URL (w_ads w (clock st)) st in
  match ads with
  | Some (Records l) =>
      let st := fold_left initialize_ad l st in
      emit (Print ("✅ Found " +:+ pretty (size (seen_ads st)) +:+ " active ads")) st
  | _ => st
  end.

Definition seed_profiles (st : state) : state :=
  let '(profiles, st) := fetch_json DEX_PROFILES_URL (w_profiles w (clock st)) st in
  match profiles with
  | Some (Records (p :: ps)) =>
      let st := fold_left initialize_profile (p :: ps) st in
      emit (Print ("✅ Found " +:+ pretty (length (p :: ps)) +:+ " token profiles")) st
  | _ => st
  end.

Definition seed_boosts (st : state) : state :=
  let '(boosts, st) := fetch_json DEX_BOOST_URL (w_boosts w (clock st)) st in
  match boosts with
  | Some (Records l) =>
      let st := fold_left initialize_boost l st in
      emit (Print ("✅ Found " +:+ pretty (size (seen_boosts st))
                   +:+ " tokens with boosts")) st
  | _ => st
  end.

Definition seed_orders (st : state) : state :=
  let st := emit (Print ("✅ Tracking " +:+ pretty (size (known_tokens st))
                         +:+ " tokens for new orders")) st in
  fold_left initialize_token (set_order (known_tokens st)) st.

(** what [fetch_json] returns for a reply *)
Definition fetched {A} (r : reply A) : option A :=
  match fetch_json_try r with
  | Returned v => v
  | Raised _ => None
  end.

(** a value for which [get_token_info] returns the empty dict: [None],
    something that is not a list, or an empty list *)
Definition no_pair (v : option (feed pair)) : bool :=
  match v with
  | Some (Records (_ :: _)) => false
  | _ => true
  end.

(** *** The script under interruption

    The [try] of [main] holds the whole loop, so that an interrupt stops
    the bot wherever it arrives in a turn, and not only in the sleep.
    The tasks below are the procedures of the script, step by step. *)

Definition fetch_json_task {A} (url : string) (r : reply A) : task (option A) :=
  request (HttpGet url);;
  match fetch_json_try r with
  | Returned v => mret v
  | Raised exc => stmt (set_stats incr_errors);; mret None
  end.

(** what [get_token_info] makes of the fetched value *)
Definition token_info_of (token_address : string) (data : option (feed pair))
    : option token_info :=
  match data with
  | Some (Records (pair :: _)) =>
      let base := default {| bt_name := None; bt_symbol := None |} (pa_baseToken pair) in
      Some {| ti_name := if opt_truthy (bt_name base) then default "" (bt_name base)
                         else PyStr.take 8 token_address +:+ "...";
              ti_symbol := if opt_truthy (bt_symbol base) then default "" (bt_symbol base)
                           else "";
              ti_price_usd := pa_priceUsd pair;
              ti_market_cap := if truthy (pa_marketCap pair) then pa_marketCap pair
                               else pa_fdv pair |}
  | _ => None
  end.

Definition get_token_info_task (chain_id token_address : string)
    : task (option token_info) :=
  let url := DEX_TOKENS_URL chain_id token_address in
  st ← get_state;
  data ← fetch_json_task url (w_tokens w (clock st) url);
  mret (token_info_of token_address data).

Definition send_telegram_message_task (text : string) : task bool :=
  if negb USE_TELEGRAM then mret false
  else
    st ← get_state;
    let r := w_post w (clock st) in
    request (SendMessage text);;
    match r with
    | Returned response =>
        if (status_code response =? 200)%Z then mret true
        else
          stmt (emit (Log WARNING ("Telegram send failed: "
                                   +:+ pretty (status_code response))));;
          mret false
    | Raised e =>
        stmt (emit (Log WARNING ("Telegram send error: " +:+ str_exn e)));;
        mret false
    end.

Definition send_telegram_photo_task (photo_url : option string) (caption : string)
    : task bool :=
  if negb USE_TELEGRAM then mret false
  else
    st ← get_state;
    let r := w_post w (clock st) in
    request (SendPhoto photo_url caption);;
    match r with
    | Returned response =>
        if (status_code response =? 200)%Z then mret true
        else send_telegram_message_task caption
    | Raised e =>
        stmt (emit (Log WARNING ("Telegram photo send error: " +:+ str_exn e)));;
        send_telegram_message_task caption
    end.

Definition print_alert_task (title : string) (lines : list string) (emoji : string)
    : task unit :=
  stmt (emit (Alert title lines emoji));;
  if USE_TELEGRAM then
    st ← get_state;
    let p := parse_lines lines in
    let extra_info := attach_profile st p in
    let event_type := event_type_of title in
    match format_telegram_alert event_type (p_info p) (p_chain_id p)
            (p_token_address p) (Some extra_info) with
    | Returned (message, chart_url) =>
        sent ← send_telegram_photo_task chart_url message;
        if negb sent then send_telegram_message_task message;; mret tt else mret tt
    | Raised _ => mret tt
    end
  else mret tt.

Definition process_ad_task (a : ad) : task unit :=
  match identity (ad_chainId a) (ad_tokenAddress a) with
  | None => mret tt
  | Some (chain_id, token_address) =>
      let key := (chain_id, token_address) in
      stmt (λ st, set_known_tokens ({[ key ]} ∪ known_tokens st) st);;
      st ← get_state;
      if bool_decide (key ∈ seen_ads st) then mret tt
      else
        stmt (λ st, set_seen_ads ({[ key ]} ∪ seen_ads st) st);;
        stmt (set_stats incr_ads);;
        token_info ← get_token_info_task chain_id token_address;
        let lines := ad_lines a chain_id token_address token_info in
        print_alert_task "NEW AD" lines "📢";;
        stmt (emit (Log INFO ("New ad: " +:+ token_address +:+ " on " +:+ chain_id)))
  end.

Definition process_ads_task (ads : option (feed ad)) : task unit :=
  match ads with
  | Some (Records l) => for_each l process_ad_task
  | _ => mret tt
  end.

Definition process_profile_task (p : profile) : task unit :=
  match identity (pr_chainId p) (pr_tokenAddress p) with
  | None => mret tt
  | Some (chain_id, token_address) =>
      let key := (chain_id, token_address) in
      stmt (λ st, set_known_tokens ({[ key ]} ∪ known_tokens st) st);;
      let image_url := profile_image p in
      (if opt_truthy image_url
       then stmt (λ st, set_profile_headers
                          (<[ key := default "" image_url ]> (profile_headers st)) st)
       else mret tt);;
      (if links_truthy (pr_links p)
       then stmt (λ st, set_profile_socials
                          (<[ key := default [] (pr_links p) ]> (profile_socials st)) st)
       else mret tt);;
      st ← get_state;
      if bool_decide (key ∈ seen_profiles st) then mret tt
      else
        stmt (λ st, set_seen_profiles ({[ key ]} ∪ seen_profiles st) st);;
        stmt (set_stats incr_orders);;
        token_info ← get_token_info_task chain_id token_address;
        let lines := profile_lines p chain_id token_address token_info in
        print_alert_task "NEW TOKEN PROFILE" lines "📝";;
        stmt (emit (Log INFO ("New profile: " +:+ token_address +:+ " on " +:+ chain_id)))
  end.

Definition process_profiles_task (profiles : option (feed profile)) : task unit :=
  match profiles with
  | Some (Records l) => for_each l process_profile_task
  | _ => mret tt
  end.

Definition process_boost_task (b : boost) : task unit :=
  match identity (bo_chainId b) (bo_tokenAddress b), bo_totalAmount b with
  | Some (chain_id, token_address), Some total_amount =>
      let key := (chain_id, token_address) in
      stmt (λ st, set_known_tokens ({[ key ]} ∪ known_tokens st) st);;
      st ← get_state;
      let previous_amount := default 0%Z (seen_boosts st !! token_address) in
      if (total_amount <=? previous_amount)%Z then mret tt
      else
        stmt (λ st, set_seen_boosts (<[ token_address := total_amount ]> (seen_boosts st)) st);;
        stmt (set_stats incr_boosts);;
        token_info ← get_token_info_task chain_id token_address;
        let lines :=
          boost_lines b chain_id token_address total_amount previous_amount token_info in
        print_alert_task "NEW BOOST" lines "🚀";;
        stmt (emit (Log INFO ("New boost: " +:+ token_address +:+ " on " +:+ chain_id
                              +:+ " - Total: " +:+ pretty total_amount)))
  | _, _ => mret tt
  end.

Definition process_boosts_task (boosts : option (feed boost)) : task unit :=
  match boosts with
  | Some (Records l) => for_each l process_boost_task
  | _ => mret tt
  end.

Definition check_order_task (chain_id token_address : string) (o : order) : task unit :=
  let payment_timestamp := default 0%Z (or_paymentTimestamp o) in
  if (payment_timestamp <? bot_start_ms)%Z then mret tt
  else
    st ← get_state;
    let last_seen := default 0%Z (seen_orders st !! token_address) in
    if (payment_timestamp >? last_seen)%Z then
      stmt (λ st, set_seen_orders
                    (<[ token_address := payment_timestamp ]> (seen_orders st)) st);;
      stmt (set_stats incr_orders);;
      token_info ← get_token_info_task chain_id token_address;
      let order_type := default "unknown" (or_type o) in
      let date_str :=
        try_except (strftime_utc payment_timestamp) (fun _ => pretty payment_timestamp) in
      let lines := order_lines o chain_id token_address date_str token_info in
      print_alert_task ("NEW ORDER - " +:+ PyStr.upper order_type) lines "💰";;
      stmt (emit (Log INFO ("New order: " +:+ token_address +:+ " on " +:+ chain_id
                            +:+ " - Type: " +:+ order_type)))
    else mret tt.

Definition check_token_task (k : key) : task unit :=
  let '(chain_id, token_address) := k in
  let url := DEX_ORDERS_URL chain_id token_address in
  st ← get_state;
  data ← fetch_json_task url (w_orders w (clock st) url);
  match data with
  | None => mret tt
  | Some d => for_each (default [] (od_orders d)) (check_order_task chain_id token_address)
  end.

Definition check_orders_task : task unit :=
  st ← get_state;
  for_each (set_order (known_tokens st)) check_token_task.

(** the loop over the updates; it returns [true] when a subscript
    raised *)
Fixpoint handle_updates_task (us : list update) : task bool :=
  match us with
  | [] => mret false
  | u :: rest =>
      match up_message u with
      | Some {| msg_text := Some text; msg_chat_id := chat_id |} =>
          match chat_id with
          | None => mret true
          | Some _ =>
              if PyStr.startswith text "/start" then
                send_telegram_message_task welcome_msg;;
                handle_updates_task rest
              else if PyStr.startswith text "/status" then
                st ← get_state;
                let runtime := w_runtime w (clock st) in
                send_telegram_message_task (status_msg runtime (stats st));;
                handle_updates_task rest
              else handle_updates_task rest
          end
      | _ => handle_updates_task rest
      end
  end.

(** the [try] of the command listener ends in a bare [except: pass]: an
    interrupt that arrives inside is dropped, and the loop goes on *)
Definition handle_telegram_updates_task : task unit :=
  if negb USE_TELEGRAM then mret tt
  else
    try_pass (
      st ← get_state;
      let r := w_updates w (clock st) in
      request (GetUpdates None);;
      match r with
      | Returned response =>
          if (status_code response =? 200)%Z then
            match json response with
            | Returned (Some data) =>
                match ud_result data with
                | u :: us =>
                    if ud_ok data then
                      raised ← handle_updates_task (u :: us);
                      if raised : bool then mret tt
                      else
                        match up_update_id (List.last (u :: us) u) with
                        | Some last_update_id =>
                            request (GetUpdates (Some (last_update_id + 1)%Z))
                        | None => mret tt
                        end
                    else mret tt
                | [] => mret tt
                end
            | _ => mret tt
            end
          else mret tt
      | Raised _ => mret tt
      end).

(** one turn of the loop, up to the sleep *)
Definition poll_cycle_task : task unit :=
  stmt (set_stats incr_polls);;
  st ← get_state;
  (if (polls (stats st) mod 3 =? 0)%nat then handle_telegram_updates_task else mret tt);;
  st ← get_state;
  ads ← fetch_json_task DEX_ADS_URL (w_ads w (clock st));
  st ← get_state;
  profiles ← fetch_json_task DEX_PROFILES_URL (w_profiles w (clock st));
  st ← get_state;
  boosts ← fetch_json_task DEX_BOOST_URL (w_boosts w (clock st));
  (if feed_truthy ads then process_ads_task ads else mret tt);;
  (if feed_truthy profiles then process_profiles_task profiles else mret tt);;
  (if feed_truthy boosts then process_boosts_task boosts else mret tt);;
  st ← get_state;
  (if (polls (stats st) mod 5 =? 0)%nat then check_orders_task else mret tt);;
  st ← get_state;
  if (polls (stats st) mod 10 =? 0)%nat then stmt poll_report else mret tt.

(** [time.sleep(POLL_INTERVAL_SECONDS)] *)
Definition sleep : task unit := stmt (λ st, st).

(** the handler of [KeyboardInterrupt] *)
Definition shutdown_task : task unit :=
  stmt (emit (Print (PyStr.nl +:+ PyStr.nl +:+ "✅ Bot stopped!")));;
  stmt (λ st, emit (Print ("Final stats: Ads: " +:+ pretty (ads_detected (stats st))
                           +:+ ", Boosts: " +:+ pretty (boosts_detected (stats st))
                           +:+ ", Orders: " +:+ pretty (orders_detected (stats st)))) st).

Definition stop (asleep : bool) (sigint : list nat) (st : state) : ending :=
  match shutdown_task sigint st with
  | (Normal _, _, st) => Stopped asleep st
  | (KeyboardInterrupt, _, st) => Aborted st
  end.

(** the loop of [main] with its handler, for [turns] turns at most *)
Fixpoint loop (turns : nat) (sigint : list nat) (st : state) : ending :=
  match turns with
  | O => Running st
  | S turns =>
      match poll_cycle_task sigint st with
      | (KeyboardInterrupt, sigint, st) => stop false sigint st
      | (Normal _, sigint, st) =>
          match sleep sigint st with
          | (KeyboardInterrupt, sigint, st) => stop true sigint st
          | (Normal _, sigint, st) => loop turns sigint st
          end
      end
  end.

(** the start-up, which no [try] protects *)
Definition initialize_ad_task (a : ad) : task unit :=
  match identity (ad_chainId a) (ad_tokenAddress a) with
  | Some key =>
      stmt (λ st, set_seen_ads ({[ key ]} ∪ seen_ads st) st);;
      stmt (λ st, set_known_tokens ({[ key ]} ∪ known_tokens st) st)
  | None => mret tt
  end.

Definition initialize_profile_task (p : profile) : task unit :=
  match identity (pr_chainId p) (pr_tokenAddress p) with
  | Some key =>
      stmt (λ st, set_seen_profiles ({[ key ]} ∪ seen_profiles st) st);;
      stmt (λ st, set_known_tokens ({[ key ]} ∪ known_tokens st) st);;
      let image_url := profile_image p in
      (if opt_truthy image_url
       then stmt (λ st, set_profile_headers
                          (<[ key := default "" image_url ]> (profile_headers st)) st)
       else mret tt);;
      if links_truthy (pr_links p)
      then stmt (λ st, set_profile_socials
                         (<[ key := default [] (pr_links p) ]> (profile_socials st)) st)
      else mret tt
  | None => mret tt
  end.

Definition initialize_boost_task (b : boost) : task unit :=
  match identity (bo_chainId b) (bo_tokenAddress b), bo_totalAmount b with
  | Some (chain_id, token_address), Some total_amount =>
      if negb (total_amount =? 0)%Z then
        stmt (λ st, set_seen_boosts (<[ token_address := total_amount ]> (seen_boosts st)) st);;
        stmt (λ st, set_known_tokens ({[ (chain_id, token_address) ]} ∪ known_tokens st) st)
      else mret tt
  | _, _ => mret tt
  end.

Definition initialize_order_task (token_address : string) (o : order) : task unit :=
  let payment_timestamp := default 0%Z (or_paymentTimestamp o) in
  if negb (payment_timestamp =? 0)%Z then
    stmt (λ st, set_seen_orders
                  (<[ token_address :=
                        Z.max (default 0%Z (seen_orders st !! token_address))
                          payment_timestamp ]>
                     (seen_orders st)) st)
  else mret tt.

Definition initialize_token_task (k : key) : task unit :=
  let '(chain_id, token_address) := k in
  let url := DEX_ORDERS_URL chain_id token_address in
  st ← get_state;
  data ← fetch_json_task url (w_orders w (clock st) url);
  match data with
  | Some d => for_each (default [] (od_orders d)) (initialize_order_task token_address)
  | None => mret tt
  end.

Definition initialize_task : task unit :=
  stmt (emit (Print "🔍 Initializing bot..."));;
  st ← get_state;
  ads ← fetch_json_task DEX_ADS_URL (w_ads w (clock st));
  match ads with
  | Some (Records l) =>
      for_each l initialize_ad_task;;
      stmt (λ st, emit (Print ("✅ Found " +:+ pretty (size (seen_ads st))
                               +:+ " active ads")) st)
  | _ => mret tt
  end;;
  st ← get_state;
  profiles ← fetch_json_task DEX_PROFILES_URL (w_profiles w (clock st));
  match profiles with
  | Some (Records (p :: ps)) =>
      for_each (p :: ps) initialize_profile_task;;
      stmt (emit (Print ("✅ Found " +:+ pretty (length (p :: ps)) +:+ " token profiles")))
  | _ => mret tt
  end;;
  st ← get_state;
  boosts ← fetch_json_task DEX_BOOST_URL (w_boosts w (clock st));
  match boosts with
  | Some (Records l) =>
      for_each l initialize_boost_task;;
      stmt (λ st, emit (Print ("✅ Found " +:+ pretty (size (seen_boosts st))
                               +:+ " tokens with boosts")) st)
  | _ => mret tt
  end;;
  stmt (λ st, emit (Print ("✅ Tracking " +:+ pretty (size (known_tokens st))
                           +:+ " tokens for new orders")) st);;
  st ← get_state;
  for_each (set_order (known_tokens st)) initialize_token_task.

(** [main] up to the loop *)
Definition startup_task : task unit :=
  let rule := PyStr.repeat "=" 70 in
  stmt (emit (Print (PyStr.nl +:+ "🤖 DexScreener Monitor Bot")));;
  stmt (emit (Print rule));;
  stmt (emit (Print "📊 Monitoring:"));;
  stmt (emit (Print "   • Banner Ads (/ads/latest/v1)"));;
  stmt (emit (Print "   • Token Profiles (/token-profiles/latest/v1)"));;
  stmt (emit (Print "   • Token Boosts (/token-boosts/latest/v1)"));;
  stmt (emit (Print "   • Paid Orders (/orders/v1)"));;
  stmt (emit (Print "🌐 All chains supported"));;
  stmt (emit (Print "🔄 Poll interval: 2.0 seconds"));;
  (if USE_TELEGRAM then
     stmt (emit (Print ("📱 Telegram: Connected (Chat ID: "
                        +:+ str_opt TELEGRAM_CHAT_ID +:+ ")")));;
     send_telegram_message_task
       ("🟢 <b>Bot Started!</b>" +:+ PyStr.nl +:+ PyStr.nl
        +:+ "DexScreener Monitor is now active and watching for new events.");;
     mret tt
   else stmt (emit (Print "📱 Telegram: Not configured")));;
  stmt (emit (Print rule));;
  initialize_task;;
  stmt (emit (Print (PyStr.nl +:+ "⏳ Monitoring for new events..." +:+ PyStr.nl))).

(** [main] with the interrupts of [sigint], for [turns] turns of the
    loop at most *)
Definition main_task (sigint : list nat) (turns : nat) : ending :=
  match startup_task sigint initial_state with
  | (KeyboardInterrupt, _, st) => Aborted st
  | (Normal _, sigint, st) => loop turns sigint st
  end.

(** * Properties *)

(** ** Steps that detect nothing *)

Lemma alerts_app (l k : list effect) : alerts (l ++ k) = alerts l ++ alerts k.
Proof. apply omap_app. Qed.

Lemma events_app (kd : event_kind) (l k : list effect) :
events kd (l ++ k) = events kd l ++ events kd k.
Proof. unfold events. rewrite alerts_app. apply List.filter_app. Qed.

Lemma quiet_refl st : quiet st st.
Proof. by repeat split. Qed.

Lemma quiet_trans st1 st2 st3 : quiet st1 st2 → quiet st2 st3 → quiet st1 st3.
Proof.
intros (Hd & Hc & Ha) (Hd' & Hc' & Ha'). repeat split; congruence.
Qed.

Lemma quiet_tick st : quiet st (tick st).
Proof. by repeat split. Qed.

Lemma quiet_emit e st : alert_of e = None → quiet st (emit e st).
Proof.
intros He. repeat split. simpl. rewrite alerts_app. simpl.
unfold alerts. simpl. rewrite He. simpl. apply app_nil_r.
Qed.

Lemma quiet_errors st : quiet st (set_stats incr_errors st).
Proof. by repeat split. Qed.

Lemma quiet_polls st : quiet st (set_stats incr_polls st).
Proof. by repeat split. Qed.

Lemma quiet_request e st : alert_of e = None → quiet st (tick (emit e st)).
Proof. intros He. eapply quiet_trans; [by apply quiet_emit | apply quiet_tick]. Qed.

Lemma grows_refl st : grows st st.
Proof. by repeat split. Qed.

Lemma grows_trans st1 st2 st3 : grows st1 st2 → grows st2 st3 → grows st1 st3.
Proof.
intros (A1 & A2 & A3 & A4 & A5 & A6 & A7) (B1 & B2 & B3 & B4 & B5 & B6 & B7).
repeat split; etransitivity; eassumption.
Qed.

Lemma data_eq st st' :
data st' = data st →
seen_ads st' = seen_ads st ∧ seen_boosts st' = seen_boosts st
∧ seen_orders st' = seen_orders st ∧ seen_profiles st' = seen_profiles st
∧ profile_headers st' = profile_headers st ∧ profile_socials st' = profile_socials st
∧ known_tokens st' = known_tokens st.
Proof. unfold data. intros H. injection H. intros. by repeat split. Qed.

Lemma counters_eq st st' :
counters st' = counters st →
ads_detected (stats st') = ads_detected (stats st)
∧ boosts_detected (stats st') = boosts_detected (stats st)
∧ orders_detected (stats st') = orders_detected (stats st).
Proof. unfold counters. intros H. injection H. intros. by repeat split. Qed.

Lemma silent_refl st : silent st st.
Proof. by split. Qed.

Lemma silent_trans st1 st2 st3 : silent st1 st2 → silent st2 st3 → silent st1 st3.
Proof. intros (Hc & Ha) (Hc' & Ha'). split; congruence. Qed.

Lemma quiet_silent st st' : quiet st st' → silent st st'.
Proof. by intros (_ & Hc & Ha). Qed.

Lemma quiet_grows st st' : quiet st st' → grows st st'.
Proof.
intros (Hd & _ & _). apply data_eq in Hd. unfold grows.
destruct Hd as (-> & -> & -> & -> & -> & -> & ->). by repeat split.
Qed.

Lemma silent_counted st st' : silent st st' → counted st → counted st'.
Proof.
intros (Hc & Ha) (H1 & H2 & H3). apply counters_eq in Hc.
destruct Hc as (Ha' & Hb' & Ho').
unfold counted, count_events, events. rewrite Ha, Ha', Hb', Ho'. by repeat split.
Qed.

(** a loop of steps that each keep a preorder keeps it *)
Lemma fold_left_rel {A} (R : state → state → Prop) (f : state → A → state) :
(∀ st, R st st) → (∀ a b c, R a b → R b c → R a c) →
(∀ st x, R st (f st x)) →
∀ l st, R st (fold_left f l st).
Proof.
intros Hrefl Htrans Hstep l. induction l as [|x l IH]; intros st; simpl.
- apply Hrefl.
- eapply Htrans; [apply Hstep | apply IH].
Qed.

(** a loop of steps that each keep an invariant keeps it *)
Lemma fold_left_inv {A} (P : state → Prop) (f : state → A → state) :
(∀ st x, P st → P (f st x)) →
∀ l st, P st → P (fold_left f l st).
Proof.
intros Hstep l. induction l as [|x l IH]; intros st H; simpl; auto.
Qed.




Lemma fetch_json_quiet {A} url (r : reply A) st : quiet st (snd (fetch_json url r st)).
Proof.
  unfold fetch_json. destruct (fetch_json_try r); simpl.
  - by apply quiet_request.
  - apply (quiet_trans _ (tick (emit (HttpGet url) st)));
      [by apply quiet_request | apply quiet_errors].
Qed.

Lemma get_token_info_quiet c t st : quiet st (snd (get_token_info c t st)).
Proof.
  unfold get_token_info.
  pose proof (fetch_json_quiet (DEX_TOKENS_URL c t)
                (w_tokens w (clock st) (DEX_TOKENS_URL c t)) st) as H.
  destruct (fetch_json _ _ st) as [data st1]. simpl in H.
  destruct data as [[[|p ps]|b]|]; simpl; exact H.
Qed.

Lemma send_telegram_message_quiet text st :
  quiet st (snd (send_telegram_message text st)).
Proof.
  unfold send_telegram_message.
  destruct (negb _); simpl; [apply quiet_refl|].
  assert (quiet st (tick (emit (SendMessage text) st))) as H
    by by apply quiet_request.
  destruct (w_post w (clock st)) as [resp|e]; simpl.
  - destruct (status_code resp =? 200)%Z; simpl; [exact H|].
    eapply quiet_trans; [exact H | by apply quiet_emit].
  - eapply quiet_trans; [exact H | by apply quiet_emit].
Qed.

Lemma send_telegram_photo_quiet photo caption st :
  quiet st (snd (send_telegram_photo photo caption st)).
Proof.
  unfold send_telegram_photo.
  destruct (negb _); simpl; [apply quiet_refl|].
  assert (quiet st (tick (emit (SendPhoto photo caption) st))) as H
    by by apply quiet_request.
  destruct (w_post w (clock st)) as [resp|e]; simpl.
  - destruct (status_code resp =? 200)%Z; simpl; [exact H|].
    eapply quiet_trans; [exact H | apply send_telegram_message_quiet].
  - eapply quiet_trans; [exact H |].
    eapply quiet_trans; [| apply send_telegram_message_quiet].
    by apply quiet_emit.
Qed.

(** [print_alert] adds its alert and nothing else to what is observed *)
Lemma print_alert_spec title lines emoji st :
  let st' := print_alert title lines emoji st in
  data st' = data st ∧ counters st' = counters st
  ∧ alerts (trace st') = alerts (trace st) ++ [(title, lines)].
Proof.
  simpl. unfold print_alert.
  set (st0 := emit (Alert title lines emoji) st).
  assert (data st0 = data st ∧ counters st0 = counters st
          ∧ alerts (trace st0) = alerts (trace st) ++ [(title, lines)]) as H0.
  { repeat split. simpl. by rewrite alerts_app. }
  assert (∀ st1, quiet st0 st1 →
            data st1 = data st ∧ counters st1 = counters st
            ∧ alerts (trace st1) = alerts (trace st) ++ [(title, lines)]) as Hq.
  { intros st1 (Hd & Hc & Ha). destruct H0 as (Hd0 & Hc0 & Ha0).
    repeat split; congruence. }
  destruct USE_TELEGRAM; [|exact H0].
  unfold format_telegram_alert.
  match goal with
  | |- context [send_telegram_photo ?p ?m st0] =>
      pose proof (send_telegram_photo_quiet p m st0) as Hp;
      destruct (send_telegram_photo p m st0) as [sent st1]
  end.
  simpl in Hp. destruct sent; simpl.
  - by apply Hq.
  - apply Hq. eapply quiet_trans; [exact Hp | apply send_telegram_message_quiet].
Qed.


(** ** The detection steps, one record at a time *)




(** the enrichment, the alert and the log record that end every
    detection: one alert is added, nothing else is touched *)
Lemma announce_spec c t title (f : option token_info → list string) emoji msg st0 :
  ∃ info,
    let st' :=
      let '(token_info, st) := get_token_info c t st0 in
      emit (Log INFO msg)
        (print_alert title (f token_info) emoji st) in
    data st' = data st0 ∧ counters st' = counters st0
    ∧ alerts (trace st') = alerts (trace st0) ++ [(title, f info)].
Proof.
  pose proof (get_token_info_quiet c t st0) as (Hd & Hc & Ha).
  destruct (get_token_info c t st0) as [info st1]. simpl in Hd, Hc, Ha.
  exists info.
  pose proof (print_alert_spec title (f info) emoji st1) as (Hd' & Hc' & Ha').
  cbv zeta.
  set (st2 := print_alert title (f info) emoji st1) in *.
  repeat split.
  - change (data st2 = data st0). congruence.
  - change (counters st2 = counters st0). congruence.
  - change (alerts (trace st2 ++ [Log INFO msg]) = alerts (trace st0) ++ [(title, f info)]).
    rewrite alerts_app, Ha', Ha. simpl. by rewrite app_nil_r.
Qed.

(** *** Ads *)

Lemma process_ad_skip st a :
  identity (ad_chainId a) (ad_tokenAddress a) = None → process_ad st a = st.
Proof. intros H. unfold process_ad. by rewrite H. Qed.

Lemma process_ad_seen st a k :
  identity (ad_chainId a) (ad_tokenAddress a) = Some k → k ∈ seen_ads st →
  process_ad st a = set_known_tokens ({[ k ]} ∪ known_tokens st) st.
Proof.
  intros H Hin. unfold process_ad. rewrite H. destruct k as [c t].
  cbv zeta. rewrite bool_decide_eq_true_2; done.
Qed.

Lemma process_ad_fires st a c t :
  identity (ad_chainId a) (ad_tokenAddress a) = Some (c, t) → (c, t) ∉ seen_ads st →
  ∃ info,
    let st' := process_ad st a in
    data st' = data (set_seen_ads ({[ (c, t) ]} ∪ seen_ads st)
                       (set_known_tokens ({[ (c, t) ]} ∪ known_tokens st) st))
    ∧ counters st' = counters (set_stats incr_ads st)
    ∧ alerts (trace st') = alerts (trace st) ++ [("NEW AD", ad_lines a c t info)].
Proof.
  intros H Hin. unfold process_ad. rewrite H.
  cbv zeta. rewrite bool_decide_eq_false_2 by done.
  destruct (announce_spec c t "NEW AD" (ad_lines a c t) "📢"
              ("New ad: " +:+ t +:+ " on " +:+ c)
              (set_stats incr_ads
                 (set_seen_ads ({[ (c, t) ]} ∪ seen_ads st)
                    (set_known_tokens ({[ (c, t) ]} ∪ known_tokens st) st))))
    as (info & Hd & Hc & Ha).
  exists info. repeat split; [exact Hd | exact Hc | exact Ha].
Qed.

(** *** Profiles *)

Lemma process_profile_skip st p :
  identity (pr_chainId p) (pr_tokenAddress p) = None → process_profile st p = st.
Proof. intros H. unfold process_profile. by rewrite H. Qed.

Lemma seen_profiles_observe k p st : seen_profiles (observe_profile k p st) = seen_profiles st.
Proof.
  unfold observe_profile.
  destruct (opt_truthy (profile_image p)), (links_truthy (pr_links p)); reflexivity.
Qed.

Lemma process_profile_eq st p c t :
  identity (pr_chainId p) (pr_tokenAddress p) = Some (c, t) →
  process_profile st p =
    let st1 := observe_profile (c, t) p st in
    if bool_decide ((c, t) ∈ seen_profiles st) then st1
    else
      let st2 :=
        set_stats incr_orders
          (set_seen_profiles ({[ (c, t) ]} ∪ seen_profiles st) st1) in
      let '(token_info, st3) := get_token_info c t st2 in
      emit (Log INFO ("New profile: " +:+ t +:+ " on " +:+ c))
        (print_alert "NEW TOKEN PROFILE"
           (profile_lines p c t token_info) "📝" st3).
Proof.
  intros H. unfold process_profile, observe_profile. rewrite H. cbv zeta.
  destruct (opt_truthy (profile_image p)), (links_truthy (pr_links p)); reflexivity.
Qed.

Lemma process_profile_seen st p k :
  identity (pr_chainId p) (pr_tokenAddress p) = Some k → k ∈ seen_profiles st →
  process_profile st p = observe_profile k p st.
Proof.
  intros H Hin. destruct k as [c t]. rewrite (process_profile_eq _ _ _ _ H).
  cbv zeta. by rewrite bool_decide_eq_true_2.
Qed.

Lemma process_profile_fires st p c t :
  identity (pr_chainId p) (pr_tokenAddress p) = Some (c, t) → (c, t) ∉ seen_profiles st →
  ∃ info,
    let st' := process_profile st p in
    data st' = data (set_seen_profiles ({[ (c, t) ]} ∪ seen_profiles st)
                       (observe_profile (c, t) p st))
    ∧ counters st' = counters (set_stats incr_orders (observe_profile (c, t) p st))
    ∧ alerts (trace st') = alerts (trace (observe_profile (c, t) p st))
                           ++ [("NEW TOKEN PROFILE", profile_lines p c t info)].
Proof.
  intros H Hin. rewrite (process_profile_eq _ _ _ _ H).
  cbv zeta. rewrite bool_decide_eq_false_2 by done.
  destruct (announce_spec c t "NEW TOKEN PROFILE" (profile_lines p c t) "📝"
              ("New profile: " +:+ t +:+ " on " +:+ c)
              (set_stats incr_orders
                 (set_seen_profiles ({[ (c, t) ]} ∪ seen_profiles st)
                    (observe_profile (c, t) p st)))) as (info & Hd & Hc & Ha).
  exists info. repeat split; [exact Hd | exact Hc | exact Ha].
Qed.

(** looking at a profile touches neither the counters nor the trace *)
Lemma observe_profile_silent k p st :
  stats (observe_profile k p st) = stats st ∧ trace (observe_profile k p st) = trace st.
Proof.
  unfold observe_profile.
  destruct (opt_truthy (profile_image p)), (links_truthy (pr_links p)); by split.
Qed.

(** *** Boosts *)

Lemma process_boost_skip st b :
  identity (bo_chainId b) (bo_tokenAddress b) = None ∨ bo_totalAmount b = None →
  process_boost st b = st.
Proof.
  intros [H|H]; unfold process_boost; rewrite H; [done|].
  by destruct (identity _ _) as [[c t]|].
Qed.

Lemma process_boost_stale st b c t total :
  identity (bo_chainId b) (bo_tokenAddress b) = Some (c, t) →
  bo_totalAmount b = Some total →
  (total ≤ default 0 (seen_boosts st !! t))%Z →
  process_boost st b = set_known_tokens ({[ (c, t) ]} ∪ known_tokens st) st.
Proof.
  intros H Ht Hle. unfold process_boost. rewrite H, Ht.
  cbv zeta. change (seen_boosts (set_known_tokens _ st)) with (seen_boosts st).
  by rewrite (proj2 (Z.leb_le _ _) Hle).
Qed.

Lemma process_boost_fires st b c t total :
  identity (bo_chainId b) (bo_tokenAddress b) = Some (c, t) →
  bo_totalAmount b = Some total →
  (default 0 (seen_boosts st !! t) < total)%Z →
  ∃ info,
    let st' := process_boost st b in
    data st' = data (set_seen_boosts (<[ t := total ]> (seen_boosts st))
                       (set_known_tokens ({[ (c, t) ]} ∪ known_tokens st) st))
    ∧ counters st' = counters (set_stats incr_boosts st)
    ∧ alerts (trace st') =
        alerts (trace st)
        ++ [("NEW BOOST", boost_lines b c t total (default 0%Z (seen_boosts st !! t)) info)].
Proof.
  intros H Ht Hlt. unfold process_boost. rewrite H, Ht.
  cbv zeta. change (seen_boosts (set_known_tokens _ st)) with (seen_boosts st).
  rewrite (proj2 (Z.leb_gt _ _) Hlt).
  destruct (announce_spec c t "NEW BOOST"
              (boost_lines b c t total (default 0%Z (seen_boosts st !! t))) "🚀"
              ("New boost: " +:+ t +:+ " on " +:+ c +:+ " - Total: " +:+ pretty total)
              (set_stats incr_boosts
                 (set_seen_boosts (<[ t := total ]> (seen_boosts st))
                    (set_known_tokens ({[ (c, t) ]} ∪ known_tokens st) st))))
    as (info & Hd & Hc & Ha).
  exists info. repeat split; [exact Hd | exact Hc | exact Ha].
Qed.

(** *** Orders *)

Lemma check_order_old c t st o :
  (default 0 (or_paymentTimestamp o) < bot_start_ms)%Z → check_order c t st o = st.
Proof.
  intros H. unfold check_order. cbv zeta.
  by rewrite (proj2 (Z.ltb_lt _ _) H).
Qed.

Lemma check_order_known c t st o :
  (default 0 (or_paymentTimestamp o) ≤ default 0 (seen_orders st !! t))%Z →
  check_order c t st o = st.
Proof.
  intros H. unfold check_order. cbv zeta.
  destruct (_ <? bot_start_ms)%Z; [done|].
  destruct (Z.gtb_spec (default 0%Z (or_paymentTimestamp o))
              (default 0%Z (seen_orders st !! t))); [lia | done].
Qed.

Lemma check_order_fires c t st o :
  (bot_start_ms ≤ default 0 (or_paymentTimestamp o))%Z →
  (default 0 (seen_orders st !! t) < default 0 (or_paymentTimestamp o))%Z →
  ∃ info,
    let ts := default 0%Z (or_paymentTimestamp o) in
    let st' := check_order c t st o in
    data st' = data (set_seen_orders (<[ t := ts ]> (seen_orders st)) st)
    ∧ counters st' = counters (set_stats incr_orders st)
    ∧ alerts (trace st') =
        alerts (trace st)
        ++ [("NEW ORDER - " +:+ PyStr.upper (default "unknown" (or_type o)),
             order_lines o c t
               (try_except (strftime_utc ts) (λ _, pretty ts)) info)].
Proof.
  intros Hs Hlt. unfold check_order. cbv zeta.
  rewrite (proj2 (Z.ltb_ge _ _) Hs).
  destruct (Z.gtb_spec (default 0%Z (or_paymentTimestamp o))
              (default 0%Z (seen_orders st !! t))); [|lia].
  destruct (announce_spec c t
              ("NEW ORDER - " +:+ PyStr.upper (default "unknown" (or_type o)))
              (order_lines o c t
                 (try_except (strftime_utc (default 0%Z (or_paymentTimestamp o)))
                    (λ _, pretty (default 0%Z (or_paymentTimestamp o))))) "💰"
              ("New order: " +:+ t +:+ " on " +:+ c
               +:+ " - Type: " +:+ default "unknown" (or_type o))
              (set_stats incr_orders
                 (set_seen_orders
                    (<[ t := default 0%Z (or_paymentTimestamp o) ]> (seen_orders st)) st)))
    as (info & Hd & Hc & Ha).
  exists info. repeat split; [exact Hd | exact Hc | exact Ha].
Qed.


(** ** Loops and whole runs *)

Lemma sound_refl st : sound st st.
Proof. split; [apply grows_refl | done]. Qed.

Lemma sound_trans st1 st2 st3 : sound st1 st2 → sound st2 st3 → sound st1 st3.
Proof.
intros [G1 C1] [G2 C2]. split; [by eapply grows_trans | auto].
Qed.

Lemma quiet_sound st st' : quiet st st' → sound st st'.
Proof.
intros H. split; [by apply quiet_grows | by apply silent_counted, quiet_silent].
Qed.

Lemma grows_data st ref st' : data st' = data ref → grows st ref → grows st st'.
Proof.
intros Hd. apply data_eq in Hd. unfold grows.
by destruct Hd as (-> & -> & -> & -> & -> & -> & ->).
Qed.

Lemma count_events_snoc k tr tr' a :
alerts tr' = alerts tr ++ [a] →
count_events k tr' = count_events k tr + Nat.b2n (is_kind k a).
Proof.
intros H. unfold count_events, events. rewrite H, List.filter_app, length_app.
simpl. by destruct (is_kind k a).
Qed.

(** the title of an order alert is of the ORDER kind and of no other *)
Lemma order_title_kind order_type lines :
let a := ("NEW ORDER - " +:+ order_type, lines) in
is_kind ORDER a = true ∧ is_kind AD a = false
∧ is_kind BOOST a = false ∧ is_kind PROFILE a = false.
Proof. by destruct order_type. Qed.

Lemma counted_alert st st' a :
alerts (trace st') = alerts (trace st) ++ [a] →
ads_detected (stats st') = ads_detected (stats st) + Nat.b2n (is_kind AD a) →
boosts_detected (stats st') = boosts_detected (stats st) + Nat.b2n (is_kind BOOST a) →
orders_detected (stats st')
= orders_detected (stats st) + Nat.b2n (is_kind ORDER a) + Nat.b2n (is_kind PROFILE a) →
counted st → counted st'.
Proof.
intros Ha H1 H2 H3 (C1 & C2 & C3). unfold counted.
rewrite !(count_events_snoc _ _ _ _ Ha). lia.
Qed.

(** growth of explicitly updated states *)
Ltac grows_tac :=
unfold grows; simpl; repeat split;
first [ done | apply union_subseteq_r | apply dom_insert_subseteq ].




Lemma known_tokens_sound k st :
  sound st (set_known_tokens ({[ k ]} ∪ known_tokens st) st).
Proof.
  split; [|done]. grows_tac.
Qed.

Lemma process_ad_sound st a : sound st (process_ad st a).
Proof.
  destruct (identity (ad_chainId a) (ad_tokenAddress a)) as [[c t]|] eqn:Hid.
  - destruct (decide ((c, t) ∈ seen_ads st)) as [Hin|Hin].
    + rewrite (process_ad_seen _ _ _ Hid Hin). apply known_tokens_sound.
    + destruct (process_ad_fires _ _ _ _ Hid Hin)
        as (info & Hd & Hc & Ha).
      cbv zeta in *. apply counters_eq in Hc. destruct Hc as (Hc1 & Hc2 & Hc3).
      split.
      * eapply grows_data; [exact Hd|].
        grows_tac.
      * apply (counted_alert _ _ _ Ha); simpl in *; lia.
  - rewrite process_ad_skip by done. apply sound_refl.
Qed.

Lemma observe_profile_sound k p st : sound st (observe_profile k p st).
Proof.
  split.
  - unfold observe_profile.
    destruct (opt_truthy (profile_image p)), (links_truthy (pr_links p)); grows_tac.
  - destruct (observe_profile_silent k p st) as [Hs Ht].
    unfold counted. by rewrite Hs, Ht.
Qed.

Lemma process_profile_sound st p : sound st (process_profile st p).
Proof.
  destruct (identity (pr_chainId p) (pr_tokenAddress p)) as [[c t]|] eqn:Hid.
  - destruct (decide ((c, t) ∈ seen_profiles st)) as [Hin|Hin].
    + rewrite (process_profile_seen _ _ _ Hid Hin). apply observe_profile_sound.
    + destruct (process_profile_fires _ _ _ _ Hid Hin)
        as (info & Hd & Hc & Ha).
      cbv zeta in *. apply counters_eq in Hc. destruct Hc as (Hc1 & Hc2 & Hc3).
      eapply sound_trans; [apply (observe_profile_sound (c, t) p)|].
      rewrite <- (seen_profiles_observe (c, t) p st) in Hd.
      set (st1 := observe_profile (c, t) p st) in *.
      split.
      * eapply grows_data; [exact Hd|].
        grows_tac.
      * apply (counted_alert _ _ _ Ha); simpl in *; lia.
  - rewrite process_profile_skip by done. apply sound_refl.
Qed.

Lemma process_boost_sound st b : sound st (process_boost st b).
Proof.
  destruct (identity (bo_chainId b) (bo_tokenAddress b)) as [[c t]|] eqn:Hid;
    [|rewrite process_boost_skip by auto; apply sound_refl].
  destruct (bo_totalAmount b) as [total|] eqn:Ht;
    [|rewrite process_boost_skip by auto; apply sound_refl].
  destruct (Z.le_gt_cases total (default 0%Z (seen_boosts st !! t))) as [Hle|Hlt].
  - rewrite (process_boost_stale _ _ _ _ _ Hid Ht Hle). apply known_tokens_sound.
  - destruct (process_boost_fires _ _ _ _ _ Hid Ht Hlt)
      as (info & Hd & Hc & Ha).
    cbv zeta in *. apply counters_eq in Hc. destruct Hc as (Hc1 & Hc2 & Hc3).
    split.
    + eapply grows_data; [exact Hd|].
      grows_tac.
    + apply (counted_alert _ _ _ Ha); simpl in *; lia.
Qed.

Lemma check_order_sound c t st o : sound st (check_order c t st o).
Proof.
  destruct (Z.lt_ge_cases (default 0%Z (or_paymentTimestamp o)) bot_start_ms) as [Hold|Hs].
  { rewrite check_order_old by done. apply sound_refl. }
  destruct (Z.le_gt_cases (default 0%Z (or_paymentTimestamp o))
              (default 0%Z (seen_orders st !! t))) as [Hle|Hlt].
  { rewrite check_order_known by done. apply sound_refl. }
  destruct (check_order_fires c t st o Hs Hlt) as (info & Hd & Hc & Ha).
  cbv zeta in *. apply counters_eq in Hc. destruct Hc as (Hc1 & Hc2 & Hc3).
  split.
  - eapply grows_data; [exact Hd|].
    grows_tac.
  - destruct (order_title_kind (PyStr.upper (default "unknown" (or_type o)))
                (order_lines o c t
                   (try_except (strftime_utc (default 0%Z (or_paymentTimestamp o)))
                      (λ _, pretty (default 0%Z (or_paymentTimestamp o)))) info))
      as (K1 & K2 & K3 & K4).
    cbv zeta in *.
    apply (counted_alert _ _ _ Ha); rewrite ?K1, ?K2, ?K3, ?K4; simpl in *; lia.
Qed.

Lemma silent_grows_sound st st' : silent st st' → grows st st' → sound st st'.
Proof. intros Hs Hg. split; [done | by apply silent_counted]. Qed.

Lemma fold_left_sound {A} (f : state → A → state) :
  (∀ st x, sound st (f st x)) → ∀ l st, sound st (fold_left f l st).
Proof. apply fold_left_rel; [apply sound_refl | apply sound_trans]. Qed.

Lemma emit_sound e st : alert_of e = None → sound st (emit e st).
Proof. intros H. by apply quiet_sound, quiet_emit. Qed.

Lemma process_ads_sound ads st : sound st (process_ads ads st).
Proof.
  destruct ads as [[l|b]|]; simpl; try apply sound_refl.
  apply fold_left_sound, process_ad_sound.
Qed.

Lemma process_profiles_sound profiles st : sound st (process_profiles profiles st).
Proof.
  destruct profiles as [[l|b]|]; simpl; try apply sound_refl.
  apply fold_left_sound, process_profile_sound.
Qed.

Lemma process_boosts_sound boosts st : sound st (process_boosts boosts st).
Proof.
  destruct boosts as [[l|b]|]; simpl; try apply sound_refl.
  apply fold_left_sound, process_boost_sound.
Qed.

(** name the result of the first fetch of the goal, with what is known
    of the state it leaves *)
Ltac fetch_tac :=
  match goal with
  | |- context [fetch_json ?u ?r ?s] =>
      let H := fresh "Hf" in
      let v := fresh "v" in
      let s1 := fresh "st" in
      pose proof (quiet_sound _ _ (fetch_json_quiet u r s)) as H;
      destruct (fetch_json u r s) as [v s1]; simpl in H
  end.

Lemma check_token_sound st k : sound st (check_token st k).
Proof.
  destruct k as [c t]. unfold check_token. cbv zeta. fetch_tac.
  eapply sound_trans; [exact Hf|].
  destruct v as [d|]; [|apply sound_refl].
  apply fold_left_sound, check_order_sound.
Qed.

Lemma check_orders_sound st : sound st (check_orders st).
Proof. apply fold_left_sound, check_token_sound. Qed.

(** *** The command listener detects nothing *)

Lemma handle_updates_quiet us st : quiet st (fst (handle_updates us st)).
Proof.
  revert st. induction us as [|u us IH]; intros st; simpl; [apply quiet_refl|].
  destruct (up_message u) as [[[text|] [chat|]]|]; simpl;
    try apply IH; try apply quiet_refl.
  destruct (PyStr.startswith text "/start");
    [|destruct (PyStr.startswith text "/status")]; try apply IH.
  - eapply quiet_trans; [apply send_telegram_message_quiet | apply IH].
  - eapply quiet_trans; [apply send_telegram_message_quiet | apply IH].
Qed.

Lemma handle_telegram_updates_quiet st : quiet st (handle_telegram_updates st).
Proof.
  unfold handle_telegram_updates.
  destruct (negb USE_TELEGRAM); [apply quiet_refl|]. cbv zeta.
  assert (quiet st (tick (emit (GetUpdates None) st))) as H0 by by apply quiet_request.
  destruct (w_updates w (clock st)) as [resp|e]; [|exact H0].
  destruct (status_code resp =? 200)%Z; [|exact H0].
  destruct (json resp) as [[d|]|e]; try exact H0.
  destruct (ud_result d) as [|u us]; [exact H0|].
  destruct (ud_ok d); [|exact H0].
  pose proof (handle_updates_quiet (u :: us) (tick (emit (GetUpdates None) st))) as H1.
  destruct (handle_updates (u :: us) _) as [st1 raised]. simpl in H1.
  assert (quiet st st1) as H2 by by eapply quiet_trans.
  destruct raised; [exact H2|].
  destruct (up_update_id _) as [n|]; [|exact H2].
  eapply quiet_trans; [exact H2 | by apply quiet_request].
Qed.

(** *** Start-up seeds the detection state without any event *)

Lemma initialize_ad_sound st a : sound st (initialize_ad st a).
Proof.
  unfold initialize_ad. destruct (identity _ _) as [k|]; [|apply sound_refl].
  apply silent_grows_sound; [by split | grows_tac].
Qed.

Lemma initialize_profile_sound st p : sound st (initialize_profile st p).
Proof.
  unfold initialize_profile. destruct (identity _ _) as [k|]; [|apply sound_refl].
  cbv zeta.
  destruct (opt_truthy (profile_image p)), (links_truthy (pr_links p));
    (apply silent_grows_sound; [by split | grows_tac]).
Qed.

Lemma initialize_boost_sound st b : sound st (initialize_boost st b).
Proof.
  unfold initialize_boost.
  destruct (identity _ _) as [[c t]|]; [|apply sound_refl].
  destruct (bo_totalAmount b) as [total|]; [|apply sound_refl].
  destruct (negb _); [|apply sound_refl].
  apply silent_grows_sound; [by split | grows_tac].
Qed.

Lemma initialize_order_sound t st o : sound st (initialize_order t st o).
Proof.
  unfold initialize_order. cbv zeta. destruct (negb _); [|apply sound_refl].
  apply silent_grows_sound; [by split | grows_tac].
Qed.

Lemma initialize_token_sound st k : sound st (initialize_token st k).
Proof.
  destruct k as [c t]. unfold initialize_token. cbv zeta. fetch_tac.
  eapply sound_trans; [exact Hf|].
  destruct v as [d|]; [|apply sound_refl].
  apply fold_left_sound, initialize_order_sound.
Qed.

Lemma initialize_sound st : sound st (initialize st).
Proof.
  unfold initialize. cbv zeta. do 3 fetch_tac.
  eapply sound_trans; [|apply fold_left_sound, initialize_token_sound].
  eapply sound_trans; [|by apply emit_sound].
  eapply sound_trans;
    [|destruct v1 as [[l|b]|]; try apply sound_refl;
      (eapply sound_trans; [|by apply emit_sound]);
      apply fold_left_sound, initialize_boost_sound].
  eapply sound_trans; [|exact Hf1].
  eapply sound_trans;
    [|destruct v0 as [[[|p ps]|b]|]; try apply sound_refl;
      (eapply sound_trans; [|by apply emit_sound]);
      apply (fold_left_sound _ initialize_profile_sound (p :: ps))].
  eapply sound_trans; [|exact Hf0].
  eapply sound_trans;
    [|destruct v as [[l|b]|]; try apply sound_refl;
      (eapply sound_trans; [|by apply emit_sound]);
      apply fold_left_sound, initialize_ad_sound].
  eapply sound_trans; [|exact Hf].
  by apply emit_sound.
Qed.

(** *** The driver loop *)

(** case analysis on the test of the conditional that yields the state *)
Ltac branch_tac :=
  match goal with
  | |- sound _ (if ?c then _ else _) => destruct c
  end.

Lemma poll_cycle_sound st : sound st (poll_cycle st).
Proof.
  unfold poll_cycle. cbv zeta. do 3 fetch_tac.
  eapply sound_trans; [|branch_tac; [by apply emit_sound | apply sound_refl]].
  eapply sound_trans; [|branch_tac; [apply check_orders_sound | apply sound_refl]].
  eapply sound_trans; [|branch_tac; [apply process_boosts_sound | apply sound_refl]].
  eapply sound_trans; [|branch_tac; [apply process_profiles_sound | apply sound_refl]].
  eapply sound_trans; [|branch_tac; [apply process_ads_sound | apply sound_refl]].
  eapply sound_trans; [|exact Hf1].
  eapply sound_trans; [|exact Hf0].
  eapply sound_trans; [|exact Hf].
  eapply sound_trans;
    [|branch_tac; [apply quiet_sound, handle_telegram_updates_quiet | apply sound_refl]].
  apply quiet_sound, quiet_polls.
Qed.

Lemma poll_cycles_sound n st : sound st (poll_cycles n st).
Proof.
  revert st. induction n as [|n IH]; intros st; simpl; [apply sound_refl|].
  eapply sound_trans; [apply poll_cycle_sound | apply IH].
Qed.

Lemma startup_sound st : sound st (startup st).
Proof.
  unfold startup. cbv zeta.
  eapply sound_trans; [|by apply emit_sound].
  eapply sound_trans; [|apply initialize_sound].
  eapply sound_trans; [|by apply emit_sound].
  eapply sound_trans;
    [|branch_tac;
      [(eapply sound_trans; [|apply quiet_sound, send_telegram_message_quiet]);
       by apply emit_sound
      |by apply emit_sound]].
  repeat (eapply sound_trans; [|by apply emit_sound]).
  apply sound_refl.
Qed.

Lemma shutdown_sound st : sound st (shutdown st).
Proof.
  unfold shutdown. cbv zeta.
  eapply sound_trans; [|by apply emit_sound]. by apply emit_sound.
Qed.

Lemma counted_initial : counted initial_state.
Proof. by repeat split. Qed.

Lemma run_sound n : sound initial_state (main n).
Proof.
  unfold main.
  eapply sound_trans; [apply startup_sound|].
  eapply sound_trans; [apply poll_cycles_sound | apply shutdown_sound].
Qed.

Lemma poll_cycles_add m n st : poll_cycles (m + n) st = poll_cycles n (poll_cycles m st).
Proof. revert st. induction m as [|m IH]; intros st; simpl; [done | apply IH]. Qed.

(** ** Run statistics *)

(** *** Tasks *)

Lemma bind_normal {A B} (t : task A) (k : A → task B) sigint st a sigint' st' :
  t sigint st = (Normal a, sigint', st') → (t ≫= k) sigint st = k a sigint' st'.
Proof. intros H. unfold mbind, task_bind. by rewrite H. Qed.

Lemma calm_ret {A} (a : A) : calm (mret a).
Proof. intros sigint st. apply silent_refl. Qed.

Lemma calm_get : calm get_state.
Proof. intros sigint st. apply silent_refl. Qed.

Lemma calm_bind {A B} (t : task A) (k : A → task B) :
  calm t → (∀ a, calm (k a)) → calm (t ≫= k).
Proof.
  intros Ht Hk sigint st. unfold mbind, task_bind.
  specialize (Ht sigint st). destruct (t sigint st) as [[[a|] q] st1]; simpl in *.
  - eapply silent_trans; [exact Ht | apply Hk].
  - exact Ht.
Qed.

Lemma calm_stmt (f : state → state) : (∀ st, silent st (f st)) → calm (stmt f).
Proof.
  intros H sigint st. unfold stmt.
  destruct sigint as [|[|n] rest]; simpl; auto using silent_refl.
Qed.

Lemma calm_request e : alert_of e = None → calm (request e).
Proof.
  intros He. apply calm_bind; [|intros _]; apply calm_stmt; intros st.
  - by apply quiet_silent, quiet_emit.
  - apply quiet_silent, quiet_tick.
Qed.

Lemma calm_for {X} (body : X → task unit) l : (∀ x, calm (body x)) → calm (for_each l body).
Proof.
  intros H. induction l as [|x l IH]; simpl; [apply calm_ret|].
  apply calm_bind; [apply H | by intros _].
Qed.

Lemma calm_try (body : task unit) : calm body → calm (try_pass body).
Proof.
  intros H sigint st. unfold try_pass. specialize (H sigint st).
  by destruct (body sigint st) as [[[a|] q] st1].
Qed.

Lemma triple_ret {A} (P Q R : state → Prop) (a : A) :
  (∀ st, P st → Q st) → triple P (mret a) Q R.
Proof. intros H sigint st HP. by apply H. Qed.

Lemma triple_bind {A B} (P Q' Q R : state → Prop) (t : task A) (k : A → task B) :
  triple P t Q' R → (∀ a, triple Q' (k a) Q R) → triple P (t ≫= k) Q R.
Proof.
  intros Ht Hk sigint st HP. unfold mbind, task_bind.
  specialize (Ht sigint st HP). destruct (t sigint st) as [[[a|] q] st1].
  - by apply Hk.
  - exact Ht.
Qed.

Lemma triple_get {B} (P Q R : state → Prop) (k : state → task B) :
  (∀ st0, triple P (k st0) Q R) → triple P (get_state ≫= k) Q R.
Proof. intros Hk sigint st HP. by apply Hk. Qed.

Lemma triple_stmt (P Q R : state → Prop) (f : state → state) :
  (∀ st, P st → Q (f st)) → (∀ st, P st → R st) → triple P (stmt f) Q R.
Proof.
  intros HQ HR sigint st HP. unfold stmt.
  destruct sigint as [|[|n] rest]; auto.
Qed.

Lemma triple_calm {A} (P R : state → Prop) (t : task A) :
  calm t → (∀ st st', silent st st' → P st → P st') → (∀ st, P st → R st) →
  triple P t P R.
Proof.
  intros Ht HP HR sigint st H. specialize (Ht sigint st).
  destruct (t sigint st) as [[[a|] q] st1]; simpl in Ht; eauto.
Qed.

Lemma triple_for {X} (P R : state → Prop) (body : X → task unit) l :
  (∀ x, triple P (body x) P R) → triple P (for_each l body) P R.
Proof.
  intros H. induction l as [|x l IH]; simpl; [by apply triple_ret|].
  eapply triple_bind; [apply H | by intros _].
Qed.

Lemma makes_ret {A} (a : A) st : makes (mret a) st 0 a st.
Proof. by split. Qed.

Lemma makes_get st : makes get_state st 0 st st.
Proof. by split. Qed.

Lemma makes_stmt f st : makes (stmt f) st 1 tt (f st).
Proof. by split. Qed.

Lemma makes_bind {A B} (t : task A) (k : A → task B) st n a st1 n' b st2 :
  makes t st n a st1 → makes (k a) st1 n' b st2 → makes (t ≫= k) st (n + n') b st2.
Proof.
  intros [H1 H1'] [H2 H2']. split.
  - by rewrite (bind_normal _ _ _ _ _ _ _ H1).
  - intros m rest. rewrite <- Nat.add_assoc.
    by rewrite (bind_normal _ _ _ _ _ _ _ (H1' (n' + m)%nat rest)).
Qed.

Lemma makes_request e st : makes (request e) st 2 tt (tick (emit e st)).
Proof. by split. Qed.

Lemma makes_try body st n st' : makes body st n tt st' → makes (try_pass body) st n tt st'.
Proof.
  intros [H H']. split; [|intros m rest]; unfold try_pass; by rewrite ?H, ?H'.
Qed.

Lemma makes_for {X} (body : X → task unit) (f : state → X → state) l :
  (∀ x st, ∃ n, makes (body x) st n tt (f st x)) →
  ∀ st, ∃ n, makes (for_each l body) st n tt (fold_left f l st).
Proof.
  intros H. induction l as [|x l IH]; intros st; simpl.
  - exists 0%nat. apply makes_ret.
  - destruct (H x st) as [n Hn]. destruct (IH (f st x)) as [n' Hn'].
    exists (n + n')%nat. by eapply makes_bind.
Qed.

Lemma runs_ret {A} (a : A) st : runs (mret a) st a st.
Proof. eexists. apply makes_ret. Qed.

Lemma runs_stmt f st : runs (stmt f) st tt (f st).
Proof. eexists. apply makes_stmt. Qed.

Lemma runs_request e st : runs (request e) st tt (tick (emit e st)).
Proof. eexists. apply makes_request. Qed.

Lemma runs_bind {A B} (t : task A) (k : A → task B) st a st1 b st2 :
  runs t st a st1 → runs (k a) st1 b st2 → runs (t ≫= k) st b st2.
Proof. intros [n Hn] [n' Hn']. eexists. by eapply makes_bind. Qed.

Lemma runs_get {B} (k : state → task B) st b st2 :
  runs (k st) st b st2 → runs (get_state ≫= k) st b st2.
Proof. intros H. eapply runs_bind; [|exact H]. eexists. apply makes_get. Qed.

Lemma runs_try body st st' : runs body st tt st' → runs (try_pass body) st tt st'.
Proof. intros [n Hn]. eexists. by apply makes_try. Qed.

Lemma runs_for {X} (body : X → task unit) (f : state → X → state) l :
  (∀ x st, runs (body x) st tt (f st x)) →
  ∀ st, runs (for_each l body) st tt (fold_left f l st).
Proof. intros H st. by apply makes_for. Qed.

(** *** What the counters owe *)

Lemma counted_lagging st : counted st → lagging st.
Proof. unfold counted, lagging. lia. Qed.

Lemma owed_lagging c st : owed c st → lagging st.
Proof. unfold owed, lagging. destruct c; simpl; lia. Qed.

Lemma silent_owed c st st' : silent st st' → owed c st → owed c st'.
Proof.
  intros (Hc & Ha) (H1 & H2 & H3). apply counters_eq in Hc.
  destruct Hc as (Ha' & Hb' & Ho').
  unfold owed, count_events, events. rewrite Ha, Ha', Hb', Ho'. by repeat split.
Qed.

Lemma silent_lagging st st' : silent st st' → lagging st → lagging st'.
Proof.
  intros (Hc & Ha) H. apply counters_eq in Hc.
  destruct Hc as (Ha' & Hb' & Ho').
  unfold lagging, count_events, events in *. by rewrite Ha, Ha', Hb', Ho'.
Qed.

Lemma owed_alert c title lines emoji st :
  counts_as title c → owed c st → counted (emit (Alert title lines emoji) st).
Proof.
  intros Hk (H1 & H2 & H3). destruct (Hk lines) as (K1 & K2 & K3).
  assert (alerts (trace (emit (Alert title lines emoji) st))
          = alerts (trace st) ++ [(title, lines)]) as Ha
    by (simpl; by rewrite alerts_app).
  unfold counted. rewrite !(count_events_snoc _ _ _ _ Ha).
  change (stats (emit (Alert title lines emoji) st)) with (stats st). lia.
Qed.

Lemma counts_as_ad : counts_as "NEW AD" Ads.
Proof. by intros lines. Qed.

Lemma counts_as_profile : counts_as "NEW TOKEN PROFILE" Orders.
Proof. by intros lines. Qed.

Lemma counts_as_boost : counts_as "NEW BOOST" Boosts.
Proof. by intros lines. Qed.

Lemma counts_as_order order_type : counts_as ("NEW ORDER - " +:+ order_type) Orders.
Proof.
  intros lines. destruct (order_title_kind order_type lines) as (K1 & K2 & K3 & K4).
  cbv zeta in *. by rewrite K1, K2, K3, K4.
Qed.

(** *** The tasks that detect nothing *)

Lemma fetch_json_task_calm {A} url (r : reply A) : calm (fetch_json_task url r).
Proof.
  unfold fetch_json_task. apply calm_bind; [by apply calm_request | intros _].
  destruct (fetch_json_try r); [apply calm_ret|].
  apply calm_bind; [|intros _; apply calm_ret].
  apply calm_stmt. intros st. apply quiet_silent, quiet_errors.
Qed.

Lemma get_token_info_task_calm c t : calm (get_token_info_task c t).
Proof.
  unfold get_token_info_task. cbv zeta.
  apply calm_bind; [apply calm_get | intros st].
  apply calm_bind; [apply fetch_json_task_calm | intros data; apply calm_ret].
Qed.

Lemma calm_log lv msg : calm (stmt (emit (Log lv msg))).
Proof. apply calm_stmt. intros st. by apply quiet_silent, quiet_emit. Qed.

Lemma send_telegram_message_task_calm text : calm (send_telegram_message_task text).
Proof.
  unfold send_telegram_message_task. destruct (negb USE_TELEGRAM); [apply calm_ret|].
  apply calm_bind; [apply calm_get | intros st]. cbv zeta.
  apply calm_bind; [by apply calm_request | intros _].
  destruct (w_post w (clock st)) as [resp|e].
  - destruct (status_code resp =? 200)%Z; [apply calm_ret|].
    apply calm_bind; [apply calm_log | intros _; apply calm_ret].
  - apply calm_bind; [apply calm_log | intros _; apply calm_ret].
Qed.

Lemma send_telegram_photo_task_calm photo caption :
  calm (send_telegram_photo_task photo caption).
Proof.
  unfold send_telegram_photo_task. destruct (negb USE_TELEGRAM); [apply calm_ret|].
  apply calm_bind; [apply calm_get | intros st]. cbv zeta.
  apply calm_bind; [by apply calm_request | intros _].
  destruct (w_post w (clock st)) as [resp|e].
  - destruct (status_code resp =? 200)%Z;
      [apply calm_ret | apply send_telegram_message_task_calm].
  - apply calm_bind; [apply calm_log | intros _; apply send_telegram_message_task_calm].
Qed.

Lemma handle_updates_task_calm us : calm (handle_updates_task us).
Proof.
  induction us as [|u us IH]; simpl; [apply calm_ret|].
  destruct (up_message u) as [[[text|] [chat|]]|]; try apply IH; try apply calm_ret.
  destruct (PyStr.startswith text "/start");
    [|destruct (PyStr.startswith text "/status")]; try apply IH.
  - apply calm_bind; [apply send_telegram_message_task_calm | by intros _].
  - apply calm_bind; [apply calm_get | intros st]. cbv zeta.
    apply calm_bind; [apply send_telegram_message_task_calm | by intros _].
Qed.

Lemma handle_telegram_updates_task_calm : calm handle_telegram_updates_task.
Proof.
  unfold handle_telegram_updates_task. destruct (negb USE_TELEGRAM); [apply calm_ret|].
  apply calm_try. apply calm_bind; [apply calm_get | intros st]. cbv zeta.
  apply calm_bind; [by apply calm_request | intros _].
  destruct (w_updates w (clock st)) as [resp|e]; [|apply calm_ret].
  destruct (status_code resp =? 200)%Z; [|apply calm_ret].
  destruct (json resp) as [[d|]|e]; try apply calm_ret.
  destruct (ud_result d) as [|u us]; [apply calm_ret|].
  destruct (ud_ok d); [|apply calm_ret].
  apply calm_bind; [apply handle_updates_task_calm | intros raised].
  destruct raised; [apply calm_ret|].
  destruct (up_update_id _) as [n|]; [by apply calm_request | apply calm_ret].
Qed.

(** *** The detections *)

(** the alert pays what the counter owes; the delivery that follows
    detects nothing *)
Lemma print_alert_task_counts c title lines emoji :
  counts_as title c →
  triple (owed c) (print_alert_task title lines emoji) counted lagging.
Proof.
  intros Hk. unfold print_alert_task.
  eapply triple_bind;
    [apply triple_stmt; [intros st; by apply owed_alert | apply owed_lagging]|].
  intros _. apply triple_calm; [|apply silent_counted | apply counted_lagging].
  destruct USE_TELEGRAM; [|apply calm_ret].
  apply calm_bind; [apply calm_get | intros st]. cbv zeta.
  destruct (format_telegram_alert _ _ _ _ _) as [[message chart_url]|e]; [|apply calm_ret].
  apply calm_bind; [apply send_telegram_photo_task_calm | intros sent].
  destruct (negb sent); [|apply calm_ret].
  apply calm_bind; [apply send_telegram_message_task_calm | intros _; apply calm_ret].
Qed.

(** the end of every detection: the enrichment, the alert, the log
    record *)
Lemma announce_task_counts cn c t title (f : option token_info → list string) emoji msg :
  counts_as title cn →
  triple (owed cn)
    (token_info ← get_token_info_task c t;
     print_alert_task title (f token_info) emoji;;
     stmt (emit (Log INFO msg)))
    counted lagging.
Proof.
  intros Hk.
  eapply triple_bind;
    [apply triple_calm;
       [apply get_token_info_task_calm | apply silent_owed | apply owed_lagging]|].
  intros info.
  eapply triple_bind; [by apply print_alert_task_counts|].
  intros _. apply triple_calm; [apply calm_log | apply silent_counted | apply counted_lagging].
Qed.

(** a step on the detection state alone *)
Lemma triple_data (f : state → state) :
  (∀ st, stats (f st) = stats st ∧ trace (f st) = trace st) →
  triple counted (stmt f) counted lagging.
Proof.
  intros H. apply triple_stmt; [|apply counted_lagging].
  intros st. destruct (H st) as [Hs Ht]. unfold counted. by rewrite Hs, Ht.
Qed.

(** the increment of a detection counter *)
Lemma triple_incr cn (incr : stats_t → stats_t) :
  (∀ s, ads_detected (incr s) = (ads_detected s + owes cn Ads)%nat
        ∧ boosts_detected (incr s) = (boosts_detected s + owes cn Boosts)%nat
        ∧ orders_detected (incr s) = (orders_detected s + owes cn Orders)%nat) →
  triple counted (stmt (set_stats incr)) (owed cn) lagging.
Proof.
  intros H. apply triple_stmt; [|apply counted_lagging].
  intros st (H1 & H2 & H3). destruct (H (stats st)) as (K1 & K2 & K3).
  unfold owed. simpl. rewrite K1, K2, K3, H1, H2, H3. by repeat split.
Qed.

Lemma process_ad_task_counts a : triple counted (process_ad_task a) counted lagging.
Proof.
  unfold process_ad_task.
  destruct (identity _ _) as [[c t]|]; [|by apply triple_ret]. cbv zeta.
  eapply triple_bind; [by apply triple_data | intros _].
  apply triple_get. intros st0. destruct (bool_decide _); [by apply triple_ret|].
  eapply triple_bind; [by apply triple_data | intros _].
  eapply triple_bind; [apply (triple_incr Ads); intros s; simpl; lia | intros _].
  apply (announce_task_counts Ads c t "NEW AD" (ad_lines a c t)), counts_as_ad.
Qed.

Lemma process_profile_task_counts p :
  triple counted (process_profile_task p) counted lagging.
Proof.
  unfold process_profile_task.
  destruct (identity _ _) as [[c t]|]; [|by apply triple_ret]. cbv zeta.
  eapply triple_bind; [by apply triple_data | intros _].
  eapply triple_bind;
    [destruct (opt_truthy _); [by apply triple_data | by apply triple_ret] | intros _].
  eapply triple_bind;
    [destruct (links_truthy _); [by apply triple_data | by apply triple_ret] | intros _].
  apply triple_get. intros st0. destruct (bool_decide _); [by apply triple_ret|].
  eapply triple_bind; [by apply triple_data | intros _].
  eapply triple_bind; [apply (triple_incr Orders); intros s; simpl; lia | intros _].
  apply (announce_task_counts Orders c t "NEW TOKEN PROFILE" (profile_lines p c t)),
    counts_as_profile.
Qed.

Lemma process_boost_task_counts b : triple counted (process_boost_task b) counted lagging.
Proof.
  unfold process_boost_task.
  destruct (identity _ _) as [[c t]|]; [|by apply triple_ret].
  destruct (bo_totalAmount b) as [total|]; [|by apply triple_ret]. cbv zeta.
  eapply triple_bind; [by apply triple_data | intros _].
  apply triple_get. intros st0. destruct (_ <=? _)%Z; [by apply triple_ret|].
  eapply triple_bind; [by apply triple_data | intros _].
  eapply triple_bind; [apply (triple_incr Boosts); intros s; simpl; lia | intros _].
  apply (announce_task_counts Boosts c t "NEW BOOST"
           (boost_lines b c t total (default 0%Z (seen_boosts st0 !! t)))),
    counts_as_boost.
Qed.

Lemma check_order_task_counts c t o :
  triple counted (check_order_task c t o) counted lagging.
Proof.
  unfold check_order_task. cbv zeta.
  destruct (_ <? _)%Z; [by apply triple_ret|].
  apply triple_get. intros st0. destruct (_ >? _)%Z; [|by apply triple_ret].
  eapply triple_bind; [by apply triple_data | intros _].
  eapply triple_bind; [apply (triple_incr Orders); intros s; simpl; lia | intros _].
  apply (announce_task_counts Orders c t
           ("NEW ORDER - " +:+ PyStr.upper (default "unknown" (or_type o)))
           (order_lines o c t
              (try_except (strftime_utc (default 0%Z (or_paymentTimestamp o)))
                 (λ _, pretty (default 0%Z (or_paymentTimestamp o)))))),
    counts_as_order.
Qed.

(** a task that detects nothing keeps the counters right *)
Lemma triple_of_calm {A} (t : task A) : calm t → triple counted t counted lagging.
Proof. intros H. apply triple_calm; [done | apply silent_counted | apply counted_lagging]. Qed.

Lemma check_token_task_counts k : triple counted (check_token_task k) counted lagging.
Proof.
  destruct k as [c t]. unfold check_token_task. cbv zeta.
  apply triple_get. intros st0.
  eapply triple_bind; [apply triple_of_calm, fetch_json_task_calm | intros data].
  destruct data as [d|]; [|by apply triple_ret].
  apply triple_for. intros o. apply check_order_task_counts.
Qed.

Lemma check_orders_task_counts : triple counted check_orders_task counted lagging.
Proof.
  unfold check_orders_task. apply triple_get. intros st0.
  apply triple_for, check_token_task_counts.
Qed.

Lemma poll_cycle_task_counts : triple counted poll_cycle_task counted lagging.
Proof.
  unfold poll_cycle_task.
  eapply triple_bind;
    [apply triple_of_calm, calm_stmt; intros st; apply quiet_silent, quiet_polls | intros _].
  apply triple_get. intros st0.
  eapply triple_bind;
    [destruct (_ =? _)%nat;
       [apply triple_of_calm, handle_telegram_updates_task_calm | by apply triple_ret]
    | intros _].
  apply triple_get. intros st1.
  eapply triple_bind; [apply triple_of_calm, fetch_json_task_calm | intros ads].
  apply triple_get. intros st2.
  eapply triple_bind; [apply triple_of_calm, fetch_json_task_calm | intros profiles].
  apply triple_get. intros st3.
  eapply triple_bind; [apply triple_of_calm, fetch_json_task_calm | intros boosts].
  eapply triple_bind; [|intros _].
  { destruct (feed_truthy ads); [|by apply triple_ret].
    destruct ads as [[l|b]|]; try by apply triple_ret.
    apply triple_for, process_ad_task_counts. }
  eapply triple_bind; [|intros _].
  { destruct (feed_truthy profiles); [|by apply triple_ret].
    destruct profiles as [[l|b]|]; try by apply triple_ret.
    apply triple_for, process_profile_task_counts. }
  eapply triple_bind; [|intros _].
  { destruct (feed_truthy boosts); [|by apply triple_ret].
    destruct boosts as [[l|b]|]; try by apply triple_ret.
    apply triple_for, process_boost_task_counts. }
  apply triple_get. intros st4.
  eapply triple_bind;
    [destruct (_ =? _)%nat; [apply check_orders_task_counts | by apply triple_ret]
    | intros _].
  apply triple_get. intros st5.
  destruct (_ =? _)%nat; [|by apply triple_ret].
  apply triple_of_calm, calm_stmt. intros st. unfold poll_report.
  destruct (_ =? _)%nat; [|apply silent_refl]. by apply quiet_silent, quiet_emit.
Qed.

(** *** The start-up and the handler detect nothing *)

Lemma calm_print (f : state → string) : calm (stmt (λ st, emit (Print (f st)) st)).
Proof. apply calm_stmt. intros st. by apply quiet_silent, quiet_emit. Qed.

Lemma calm_data (f : state → state) :
  (∀ st, stats (f st) = stats st ∧ trace (f st) = trace st) → calm (stmt f).
Proof.
  intros H. apply calm_stmt. intros st. destruct (H st) as [Hs Ht].
  unfold silent, counters. by rewrite Hs, Ht.
Qed.

Lemma shutdown_task_calm : calm shutdown_task.
Proof.
  unfold shutdown_task. apply calm_bind; [apply (calm_print (λ _, _)) | intros _].
  apply (calm_print (λ st, _)).
Qed.

Lemma initialize_ad_task_calm a : calm (initialize_ad_task a).
Proof.
  unfold initialize_ad_task. destruct (identity _ _) as [k|]; [|apply calm_ret].
  apply calm_bind; [|intros _]; by apply calm_data.
Qed.

Lemma initialize_profile_task_calm p : calm (initialize_profile_task p).
Proof.
  unfold initialize_profile_task. destruct (identity _ _) as [k|]; [|apply calm_ret].
  cbv zeta.
  apply calm_bind; [by apply calm_data | intros _].
  apply calm_bind; [by apply calm_data | intros _].
  apply calm_bind;
    [destruct (opt_truthy _); [by apply calm_data | apply calm_ret] | intros _].
  destruct (links_truthy _); [by apply calm_data | apply calm_ret].
Qed.

Lemma initialize_boost_task_calm b : calm (initialize_boost_task b).
Proof.
  unfold initialize_boost_task.
  destruct (identity _ _) as [[c t]|]; [|apply calm_ret].
  destruct (bo_totalAmount b) as [total|]; [|apply calm_ret].
  destruct (negb _); [|apply calm_ret].
  apply calm_bind; [|intros _]; by apply calm_data.
Qed.

Lemma initialize_order_task_calm t o : calm (initialize_order_task t o).
Proof.
  unfold initialize_order_task. cbv zeta.
  destruct (negb _); [by apply calm_data | apply calm_ret].
Qed.

Lemma initialize_token_task_calm k : calm (initialize_token_task k).
Proof.
  destruct k as [c t]. unfold initialize_token_task. cbv zeta.
  apply calm_bind; [apply calm_get | intros st].
  apply calm_bind; [apply fetch_json_task_calm | intros data].
  destruct data as [d|]; [|apply calm_ret].
  apply calm_for, initialize_order_task_calm.
Qed.

Lemma initialize_task_calm : calm initialize_task.
Proof.
  unfold initialize_task.
  apply calm_bind; [apply (calm_print (λ _, _)) | intros _].
  apply calm_bind; [apply calm_get | intros st0].
  apply calm_bind; [apply fetch_json_task_calm | intros ads].
  apply calm_bind; [|intros _].
  { destruct ads as [[l|b]|]; try apply calm_ret.
    apply calm_bind; [apply calm_for, initialize_ad_task_calm | intros _].
    apply (calm_print (λ st, _)). }
  apply calm_bind; [apply calm_get | intros st1].
  apply calm_bind; [apply fetch_json_task_calm | intros profiles].
  apply calm_bind; [|intros _].
  { destruct profiles as [[[|p ps]|b]|]; try apply calm_ret.
    apply calm_bind; [apply calm_for, initialize_profile_task_calm | intros _].
    apply (calm_print (λ _, _)). }
  apply calm_bind; [apply calm_get | intros st2].
  apply calm_bind; [apply fetch_json_task_calm | intros boosts].
  apply calm_bind; [|intros _].
  { destruct boosts as [[l|b]|]; try apply calm_ret.
    apply calm_bind; [apply calm_for, initialize_boost_task_calm | intros _].
    apply (calm_print (λ st, _)). }
  apply calm_bind; [apply (calm_print (λ st, _)) | intros _].
  apply calm_bind; [apply calm_get | intros st3].
  apply calm_for, initialize_token_task_calm.
Qed.

Lemma startup_task_calm : calm startup_task.
Proof.
  unfold startup_task. cbv zeta.
  do 9 (apply calm_bind; [apply (calm_print (λ _, _)) | intros _]).
  apply calm_bind; [|intros _].
  { destruct USE_TELEGRAM; [|apply (calm_print (λ _, _))].
    apply calm_bind; [apply (calm_print (λ _, _)) | intros _].
    apply calm_bind; [apply send_telegram_message_task_calm | intros _; apply calm_ret]. }
  apply calm_bind; [apply (calm_print (λ _, _)) | intros _].
  apply calm_bind; [apply initialize_task_calm | intros _].
  apply (calm_print (λ _, _)).
Qed.

(** the handler prints the statistics as they are *)
Lemma stop_silent (asleep : bool) sigint st :
  match stop asleep sigint st with
  | Stopped b st' => b = asleep ∧ silent st st'
  | Aborted st' => silent st st'
  | Running _ => False
  end.
Proof.
  unfold stop. pose proof (shutdown_task_calm sigint st) as H.
  by destruct (shutdown_task sigint st) as [[[[]|] q] st1].
Qed.

Lemma stop_counts (asleep : bool) sigint st :
  (if asleep then counted st else lagging st) →
  match stop asleep sigint st with
  | Stopped true st' | Running st' => counted st'
  | Stopped false st' | Aborted st' => lagging st'
  end.
Proof.
  intros H. pose proof (stop_silent asleep sigint st) as Hs.
  destruct (stop asleep sigint st) as [b st'|st'|st']; [|  |done].
  - destruct Hs as [-> Hs]. destruct asleep.
    + by apply (silent_counted st).
    + by apply (silent_lagging st).
  - destruct asleep.
    + by apply counted_lagging, (silent_counted st).
    + by apply (silent_lagging st).
Qed.

(** the counters are right at the top of every turn and when the bot is
    stopped in its sleep; stopped elsewhere, they are one event ahead at
    most *)
Lemma loop_counts turns sigint st :
  counted st →
  match loop turns sigint st with
  | Stopped true st' | Running st' => counted st'
  | Stopped false st' | Aborted st' => lagging st'
  end.
Proof.
  revert sigint st. induction turns as [|turns IH]; intros sigint st H; simpl; [done|].
  pose proof (poll_cycle_task_counts sigint st H) as Hc.
  destruct (poll_cycle_task sigint st) as [[[[]|] q] st1].
  - unfold sleep, stmt. destruct q as [|[|n] rest].
    + by apply IH.
    + by apply (stop_counts true).
    + by apply IH.
  - by apply (stop_counts false).
Qed.

Lemma main_task_counts sigint turns :
  match main_task sigint turns with
  | Stopped true st' | Running st' => counted st'
  | Stopped false st' | Aborted st' => lagging st'
  end.
Proof.
  unfold main_task.
  pose proof (startup_task_calm sigint initial_state) as H.
  destruct (startup_task sigint initial_state) as [[[[]|] q] st1]; simpl in H.
  - apply loop_counts. by apply (silent_counted initial_state).
  - by apply counted_lagging, (silent_counted initial_state).
Qed.

(** *** The tasks, left alone, are the procedures *)

Lemma fetch_json_task_runs {A} url (r : reply A) st :
  runs (fetch_json_task url r) st (fetch_json url r st).1 (fetch_json url r st).2.
Proof.
  unfold fetch_json_task, fetch_json.
  eapply runs_bind; [apply runs_request|].
  destruct (fetch_json_try r); simpl; [apply runs_ret|].
  eapply runs_bind; [apply runs_stmt | apply runs_ret].
Qed.

Lemma token_info_of_spec c t st :
  (get_token_info c t st).1
  = token_info_of t (fetch_json (DEX_TOKENS_URL c t)
                       (w_tokens w (clock st) (DEX_TOKENS_URL c t)) st).1
  ∧ (get_token_info c t st).2
    = (fetch_json (DEX_TOKENS_URL c t) (w_tokens w (clock st) (DEX_TOKENS_URL c t)) st).2.
Proof.
  unfold get_token_info. cbv zeta.
  destruct (fetch_json _ _ st) as [data st1].
  by destruct data as [[[|p ps]|b]|].
Qed.

Lemma get_token_info_task_runs c t st :
  runs (get_token_info_task c t) st (get_token_info c t st).1 (get_token_info c t st).2.
Proof.
  destruct (token_info_of_spec c t st) as [-> ->].
  unfold get_token_info_task. cbv zeta. apply runs_get.
  eapply runs_bind; [apply fetch_json_task_runs | apply runs_ret].
Qed.

Lemma send_telegram_message_task_runs text st :
  runs (send_telegram_message_task text) st
    (send_telegram_message text st).1 (send_telegram_message text st).2.
Proof.
  unfold send_telegram_message_task, send_telegram_message.
  destruct (negb USE_TELEGRAM); [apply runs_ret|].
  apply runs_get. cbv zeta. eapply runs_bind; [apply runs_request|].
  destruct (w_post w (clock st)) as [resp|e].
  - destruct (status_code resp =? 200)%Z; [apply runs_ret|].
    eapply runs_bind; [apply runs_stmt | apply runs_ret].
  - eapply runs_bind; [apply runs_stmt | apply runs_ret].
Qed.

Lemma send_telegram_photo_task_runs photo caption st :
  runs (send_telegram_photo_task photo caption) st
    (send_telegram_photo photo caption st).1 (send_telegram_photo photo caption st).2.
Proof.
  unfold send_telegram_photo_task, send_telegram_photo.
  destruct (negb USE_TELEGRAM); [apply runs_ret|].
  apply runs_get. cbv zeta. eapply runs_bind; [apply runs_request|].
  destruct (w_post w (clock st)) as [resp|e].
  - destruct (status_code resp =? 200)%Z;
      [apply runs_ret | apply send_telegram_message_task_runs].
  - eapply runs_bind; [apply runs_stmt | apply send_telegram_message_task_runs].
Qed.

Lemma print_alert_task_runs title lines emoji st :
  runs (print_alert_task title lines emoji) st tt (print_alert title lines emoji st).
Proof.
  unfold print_alert_task, print_alert.
  eapply runs_bind; [apply runs_stmt|]. cbv zeta.
  destruct USE_TELEGRAM; [|apply runs_ret].
  apply runs_get.
  destruct (format_telegram_alert _ _ _ _ _) as [[message chart_url]|e]; [|apply runs_ret].
  eapply runs_bind; [apply send_telegram_photo_task_runs|].
  destruct (send_telegram_photo chart_url message _) as [sent st1]. simpl.
  destruct sent; simpl; [apply runs_ret|].
  eapply runs_bind; [apply send_telegram_message_task_runs | apply runs_ret].
Qed.

(** the end of every detection *)
Lemma announce_task_runs c t title (f : option token_info → list string) emoji msg st :
  runs (token_info ← get_token_info_task c t;
        print_alert_task title (f token_info) emoji;;
        stmt (emit (Log INFO msg)))
    st tt
    (let '(token_info, st) := get_token_info c t st in
     emit (Log INFO msg) (print_alert title (f token_info) emoji st)).
Proof.
  eapply runs_bind; [apply get_token_info_task_runs|].
  destruct (get_token_info c t st) as [info st1]. simpl.
  eapply runs_bind; [apply print_alert_task_runs | apply runs_stmt].
Qed.

Lemma process_ad_task_runs a st : runs (process_ad_task a) st tt (process_ad st a).
Proof.
  unfold process_ad_task, process_ad.
  destruct (identity _ _) as [[c t]|]; [|apply runs_ret]. cbv zeta.
  eapply runs_bind; [apply runs_stmt|]. apply runs_get.
  destruct (bool_decide _); [apply runs_ret|].
  eapply runs_bind; [apply runs_stmt|].
  eapply runs_bind; [apply runs_stmt|].
  apply (announce_task_runs c t "NEW AD" (ad_lines a c t)).
Qed.

Lemma process_profile_task_runs p st :
  runs (process_profile_task p) st tt (process_profile st p).
Proof.
  unfold process_profile_task, process_profile.
  destruct (identity _ _) as [[c t]|]; [|apply runs_ret]. cbv zeta.
  eapply runs_bind; [apply runs_stmt|].
  destruct (opt_truthy _), (links_truthy _);
    (eapply runs_bind; [first [apply runs_stmt | apply runs_ret]|]);
    (eapply runs_bind; [first [apply runs_stmt | apply runs_ret]|]);
    apply runs_get;
    (destruct (bool_decide _); [apply runs_ret|]);
    (eapply runs_bind; [apply runs_stmt|]);
    (eapply runs_bind; [apply runs_stmt|]);
    apply (announce_task_runs c t "NEW TOKEN PROFILE" (profile_lines p c t)).
Qed.

Lemma process_boost_task_runs b st : runs (process_boost_task b) st tt (process_boost st b).
Proof.
  unfold process_boost_task, process_boost.
  destruct (identity _ _) as [[c t]|]; [|apply runs_ret].
  destruct (bo_totalAmount b) as [total|]; [|apply runs_ret]. cbv zeta.
  eapply runs_bind; [apply runs_stmt|]. apply runs_get.
  destruct (_ <=? _)%Z; [apply runs_ret|].
  eapply runs_bind; [apply runs_stmt|].
  eapply runs_bind; [apply runs_stmt|].
  apply (announce_task_runs c t "NEW BOOST").
Qed.

Lemma check_order_task_runs c t o st :
  runs (check_order_task c t o) st tt (check_order c t st o).
Proof.
  unfold check_order_task, check_order. cbv zeta.
  destruct (_ <? _)%Z; [apply runs_ret|]. apply runs_get.
  destruct (_ >? _)%Z; [|apply runs_ret].
  eapply runs_bind; [apply runs_stmt|].
  eapply runs_bind; [apply runs_stmt|].
  apply (announce_task_runs c t
           ("NEW ORDER - " +:+ PyStr.upper (default "unknown" (or_type o)))).
Qed.

Lemma check_token_task_runs k st : runs (check_token_task k) st tt (check_token st k).
Proof.
  destruct k as [c t]. unfold check_token_task, check_token. cbv zeta.
  apply runs_get. eapply runs_bind; [apply fetch_json_task_runs|].
  destruct (fetch_json _ _ st) as [data st1]. simpl.
  destruct data as [d|]; [|apply runs_ret].
  apply runs_for. intros o st'. apply check_order_task_runs.
Qed.

Lemma check_orders_task_runs st : runs check_orders_task st tt (check_orders st).
Proof.
  unfold check_orders_task, check_orders. apply runs_get.
  apply runs_for. intros k st'. apply check_token_task_runs.
Qed.

Lemma handle_updates_task_runs us st :
  runs (handle_updates_task us) st (handle_updates us st).2 (handle_updates us st).1.
Proof.
  revert st. induction us as [|u us IH]; intros st; simpl; [apply runs_ret|].
  destruct (up_message u) as [[[text|] [chat|]]|]; try apply IH; try apply runs_ret.
  destruct (PyStr.startswith text "/start");
    [|destruct (PyStr.startswith text "/status")]; try apply IH.
  - eapply runs_bind; [apply send_telegram_message_task_runs | apply IH].
  - apply runs_get. cbv zeta.
    eapply runs_bind; [apply send_telegram_message_task_runs | apply IH].
Qed.

Lemma handle_telegram_updates_task_runs st :
  runs handle_telegram_updates_task st tt (handle_telegram_updates st).
Proof.
  unfold handle_telegram_updates_task, handle_telegram_updates.
  destruct (negb USE_TELEGRAM); [apply runs_ret|].
  apply runs_try, runs_get. cbv zeta.
  eapply runs_bind; [apply runs_request|].
  destruct (w_updates w (clock st)) as [resp|e]; [|apply runs_ret].
  destruct (status_code resp =? 200)%Z; [|apply runs_ret].
  destruct (json resp) as [[d|]|e]; try apply runs_ret.
  destruct (ud_result d) as [|u us]; [apply runs_ret|].
  destruct (ud_ok d); [|apply runs_ret].
  eapply runs_bind; [apply handle_updates_task_runs|].
  destruct (handle_updates (u :: us) _) as [st1 raised]. simpl.
  destruct raised; [apply runs_ret|].
  destruct (up_update_id _) as [n|]; [apply runs_request | apply runs_ret].
Qed.

Lemma process_ads_task_runs ads st : runs (process_ads_task ads) st tt (process_ads ads st).
Proof.
  destruct ads as [[l|b]|]; try apply runs_ret.
  apply runs_for. intros x st'. apply process_ad_task_runs.
Qed.

Lemma process_profiles_task_runs profiles st :
  runs (process_profiles_task profiles) st tt (process_profiles profiles st).
Proof.
  destruct profiles as [[l|b]|]; try apply runs_ret.
  apply runs_for. intros x st'. apply process_profile_task_runs.
Qed.

Lemma process_boosts_task_runs boosts st :
  runs (process_boosts_task boosts) st tt (process_boosts boosts st).
Proof.
  destruct boosts as [[l|b]|]; try apply runs_ret.
  apply runs_for. intros x st'. apply process_boost_task_runs.
Qed.

Lemma runs_if (b : bool) (t : task unit) (f : state → state) st :
  runs t st tt (f st) →
  runs (if b then t else mret tt) st tt (if b then f st else st).
Proof. intros H. destruct b; [exact H | apply runs_ret]. Qed.

Lemma poll_report_runs st :
  runs (if (polls (stats st) mod 10 =? 0)%nat then stmt poll_report else mret tt)
    st tt (poll_report st).
Proof.
  destruct (_ =? _)%nat eqn:E.
  - exact (runs_stmt _ _).
  - unfold poll_report. rewrite E. apply runs_ret.
Qed.

Lemma poll_cycle_task_runs st : runs poll_cycle_task st tt (poll_cycle st).
Proof.
  unfold poll_cycle_task, poll_cycle. cbv zeta.
  eapply runs_bind; [apply runs_stmt|]. apply runs_get.
  eapply runs_bind;
    [apply (runs_if _ _ handle_telegram_updates), handle_telegram_updates_task_runs|].
  apply runs_get. eapply runs_bind; [apply fetch_json_task_runs|].
  destruct (fetch_json DEX_ADS_URL _ _) as [ads st1]. cbn [fst snd].
  apply runs_get. eapply runs_bind; [apply fetch_json_task_runs|].
  destruct (fetch_json DEX_PROFILES_URL _ _) as [profiles st2]. cbn [fst snd].
  apply runs_get. eapply runs_bind; [apply fetch_json_task_runs|].
  destruct (fetch_json DEX_BOOST_URL _ _) as [boosts st3]. cbn [fst snd].
  eapply runs_bind; [apply (runs_if _ _ (process_ads ads)), process_ads_task_runs|].
  eapply runs_bind;
    [apply (runs_if _ _ (process_profiles profiles)), process_profiles_task_runs|].
  eapply runs_bind;
    [apply (runs_if _ _ (process_boosts boosts)), process_boosts_task_runs|].
  apply runs_get.
  eapply runs_bind; [apply (runs_if _ _ check_orders), check_orders_task_runs|].
  apply runs_get. apply poll_report_runs.
Qed.

Lemma shutdown_task_runs st : runs shutdown_task st tt (shutdown st).
Proof.
  unfold shutdown_task, shutdown. cbv zeta.
  eapply runs_bind; [apply runs_stmt|]. exact (runs_stmt _ _).
Qed.

Lemma initialize_ad_task_runs a st : runs (initialize_ad_task a) st tt (initialize_ad st a).
Proof.
  unfold initialize_ad_task, initialize_ad.
  destruct (identity _ _) as [k|]; [|apply runs_ret].
  eapply runs_bind; [apply runs_stmt|]. exact (runs_stmt _ _).
Qed.

Lemma initialize_profile_task_runs p st :
  runs (initialize_profile_task p) st tt (initialize_profile st p).
Proof.
  unfold initialize_profile_task, initialize_profile.
  destruct (identity _ _) as [k|]; [|apply runs_ret]. cbv zeta.
  eapply runs_bind; [apply runs_stmt|].
  eapply runs_bind; [apply runs_stmt|].
  destruct (opt_truthy _), (links_truthy _);
    (eapply runs_bind; [first [apply runs_stmt | apply runs_ret]|]);
    first [exact (runs_stmt _ _) | apply runs_ret].
Qed.

Lemma initialize_boost_task_runs b st :
  runs (initialize_boost_task b) st tt (initialize_boost st b).
Proof.
  unfold initialize_boost_task, initialize_boost.
  destruct (identity _ _) as [[c t]|]; [|apply runs_ret].
  destruct (bo_totalAmount b) as [total|]; [|apply runs_ret].
  destruct (negb _); [|apply runs_ret].
  eapply runs_bind; [apply runs_stmt|]. exact (runs_stmt _ _).
Qed.

Lemma initialize_order_task_runs t o st :
  runs (initialize_order_task t o) st tt (initialize_order t st o).
Proof.
  unfold initialize_order_task, initialize_order. cbv zeta.
  destruct (negb _); [exact (runs_stmt _ _) | apply runs_ret].
Qed.

Lemma initialize_token_task_runs k st :
  runs (initialize_token_task k) st tt (initialize_token st k).
Proof.
  destruct k as [c t]. unfold initialize_token_task, initialize_token. cbv zeta.
  apply runs_get. eapply runs_bind; [apply fetch_json_task_runs|].
  destruct (fetch_json _ _ st) as [data st1]. cbn [fst snd].
  destruct data as [d|]; [|apply runs_ret].
  apply runs_for. intros o st'. apply initialize_order_task_runs.
Qed.

Lemma initialize_task_runs st : runs initialize_task st tt (initialize st).
Proof.
  unfold initialize_task, initialize. cbv zeta.
  eapply runs_bind; [apply runs_stmt|]. apply runs_get.
  eapply runs_bind; [apply fetch_json_task_runs|].
  destruct (fetch_json DEX_ADS_URL _ _) as [ads st1]. cbn [fst snd].
  eapply runs_bind.
  { instantiate (1 := match ads with
                      | Some (Records l) =>
                          emit (Print ("✅ Found "
                                       +:+ pretty (size (seen_ads (fold_left initialize_ad l st1)))
                                       +:+ " active ads")) (fold_left initialize_ad l st1)
                      | _ => st1
                      end).
    destruct ads as [[l|b]|]; try apply runs_ret.
    eapply runs_bind;
      [apply runs_for; intros x st'; apply initialize_ad_task_runs | exact (runs_stmt _ _)]. }
  apply runs_get. eapply runs_bind; [apply fetch_json_task_runs|].
  destruct (fetch_json DEX_PROFILES_URL _ _) as [profiles st2]. cbn [fst snd].
  eapply runs_bind.
  { instantiate (1 := match profiles with
                      | Some (Records (p :: ps)) =>
                          emit (Print ("✅ Found " +:+ pretty (length (p :: ps))
                                       +:+ " token profiles"))
                            (fold_left initialize_profile (p :: ps) st2)
                      | _ => st2
                      end).
    destruct profiles as [[[|p ps]|b]|]; try apply runs_ret.
    eapply runs_bind;
      [apply (runs_for _ initialize_profile (p :: ps));
       intros x st'; apply initialize_profile_task_runs
      |exact (runs_stmt _ _)]. }
  apply runs_get. eapply runs_bind; [apply fetch_json_task_runs|].
  destruct (fetch_json DEX_BOOST_URL _ _) as [boosts st3]. cbn [fst snd].
  eapply runs_bind.
  { instantiate (1 := match boosts with
                      | Some (Records l) =>
                          emit (Print ("✅ Found "
                                       +:+ pretty (size (seen_boosts
                                                           (fold_left initialize_boost l st3)))
                                       +:+ " tokens with boosts"))
                            (fold_left initialize_boost l st3)
                      | _ => st3
                      end).
    destruct boosts as [[l|b]|]; try apply runs_ret.
    eapply runs_bind;
      [apply runs_for; intros x st'; apply initialize_boost_task_runs | exact (runs_stmt _ _)]. }
  eapply runs_bind; [apply runs_stmt|]. apply runs_get.
  apply runs_for. intros k st'. apply initialize_token_task_runs.
Qed.

Lemma startup_task_runs st : runs startup_task st tt (startup st).
Proof.
  unfold startup_task, startup. cbv zeta.
  do 9 (eapply runs_bind; [apply runs_stmt|]).
  eapply runs_bind.
  { match goal with
    | |- runs _ ?s _ _ =>
        instantiate (1 :=
          if USE_TELEGRAM then
            (send_telegram_message
               ("🟢 <b>Bot Started!</b>" +:+ PyStr.nl +:+ PyStr.nl
                +:+ "DexScreener Monitor is now active and watching for new events.")
               (emit (Print ("📱 Telegram: Connected (Chat ID: "
                             +:+ str_opt TELEGRAM_CHAT_ID +:+ ")")) s)).2
          else emit (Print "📱 Telegram: Not configured") s)
    end.
    destruct USE_TELEGRAM; [|apply runs_stmt].
    eapply runs_bind; [apply runs_stmt|].
    eapply runs_bind; [apply send_telegram_message_task_runs | apply runs_ret]. }
  eapply runs_bind; [apply runs_stmt|].
  eapply runs_bind; [apply initialize_task_runs|]. exact (runs_stmt _ _).
Qed.

(** the turns that no interrupt disturbs are the turns of [poll_cycles] *)
Lemma loop_runs turns st : loop turns [] st = Running (poll_cycles turns st).
Proof.
  revert st. induction turns as [|turns IH]; intros st; simpl; [done|].
  destruct (poll_cycle_task_runs st) as [n [H _]]. rewrite H. apply IH.
Qed.

Lemma stop_runs asleep st : stop asleep [] st = Stopped asleep (shutdown st).
Proof.
  unfold stop. destruct (shutdown_task_runs st) as [n [H _]]. by rewrite H.
Qed.

(** and an interrupt can wait for the sleep of any turn *)
Lemma loop_asleep turns st :
  ∃ n, loop (S turns) [n] st = Stopped true (shutdown (poll_cycles (S turns) st)).
Proof.
  revert st. induction turns as [|turns IH]; intros st.
  - destruct (poll_cycle_task_runs st) as [n [_ H]].
    exists n. specialize (H 0%nat []). rewrite Nat.add_0_r in H.
    simpl. rewrite H. apply stop_runs.
  - destruct (poll_cycle_task_runs st) as [n [_ H]].
    destruct (IH (poll_cycle st)) as [n' Hn'].
    exists (n + S n')%nat. specialize (H (S n') []).
    change (loop (S (S turns)) [(n + S n')%nat] st) with
      (match poll_cycle_task [(n + S n')%nat] st with
       | (KeyboardInterrupt, sigint, st) => stop false sigint st
       | (Normal _, sigint, st) =>
           match sleep sigint st with
           | (KeyboardInterrupt, sigint, st) => stop true sigint st
           | (Normal _, sigint, st) => loop (S turns) sigint st
           end
       end).
    rewrite H. exact Hn'.
Qed.

Lemma main_asleep n : ∃ sigint, main_task sigint (S n) = Stopped true (main (S n)).
Proof.
  destruct (startup_task_runs initial_state) as [k [_ H]].
  destruct (loop_asleep n (startup initial_state)) as [k' Hk'].
  exists [(k + k')%nat]. unfold main_task, main. by rewrite H.
Qed.

(** or arrive before the first statement of the loop *)
Lemma main_at_once : ∃ sigint, main_task sigint 1 = Stopped false (main 0).
Proof.
  destruct (startup_task_runs initial_state) as [k [_ H]].
  exists [k]. specialize (H 0%nat []). rewrite Nat.add_0_r in H.
  unfold main_task, main. rewrite H. simpl. apply stop_runs.
Qed.

Lemma main_runs turns :
  main_task [] turns = Running (poll_cycles turns (startup initial_state)).
Proof.
  destruct (startup_task_runs initial_state) as [k [H _]].
  unfold main_task. rewrite H. apply loop_runs.
Qed.

(** C10 (as amended): a detection is counted before its alert is
    printed, and a new profile is counted by [orders_detected], the
    counter of the orders: the statistics have no counter for profiles.
    Hence, whatever interrupts arrive, when the bot is stopped in its
    sleep, as at the top of every turn, [orders_detected] is the number
    of ORDER events plus the number of PROFILE events, [ads_detected] the
    number of AD events and [boosts_detected] the number of BOOST events;
    when the run ends elsewhere, no counter is below the number of its
    events, and the three together are one above at most.  The run
    [main n] is the run stopped in the sleep of turn [n], or before the
    first turn when [n] is 0. *)
Theorem orders_detected_counts_orders_and_profiles :
  (∀ sigint turns,
     match main_task sigint turns with
     | Stopped true st | Running st =>
         orders_detected (stats st)
         = count_events ORDER (trace st) + count_events PROFILE (trace st)
         ∧ ads_detected (stats st) = count_events AD (trace st)
         ∧ boosts_detected (stats st) = count_events BOOST (trace st)
     | Stopped false st | Aborted st => lagging st
     end)
  ∧ (∀ n, ∃ sigint, main_task sigint (S n) = Stopped true (main (S n)))
  ∧ (∃ sigint, main_task sigint 1 = Stopped false (main 0))
  ∧ (∀ n,
       let st := main n in
       orders_detected (stats st)
       = count_events ORDER (trace st) + count_events PROFILE (trace st)
       ∧ ads_detected (stats st) = count_events AD (trace st)
       ∧ boosts_detected (stats st) = count_events BOOST (trace st)).
Proof.
  split; [|split; [|split]].
  - intros sigint turns. pose proof (main_task_counts sigint turns) as H.
    destruct (main_task sigint turns) as [[|] st|st|st]; try exact H;
      destruct H as (Ha & Hb & Ho); by repeat split.
  - apply main_asleep.
  - apply main_at_once.
  - intros n. destruct (run_sound n) as [_ H].
    destruct (H counted_initial) as (Ha & Hb & Ho). by repeat split.
Qed.

(** ** The known-token set *)

Lemma known_tokens_grows st st' : sound st st' → known_tokens st ⊆ known_tokens st'.
Proof. by intros [(_ & _ & H & _) _]. Qed.

(** C5 (as amended): processing an ad or a profile that carries a chain
    identifier and a token address, or a boost that carries these and a
    total amount, puts the (chain, token) pair into the known-token set
    whether or not the record is new or increased; and the known-token
    set of a state is kept by every later part of the run. *)
Theorem known_tokens_registered_and_kept :
  (∀ st a k, identity (ad_chainId a) (ad_tokenAddress a) = Some k →
     k ∈ known_tokens (process_ad st a))
  ∧ (∀ st p k, identity (pr_chainId p) (pr_tokenAddress p) = Some k →
       k ∈ known_tokens (process_profile st p))
  ∧ (∀ st b k total,
       identity (bo_chainId b) (bo_tokenAddress b) = Some k →
       bo_totalAmount b = Some total →
       k ∈ known_tokens (process_boost st b))
  ∧ (∀ st, known_tokens st ⊆ known_tokens (initialize st))
  ∧ (∀ st, known_tokens st ⊆ known_tokens (check_orders st))
  ∧ (∀ st n, known_tokens st ⊆ known_tokens (poll_cycles n st))
  ∧ (∀ m n, m ≤ n →
       known_tokens (poll_cycles m (startup initial_state))
       ⊆ known_tokens (poll_cycles n (startup initial_state))).
Proof.
  repeat split.
  - intros st a [c t] Hid.
    destruct (decide ((c, t) ∈ seen_ads st)) as [Hin|Hin].
    + rewrite (process_ad_seen _ _ _ Hid Hin). simpl. set_solver.
    + destruct (process_ad_fires _ _ _ _ Hid Hin) as (info & Hd & _).
      cbv zeta in Hd. apply data_eq in Hd.
      destruct Hd as (_ & _ & _ & _ & _ & _ & ->). simpl. set_solver.
  - intros st p [c t] Hid.
    assert ((c, t) ∈ known_tokens (observe_profile (c, t) p st)) as Hk.
    { unfold observe_profile.
      destruct (opt_truthy (profile_image p)), (links_truthy (pr_links p));
        simpl; set_solver. }
    destruct (decide ((c, t) ∈ seen_profiles st)) as [Hin|Hin].
    + by rewrite (process_profile_seen _ _ _ Hid Hin).
    + destruct (process_profile_fires _ _ _ _ Hid Hin) as (info & Hd & _).
      cbv zeta in Hd. apply data_eq in Hd.
      by destruct Hd as (_ & _ & _ & _ & _ & _ & ->).
  - intros st b [c t] total Hid Ht.
    destruct (Z.le_gt_cases total (default 0%Z (seen_boosts st !! t))) as [Hle|Hlt].
    + rewrite (process_boost_stale _ _ _ _ _ Hid Ht Hle). simpl. set_solver.
    + destruct (process_boost_fires _ _ _ _ _ Hid Ht Hlt) as (info & Hd & _).
      cbv zeta in Hd. apply data_eq in Hd.
      destruct Hd as (_ & _ & _ & _ & _ & _ & ->). simpl. set_solver.
  - intros st. apply known_tokens_grows, initialize_sound.
  - intros st. apply known_tokens_grows, check_orders_sound.
  - intros st n. apply known_tokens_grows, poll_cycles_sound.
  - intros m n Hmn. replace n with (m + (n - m)) by lia.
    rewrite poll_cycles_add. apply known_tokens_grows, poll_cycles_sound.
Qed.

(** ** Ads and profiles fire once *)

Lemma events_snoc k tr tr' a :
  alerts tr' = alerts tr ++ [a] →
  events k tr' = events k tr ++ (if is_kind k a then [a] else []).
Proof.
  intros H. unfold events. rewrite H, List.filter_app. simpl.
  by destruct (is_kind k a).
Qed.

Lemma seen_ads_grows st st' : sound st st' → seen_ads st ⊆ seen_ads st'.
Proof. by intros [(H & _) _]. Qed.

Lemma seen_profiles_grows st st' : sound st st' → seen_profiles st ⊆ seen_profiles st'.
Proof. by intros [(_ & H & _) _]. Qed.

(** C2: a record with identity [k] raises an AD (PROFILE) event exactly
    when [k] is not yet in the seen-set, its processing leaves [k] in
    the seen-set, and a record with the same identity presented after any
    number of further cycles has no effect on the trace: no event. *)
Theorem ad_and_profile_fire_on_first_occurrence_only :
  (∀ st a k,
     identity (ad_chainId a) (ad_tokenAddress a) = Some k →
     let st1 := process_ad st a in
     count_events AD (trace st1)
     = count_events AD (trace st) + (if bool_decide (k ∈ seen_ads st) then 0 else 1)
     ∧ k ∈ seen_ads st1
     ∧ ∀ n a',
         identity (ad_chainId a') (ad_tokenAddress a') = Some k →
         trace (process_ad (poll_cycles n st1) a') = trace (poll_cycles n st1))
  ∧ (∀ st p k,
       identity (pr_chainId p) (pr_tokenAddress p) = Some k →
       let st1 := process_profile st p in
       count_events PROFILE (trace st1)
       = count_events PROFILE (trace st)
         + (if bool_decide (k ∈ seen_profiles st) then 0 else 1)
       ∧ k ∈ seen_profiles st1
       ∧ ∀ n p',
           identity (pr_chainId p') (pr_tokenAddress p') = Some k →
           trace (process_profile (poll_cycles n st1) p') = trace (poll_cycles n st1)).
Proof.
  split.
  - intros st a [c t] Hid st1.
    assert (count_events AD (trace st1)
            = count_events AD (trace st)
              + (if bool_decide ((c, t) ∈ seen_ads st) then 0 else 1)
            ∧ (c, t) ∈ seen_ads st1) as [Hcount Hseen].
    { subst st1. destruct (decide ((c, t) ∈ seen_ads st)) as [Hin|Hin].
      - rewrite (process_ad_seen _ _ _ Hid Hin), bool_decide_eq_true_2 by done.
        split; [simpl; lia | done].
      - destruct (process_ad_fires _ _ _ _ Hid Hin) as (info & Hd & _ & Ha).
        cbv zeta in *. rewrite bool_decide_eq_false_2 by done.
        rewrite (count_events_snoc _ _ _ _ Ha). split; [done|].
        apply data_eq in Hd. destruct Hd as (-> & _). simpl. set_solver. }
    repeat split; [done | done |].
    intros n a' Hid'.
    rewrite (process_ad_seen _ a' _ Hid'); [done|].
    by apply (seen_ads_grows _ _ (poll_cycles_sound n st1)).
  - intros st p [c t] Hid st1.
    assert (count_events PROFILE (trace st1)
            = count_events PROFILE (trace st)
              + (if bool_decide ((c, t) ∈ seen_profiles st) then 0 else 1)
            ∧ (c, t) ∈ seen_profiles st1) as [Hcount Hseen].
    { subst st1. destruct (observe_profile_silent (c, t) p st) as [_ Htr].
      destruct (decide ((c, t) ∈ seen_profiles st)) as [Hin|Hin].
      - rewrite (process_profile_seen _ _ _ Hid Hin), bool_decide_eq_true_2 by done.
        rewrite Htr, seen_profiles_observe. split; [lia | done].
      - destruct (process_profile_fires _ _ _ _ Hid Hin) as (info & Hd & _ & Ha).
        cbv zeta in *. rewrite bool_decide_eq_false_2 by done.
        rewrite Htr in Ha. rewrite (count_events_snoc _ _ _ _ Ha). split; [done|].
        apply data_eq in Hd. destruct Hd as (_ & _ & _ & -> & _). simpl. set_solver. }
    repeat split; [done | done |].
    intros n p' Hid'.
    rewrite (process_profile_seen _ p' _ Hid');
      [by destruct (observe_profile_silent (c, t) p' (poll_cycles n st1))|].
    by apply (seen_profiles_grows _ _ (poll_cycles_sound n st1)).
Qed.

(** ** The profile metadata cache *)

Lemma observed_headers k p st :
  profile_headers (observe_profile k p st) !! k
  = if opt_truthy (profile_image p) then profile_image p else profile_headers st !! k.
Proof.
  unfold observe_profile.
  destruct (profile_image p) as [u|] eqn:Hu; simpl;
    [destruct (PyStr.nonempty u) eqn:Hn|];
    destruct (links_truthy (pr_links p)); simpl; by rewrite ?lookup_insert_eq.
Qed.

Lemma observed_socials k p st :
  profile_socials (observe_profile k p st) !! k
  = if links_truthy (pr_links p) then pr_links p else profile_socials st !! k.
Proof.
  unfold observe_profile.
  destruct (opt_truthy (profile_image p));
    destruct (pr_links p) as [[|l ls]|] eqn:Hl; simpl; by rewrite ?lookup_insert_eq.
Qed.

Lemma process_profile_caches st p k :
  identity (pr_chainId p) (pr_tokenAddress p) = Some k →
  profile_headers (process_profile st p) = profile_headers (observe_profile k p st)
  ∧ profile_socials (process_profile st p) = profile_socials (observe_profile k p st).
Proof.
  intros Hid. destruct k as [c t].
  destruct (decide ((c, t) ∈ seen_profiles st)) as [Hin|Hin].
  - by rewrite (process_profile_seen _ _ _ Hid Hin).
  - destruct (process_profile_fires _ _ _ _ Hid Hin) as (info & Hd & _).
    cbv zeta in Hd. apply data_eq in Hd.
    by destruct Hd as (_ & _ & _ & _ & -> & -> & _).
Qed.

(** C7 (as amended): for every profile record observed, new or already
    seen, an image carried by the observation replaces the stored header
    image of its key and a non-empty list of links replaces the stored
    social links; an observation without an image (without links)
    leaves the stored value as it is.  A profile observed twice with
    two different images has, after the second observation, the image
    of the second one stored, whatever happened in between. *)
Theorem profile_cache_last_image_wins :
  (∀ st p k,
     identity (pr_chainId p) (pr_tokenAddress p) = Some k →
     let st' := process_profile st p in
     profile_headers st' !! k
     = (if opt_truthy (profile_image p) then profile_image p else profile_headers st !! k)
     ∧ profile_socials st' !! k
       = (if links_truthy (pr_links p) then pr_links p else profile_socials st !! k))
  ∧ (∀ st st2 p1 p2 k u1 u2,
       identity (pr_chainId p1) (pr_tokenAddress p1) = Some k →
       identity (pr_chainId p2) (pr_tokenAddress p2) = Some k →
       profile_image p1 = Some u1 → profile_image p2 = Some u2 → u1 ≠ u2 →
       profile_headers (process_profile st p1) !! k = Some u1
       ∧ profile_headers (process_profile st2 p2) !! k = Some u2).
Proof.
  assert (∀ st p k,
            identity (pr_chainId p) (pr_tokenAddress p) = Some k →
            profile_headers (process_profile st p) !! k
            = (if opt_truthy (profile_image p) then profile_image p
               else profile_headers st !! k)
            ∧ profile_socials (process_profile st p) !! k
              = (if links_truthy (pr_links p) then pr_links p
                 else profile_socials st !! k)) as Hcache.
  { intros st p k Hid. destruct (process_profile_caches st p k Hid) as [-> ->].
    split; [apply observed_headers | apply observed_socials]. }
  assert (∀ p u, profile_image p = Some u → opt_truthy (profile_image p) = true) as Himg.
  { intros p u. unfold profile_image.
    destruct (opt_truthy (pr_openGraph p)) eqn:E1; simpl; [done|].
    destruct (opt_truthy (pr_header p)) eqn:E2; simpl; [done|].
    destruct (opt_truthy (pr_icon p)) eqn:E3; simpl; done. }
  split; [exact Hcache|].
  intros st st2 p1 p2 k u1 u2 Hid1 Hid2 Hu1 Hu2 _.
  destruct (Hcache st p1 k Hid1) as [H1 _]. destruct (Hcache st2 p2 k Hid2) as [H2 _].
  rewrite (Himg _ _ Hu1), Hu1 in H1. rewrite (Himg _ _ Hu2), Hu2 in H2. done.
Qed.

(** ** Boosts *)

(** what one boost record does to the BOOST events and to the stored
    total of its token address *)
Lemma process_boost_events st b c t total :
  observes_boost c t total b →
  let prev := default 0%Z (seen_boosts st !! t) in
  let st' := process_boost st b in
  ∃ info,
    events BOOST (trace st')
    = events BOOST (trace st)
      ++ (if (prev <? total)%Z
          then [("NEW BOOST", boost_lines b c t total prev info)] else [])
    ∧ seen_boosts st' !! t = (if (prev <? total)%Z then Some total else seen_boosts st !! t).
Proof.
  intros [Hid Ht]. cbv zeta.
  destruct (Z.ltb_spec (default 0%Z (seen_boosts st !! t)) total) as [Hlt|Hle].
  - destruct (process_boost_fires _ _ _ _ _ Hid Ht Hlt) as (info & Hd & _ & Ha).
    cbv zeta in *. exists info. rewrite (events_snoc _ _ _ _ Ha). split; [done|].
    apply data_eq in Hd. destruct Hd as (_ & -> & _). simpl. apply lookup_insert_eq.
  - exists None. rewrite (process_boost_stale _ _ _ _ _ Hid Ht Hle). simpl.
    by rewrite app_nil_r.
Qed.

(** the lines of a boost alert: the increase is reported on a line of
    its own when the stored total is positive, and not at all when it
    is the default *)
Lemma boost_lines_delta b c t total prev info :
  (0 < prev)%Z → previous_line total prev ∈ boost_lines b c t total prev info.
Proof.
  intros H. unfold boost_lines. rewrite (proj2 (Z.ltb_lt _ _) H).
  unfold append_if. apply elem_of_app. left. apply elem_of_app. right.
  apply list_elem_of_singleton. reflexivity.
Qed.

Lemma boost_lines_no_delta b c t total info :
  ∀ line, line ∈ boost_lines b c t total 0 info → reports_delta line = false.
Proof.
  intros line. unfold boost_lines, price_lines, token_line. simpl.
  rewrite !elem_of_cons, elem_of_nil.
  intros [->|[->|[->|[->|[->|[->|[->|[]]]]]]]]; reflexivity.
Qed.

(** C1 (as amended): for every boost record with a chain, a token
    address and a total amount, a BOOST event fires if and only if the
    new total strictly exceeds the total stored for the token address
    (0 if there is none), and the stored total then is the new total.
    For a token not seen before whose totals are observed as 5, 5, 12,
    12, 20, with nothing happening to its boosts in between, exactly
    three BOOST events fire, at 5, 12 and 20; the events at 12 and 20
    report the stored total and the increase ("Previous: 5 (+7)",
    "Previous: 12 (+8)"), the event at 5, whose stored total is the
    default 0, reports no increase. *)
Theorem boost_fires_iff_total_increases :
  (∀ st b c t total,
     observes_boost c t total b →
     let prev := default 0%Z (seen_boosts st !! t) in
     let st' := process_boost st b in
     count_events BOOST (trace st')
     = count_events BOOST (trace st) + (if (prev <? total)%Z then 1 else 0)
     ∧ seen_boosts st' !! t = (if (prev <? total)%Z then Some total else seen_boosts st !! t))
  ∧ (∀ c t b1 b2 b3 b4 b5 s0 s1 s2 s3 s4,
       observes_boost c t 5 b1 → observes_boost c t 5 b2 →
       observes_boost c t 12 b3 → observes_boost c t 12 b4 →
       observes_boost c t 20 b5 →
       seen_boosts s0 !! t = None →
       boosts_undisturbed t (process_boost s0 b1) s1 →
       boosts_undisturbed t (process_boost s1 b2) s2 →
       boosts_undisturbed t (process_boost s2 b3) s3 →
       boosts_undisturbed t (process_boost s3 b4) s4 →
       ∃ i1 i2 i3,
         let l1 := boost_lines b1 c t 5 0 i1 in
         let l2 := boost_lines b3 c t 12 5 i2 in
         let l3 := boost_lines b5 c t 20 12 i3 in
         events BOOST (trace (process_boost s4 b5))
         = events BOOST (trace s0) ++ [("NEW BOOST", l1); ("NEW BOOST", l2); ("NEW BOOST", l3)]
         ∧ (∀ line, line ∈ l1 → reports_delta line = false)
         ∧ "Previous: 5 (+7)" ∈ l2 ∧ "Previous: 12 (+8)" ∈ l3).
Proof.
  split.
  - intros st b c t total Hb. cbv zeta.
    destruct (process_boost_events st b c t total Hb) as (info & He & Hs).
    cbv zeta in *. split; [|exact Hs].
    unfold count_events. rewrite He, length_app.
    by destruct (_ <? _)%Z.
  - intros c t b1 b2 b3 b4 b5 s0 s1 s2 s3 s4 H1 H2 H3 H4 H5 Hnew
      [S1 E1] [S2 E2] [S3 E3] [S4 E4].
    destruct (process_boost_events s0 b1 c t 5 H1) as (i1 & He1 & Hs1).
    destruct (process_boost_events s1 b2 c t 5 H2) as (j2 & He2 & Hs2).
    destruct (process_boost_events s2 b3 c t 12 H3) as (i2 & He3 & Hs3).
    destruct (process_boost_events s3 b4 c t 12 H4) as (j4 & He4 & Hs4).
    destruct (process_boost_events s4 b5 c t 20 H5) as (i3 & He5 & Hs5).
    cbv zeta in *.
    rewrite Hnew in He1, Hs1. simpl in He1, Hs1.
    rewrite S1, Hs1 in He2, Hs2. simpl in He2, Hs2.
    rewrite S2, Hs2 in He3, Hs3. simpl in He3, Hs3.
    rewrite S3, Hs3 in He4, Hs4. simpl in He4, Hs4.
    rewrite S4, Hs4 in He5. simpl in He5.
    exists i1, i2, i3. repeat split.
    + rewrite He5, E4, He4, app_nil_r, E3, He3, E2, He2, app_nil_r, E1, He1.
      by rewrite <- !app_assoc.
    + apply boost_lines_no_delta.
    + by apply (boost_lines_delta b3 c t 12 5 i2).
    + by apply (boost_lines_delta b5 c t 20 12 i3).
Qed.

(** ** Orders *)

(** what one order does to the ORDER events and to the stored
    timestamp of its token address *)
Lemma check_order_events c t st o :
  let ts := default 0%Z (or_paymentTimestamp o) in
  let fires := ((bot_start_ms <=? ts) && (default 0 (seen_orders st !! t) <? ts))%Z in
  let st' := check_order c t st o in
  ∃ info,
    events ORDER (trace st')
    = events ORDER (trace st)
      ++ (if fires
          then [("NEW ORDER - " +:+ PyStr.upper (default "unknown" (or_type o)),
                 order_lines o c t (try_except (strftime_utc ts) (λ _, pretty ts)) info)]
          else [])
    ∧ seen_orders st' !! t = (if fires then Some ts else seen_orders st !! t).
Proof.
  cbv zeta.
  destruct (Z.leb_spec bot_start_ms (default 0%Z (or_paymentTimestamp o))) as [Hs|Hold];
    [|exists None; rewrite check_order_old by done; simpl; by rewrite app_nil_r].
  destruct (Z.ltb_spec (default 0%Z (seen_orders st !! t))
              (default 0%Z (or_paymentTimestamp o))) as [Hlt|Hle];
    [|exists None; rewrite check_order_known by done; simpl; by rewrite app_nil_r].
  destruct (check_order_fires c t st o Hs Hlt) as (info & Hd & _ & Ha).
  cbv zeta in *. exists info. rewrite (events_snoc _ _ _ _ Ha).
  destruct (order_title_kind (PyStr.upper (default "unknown" (or_type o)))
              (order_lines o c t
                 (try_except (strftime_utc (default 0%Z (or_paymentTimestamp o)))
                    (λ _, pretty (default 0%Z (or_paymentTimestamp o)))) info))
    as (K1 & _).
  cbv zeta in K1. rewrite K1. split; [done|].
  apply data_eq in Hd. destruct Hd as (_ & _ & -> & _). simpl. apply lookup_insert_eq.
Qed.

(** C3: for every order that the checker looks at, an ORDER event
    fires if and only if the payment timestamp is at or after the start
    of the process and strictly exceeds the timestamp stored for the
    token address (0 if there is none); the stored timestamp then is the
    new one.  An order paid before the start never fires and leaves the
    state as it is.  For two orders paid at T1 < T2, both at or after the
    start, of a token whose stored timestamp is below T1, exactly two
    events fire, and the second order is compared with the stored T1. *)
Theorem order_fires_iff_after_start_and_newer :
  (∀ c t st o,
     let ts := default 0%Z (or_paymentTimestamp o) in
     let fires := ((bot_start_ms <=? ts) && (default 0 (seen_orders st !! t) <? ts))%Z in
     let st' := check_order c t st o in
     count_events ORDER (trace st')
     = count_events ORDER (trace st) + (if fires then 1 else 0)
     ∧ seen_orders st' !! t = (if fires then Some ts else seen_orders st !! t))
  ∧ (∀ c t st o,
       (default 0 (or_paymentTimestamp o) < bot_start_ms)%Z →
       check_order c t st o = st)
  ∧ (∀ c t o1 o2 T1 T2 s0 s1,
       or_paymentTimestamp o1 = Some T1 → or_paymentTimestamp o2 = Some T2 →
       (bot_start_ms ≤ T1)%Z → (T1 < T2)%Z →
       (default 0 (seen_orders s0 !! t) < T1)%Z →
       orders_undisturbed t (check_order c t s0 o1) s1 →
       seen_orders s1 !! t = Some T1
       ∧ seen_orders (check_order c t s1 o2) !! t = Some T2
       ∧ count_events ORDER (trace (check_order c t s1 o2))
         = count_events ORDER (trace s0) + 2).
Proof.
  split; [|split].
  - intros c t st o. cbv zeta.
    destruct (check_order_events c t st o) as (info & He & Hs). cbv zeta in *.
    split; [|exact Hs].
    unfold count_events. rewrite He, length_app. by destruct (_ && _).
  - intros c t st o. apply check_order_old.
  - intros c t o1 o2 T1 T2 s0 s1 Ho1 Ho2 Hstart Hlt Hnew [S1 E1].
    destruct (check_order_events c t s0 o1) as (i1 & He1 & Hs1).
    destruct (check_order_events c t s1 o2) as (i2 & He2 & Hs2). cbv zeta in *.
    rewrite Ho1 in He1, Hs1. rewrite Ho2 in He2, Hs2. simpl in *.
    rewrite (proj2 (Z.leb_le _ _) Hstart), (proj2 (Z.ltb_lt _ _) Hnew) in He1, Hs1.
    simpl in He1, Hs1.
    rewrite S1, Hs1 in He2, Hs2. simpl in He2, Hs2.
    rewrite (proj2 (Z.leb_le bot_start_ms T2)), (proj2 (Z.ltb_lt T1 T2)) in He2, Hs2
      by lia.
    simpl in He2, Hs2.
    split; [by rewrite S1|]. split; [exact Hs2|].
    unfold count_events. rewrite He2, E1, He1, !length_app. simpl. lia.
Qed.

(** ** The image of an alert *)


Lemma append_assoc (a b c : string) : (a +:+ b) +:+ c = a +:+ b +:+ c.
Proof.
  induction a as [|x a IH]; [done|].
  change (String x ((a +:+ b) +:+ c) = String x (a +:+ b +:+ c)). by rewrite IH.
Qed.

Lemma chart_image_url_truthy c t : opt_truthy (Some (chart_image_url c t)) = true.
Proof. reflexivity. Qed.




(** ** Delivery *)

(** C9: what [print_alert] sends for an alert.  The photo with the
    message as its caption comes first; when that request fails, the
    message is sent as text; when this fails too, the text is sent a
    second time.  No exception reaches the caller. *)
Theorem delivery_attempts title lines emoji st :
  let p := parse_lines lines in
  let x := attach_profile st p in
  let message :=
    alert_message (event_type_of title) (p_info p) (p_chain_id p) (p_token_address p) x in
  let photo := select_image (Some x) (p_chain_id p) (p_token_address p) in
  let n := clock st in
  ∃ rest,
    trace (print_alert title lines emoji st) = trace st ++ Alert title lines emoji :: rest
    ∧ sends rest =
        if USE_TELEGRAM then
          if post_ok (w_post w n) then [SendPhoto photo message]
          else if post_ok (w_post w (S n))
               then [SendPhoto photo message; SendMessage message]
               else [SendPhoto photo message; SendMessage message; SendMessage message]
        else [].
Proof.
  cbv zeta. unfold print_alert, format_telegram_alert.
  set (p := parse_lines lines).
  change (attach_profile (emit (Alert title lines emoji) st) p)
    with (attach_profile st p).
  set (x := attach_profile st p).
  set (message := alert_message _ _ _ _ x).
  set (photo := select_image (Some x) _ _).
  unfold send_telegram_photo, send_telegram_message.
  destruct USE_TELEGRAM; simpl; [|exists []; split; [done|done]].
  destruct (w_post w (clock st)) as [r1|e1]; simpl.
  - destruct (status_code r1 =? 200)%Z; simpl.
    + eexists. split; [by rewrite <- !app_assoc|done].
    + destruct (w_post w (S (clock st))) as [r2|e2]; simpl.
      * destruct (status_code r2 =? 200)%Z; simpl.
        -- eexists. split; [by rewrite <- !app_assoc|done].
        -- destruct (w_post w (S (S (clock st)))) as [r3|e3]; simpl;
             [destruct (status_code r3 =? 200)%Z; simpl|];
             (eexists; split; [by rewrite <- !app_assoc|done]).
      * destruct (w_post w (S (S (clock st)))) as [r3|e3]; simpl;
          [destruct (status_code r3 =? 200)%Z; simpl|];
          (eexists; split; [by rewrite <- !app_assoc|done]).
  - destruct (w_post w (S (clock st))) as [r2|e2]; simpl.
    + destruct (status_code r2 =? 200)%Z; simpl.
      * eexists. split; [by rewrite <- !app_assoc|done].
      * destruct (w_post w (S (S (clock st)))) as [r3|e3]; simpl;
          [destruct (status_code r3 =? 200)%Z; simpl|];
          (eexists; split; [by rewrite <- !app_assoc|done]).
    + destruct (w_post w (S (S (clock st)))) as [r3|e3]; simpl;
        [destruct (status_code r3 =? 200)%Z; simpl|];
        (eexists; split; [by rewrite <- !app_assoc|done]).
Qed.

(** * More of the code *)

(** ** The turn of the loop and the start-up, in parts *)

Lemma poll_cycle_eq st :
  poll_cycle st = poll_report (poll_orders (poll_feeds (set_stats incr_polls st))).
Proof.
  unfold poll_cycle, poll_report, poll_orders, poll_feeds. cbv zeta.
  repeat match goal with
         | |- context [fetch_json ?u ?r ?s] => destruct (fetch_json u r s)
         end.
  reflexivity.
Qed.

Lemma startup_eq st :
  startup st
  = emit (Print (PyStr.nl +:+ "⏳ Monitoring for new events..." +:+ PyStr.nl))
      (initialize (banner st)).
Proof. reflexivity. Qed.

Lemma initialize_eq st :
  initialize st
  = seed_orders (seed_boosts (seed_profiles (seed_ads
      (emit (Print "🔍 Initializing bot...") st)))).
Proof.
  unfold initialize, seed_orders, seed_boosts, seed_profiles, seed_ads. cbv zeta.
  repeat match goal with
         | |- context [fetch_json ?u ?r ?s] => destruct (fetch_json u r s)
         end.
  reflexivity.
Qed.

(** ** Lifting a relation from the steps to the loops and to the run *)

Ltac lift_branch :=
  match goal with
  | |- _ _ (if ?c then _ else _) => destruct c
  end.

Section Lifting.

Variable R : state → state → Prop.
Hypothesis R_refl : ∀ st, R st st.
Hypothesis R_trans : ∀ st1 st2 st3, R st1 st2 → R st2 st3 → R st1 st3.
Hypothesis R_polls : ∀ st, R st (set_stats incr_polls st).
Hypothesis R_fetch : ∀ A url (r : reply A) st, R st (snd (fetch_json url r st)).
Hypothesis R_print : ∀ text st, R st (emit (Print text) st).
Hypothesis R_send : ∀ text st, R st (snd (send_telegram_message text st)).
Hypothesis R_updates : ∀ st, R st (handle_telegram_updates st).
Hypothesis R_ad : ∀ st a, R st (process_ad st a).
Hypothesis R_profile : ∀ st p, R st (process_profile st p).
Hypothesis R_boost : ∀ st b, R st (process_boost st b).
Hypothesis R_order : ∀ c t st o, R st (check_order c t st o).
Hypothesis R_init_ad : ∀ st a, R st (initialize_ad st a).
Hypothesis R_init_profile : ∀ st p, R st (initialize_profile st p).
Hypothesis R_init_boost : ∀ st b, R st (initialize_boost st b).
Hypothesis R_init_order : ∀ t st o, R st (initialize_order t st o).

Ltac lift_fetch :=
  match goal with
  | |- context [fetch_json ?u ?r ?s] =>
      let H := fresh "Hf" in
      let v := fresh "v" in
      let s1 := fresh "st" in
      pose proof (R_fetch _ u r s) as H;
      destruct (fetch_json u r s) as [v s1]; simpl in H
  end.

Lemma lift_loop {A} (f : state → A → state) :
  (∀ st x, R st (f st x)) → ∀ l st, R st (fold_left f l st).
Proof. apply fold_left_rel; [apply R_refl | apply R_trans]. Qed.

Lemma lift_process_ads ads st : R st (process_ads ads st).
Proof.
  destruct ads as [[l|b]|]; simpl; try apply R_refl.
  apply lift_loop, R_ad.
Qed.

Lemma lift_process_profiles profiles st : R st (process_profiles profiles st).
Proof.
  destruct profiles as [[l|b]|]; simpl; try apply R_refl.
  apply lift_loop, R_profile.
Qed.

Lemma lift_process_boosts boosts st : R st (process_boosts boosts st).
Proof.
  destruct boosts as [[l|b]|]; simpl; try apply R_refl.
  apply lift_loop, R_boost.
Qed.

Lemma lift_check_token st k : R st (check_token st k).
Proof.
  destruct k as [c t]. unfold check_token. cbv zeta. lift_fetch.
  eapply R_trans; [exact Hf|].
  destruct v as [d|]; [|apply R_refl].
  apply lift_loop, R_order.
Qed.

Lemma lift_check_orders st : R st (check_orders st).
Proof. apply lift_loop, lift_check_token. Qed.

Lemma lift_poll_feeds st : R st (poll_feeds st).
Proof.
  unfold poll_feeds. cbv zeta. do 3 lift_fetch.
  eapply R_trans; [|lift_branch; [apply lift_process_boosts | apply R_refl]].
  eapply R_trans; [|lift_branch; [apply lift_process_profiles | apply R_refl]].
  eapply R_trans; [|lift_branch; [apply lift_process_ads | apply R_refl]].
  eapply R_trans; [|exact Hf1].
  eapply R_trans; [|exact Hf0].
  eapply R_trans; [|exact Hf].
  lift_branch; [apply R_updates | apply R_refl].
Qed.

Lemma lift_poll_orders st : R st (poll_orders st).
Proof. unfold poll_orders. lift_branch; [apply lift_check_orders | apply R_refl]. Qed.

Lemma lift_poll_report st : R st (poll_report st).
Proof. unfold poll_report. lift_branch; [apply R_print | apply R_refl]. Qed.

Lemma lift_poll_cycle st : R st (poll_cycle st).
Proof.
  rewrite poll_cycle_eq.
  eapply R_trans; [apply R_polls|].
  eapply R_trans; [apply lift_poll_feeds|].
  eapply R_trans; [apply lift_poll_orders | apply lift_poll_report].
Qed.

Lemma lift_poll_cycles n st : R st (poll_cycles n st).
Proof.
  revert st. induction n as [|n IH]; intros st; simpl; [apply R_refl|].
  eapply R_trans; [apply lift_poll_cycle | apply IH].
Qed.

Lemma lift_initialize_token st k : R st (initialize_token st k).
Proof.
  destruct k as [c t]. unfold initialize_token. cbv zeta. lift_fetch.
  eapply R_trans; [exact Hf|].
  destruct v as [d|]; [|apply R_refl].
  apply lift_loop, R_init_order.
Qed.

Lemma lift_seed_ads st : R st (seed_ads st).
Proof.
  unfold seed_ads. lift_fetch.
  eapply R_trans; [exact Hf|].
  destruct v as [[l|b]|]; try apply R_refl.
  eapply R_trans; [|apply R_print]. apply lift_loop, R_init_ad.
Qed.

Lemma lift_seed_profiles st : R st (seed_profiles st).
Proof.
  unfold seed_profiles. lift_fetch.
  eapply R_trans; [exact Hf|].
  destruct v as [[[|p ps]|b]|]; try apply R_refl.
  eapply R_trans; [|apply R_print]. apply (lift_loop _ R_init_profile (p :: ps)).
Qed.

Lemma lift_seed_boosts st : R st (seed_boosts st).
Proof.
  unfold seed_boosts. lift_fetch.
  eapply R_trans; [exact Hf|].
  destruct v as [[l|b]|]; try apply R_refl.
  eapply R_trans; [|apply R_print]. apply lift_loop, R_init_boost.
Qed.

Lemma lift_seed_orders st : R st (seed_orders st).
Proof.
  unfold seed_orders. cbv zeta.
  eapply R_trans; [apply R_print|]. apply lift_loop, lift_initialize_token.
Qed.

Lemma lift_initialize st : R st (initialize st).
Proof.
  rewrite initialize_eq.
  eapply R_trans; [apply R_print|].
  eapply R_trans; [apply lift_seed_ads|].
  eapply R_trans; [apply lift_seed_profiles|].
  eapply R_trans; [apply lift_seed_boosts | apply lift_seed_orders].
Qed.

Lemma lift_banner st : R st (banner st).
Proof.
  unfold banner. cbv zeta.
  eapply R_trans; [|apply R_print].
  eapply R_trans;
    [|lift_branch;
      [(eapply R_trans; [|apply R_send]); apply R_print
      |apply R_print]].
  repeat (eapply R_trans; [|apply R_print]).
  apply R_refl.
Qed.

Lemma lift_startup st : R st (startup st).
Proof.
  rewrite startup_eq.
  eapply R_trans; [|apply R_print].
  eapply R_trans; [apply lift_banner | apply lift_initialize].
Qed.

Lemma lift_shutdown st : R st (shutdown st).
Proof.
  unfold shutdown. cbv zeta.
  eapply R_trans; [|apply R_print]. apply R_print.
Qed.

Lemma lift_main n : R initial_state (main n).
Proof.
  unfold main.
  eapply R_trans; [apply lift_startup|].
  eapply R_trans; [apply lift_poll_cycles | apply lift_shutdown].
Qed.

End Lifting.

(** a relation that holds across the quiet steps only has to be checked
    on the detection steps and on the seeding steps *)
Section Detecting.

Variable R : state → state → Prop.
Hypothesis R_trans : ∀ st1 st2 st3, R st1 st2 → R st2 st3 → R st1 st3.
Hypothesis R_quiet : ∀ st st', quiet st st' → R st st'.
Hypothesis R_ad : ∀ st a, R st (process_ad st a).
Hypothesis R_profile : ∀ st p, R st (process_profile st p).
Hypothesis R_boost : ∀ st b, R st (process_boost st b).
Hypothesis R_order : ∀ c t st o, R st (check_order c t st o).
Hypothesis R_init_ad : ∀ st a, R st (initialize_ad st a).
Hypothesis R_init_profile : ∀ st p, R st (initialize_profile st p).
Hypothesis R_init_boost : ∀ st b, R st (initialize_boost st b).
Hypothesis R_init_order : ∀ t st o, R st (initialize_order t st o).

Lemma quiet_print text st : quiet st (emit (Print text) st).
Proof. by apply quiet_emit. Qed.

Ltac quiet_steps :=
  intros; first
    [ apply R_quiet;
      first [ apply quiet_refl | apply quiet_polls | apply fetch_json_quiet | apply quiet_print
            | apply send_telegram_message_quiet | apply handle_telegram_updates_quiet ]
    | eauto ].

Lemma detect_process_ads ads st : R st (process_ads ads st).
Proof. apply lift_process_ads; quiet_steps. Qed.

Lemma detect_process_profiles profiles st : R st (process_profiles profiles st).
Proof. apply lift_process_profiles; quiet_steps. Qed.

Lemma detect_process_boosts boosts st : R st (process_boosts boosts st).
Proof. apply lift_process_boosts; quiet_steps. Qed.

Lemma detect_check_orders st : R st (check_orders st).
Proof. apply lift_check_orders; quiet_steps. Qed.

Lemma detect_poll_feeds st : R st (poll_feeds st).
Proof. apply lift_poll_feeds; quiet_steps. Qed.

Lemma detect_poll_report st : R st (poll_report st).
Proof. apply lift_poll_report; quiet_steps. Qed.

Lemma detect_poll_cycles n st : R st (poll_cycles n st).
Proof. apply lift_poll_cycles; quiet_steps. Qed.

Lemma detect_banner st : R st (banner st).
Proof. apply lift_banner; quiet_steps. Qed.

Lemma detect_initialize_token st k : R st (initialize_token st k).
Proof. apply lift_initialize_token; quiet_steps. Qed.

Lemma detect_seed_ads st : R st (seed_ads st).
Proof. apply lift_seed_ads; quiet_steps. Qed.

Lemma detect_seed_profiles st : R st (seed_profiles st).
Proof. apply lift_seed_profiles; quiet_steps. Qed.

Lemma detect_seed_boosts st : R st (seed_boosts st).
Proof. apply lift_seed_boosts; quiet_steps. Qed.

Lemma detect_seed_orders st : R st (seed_orders st).
Proof. apply lift_seed_orders; quiet_steps. Qed.

Lemma detect_initialize st : R st (initialize st).
Proof. apply lift_initialize; quiet_steps. Qed.

Lemma detect_startup st : R st (startup st).
Proof. apply lift_startup; quiet_steps. Qed.

Lemma detect_shutdown st : R st (shutdown st).
Proof. apply lift_shutdown; quiet_steps. Qed.

End Detecting.

(** ** What a run adds to its trace *)

Lemma gets_app (l k : list effect) : gets (l ++ k) = gets l ++ gets k.
Proof. apply List.filter_app. Qed.

Lemma adds_refl P st : adds P st st.
Proof.
  split; [done|]. exists []. rewrite app_nil_r. simpl. repeat split; lia.
Qed.

Lemma adds_trans P st1 st2 st3 : adds P st1 st2 → adds P st2 st3 → adds P st1 st3.
Proof.
  intros (H1 & tr1 & E1 & F1 & L1 & U1) (H2 & tr2 & E2 & F2 & L2 & U2).
  split; [congruence|].
  exists (tr1 ++ tr2). split; [by rewrite E2, E1, <- app_assoc|].
  split; [by rewrite forallb_app, F1, F2|].
  rewrite gets_app, length_app. lia.
Qed.

(** a step that touches neither the poll counter, nor the error
    counter, nor the trace *)
Lemma adds_same P st st' :
  polls (stats st') = polls (stats st) → errors (stats st') = errors (stats st) →
  trace st' = trace st → adds P st st'.
Proof.
  intros Hp He Ht. split; [done|]. exists []. rewrite app_nil_r, He. simpl.
  repeat split; [done | lia..].
Qed.

Lemma adds_emit P e st : P e = true → adds P st (emit e st).
Proof.
  intros H. split; [done|]. exists [e]. split; [done|]. simpl. rewrite H.
  repeat split; lia.
Qed.

Lemma adds_request P e st : P e = true → adds P st (tick (emit e st)).
Proof.
  intros H. split; [done|]. exists [e]. split; [done|]. simpl. rewrite H.
  repeat split; lia.
Qed.

Lemma adds_loop P {A} (f : state → A → state) :
  (∀ st x, adds P st (f st x)) → ∀ l st, adds P st (fold_left f l st).
Proof. apply fold_left_rel; [apply adds_refl | apply adds_trans]. Qed.

Section Adds.

Variable P : effect → bool.
Hypothesis P_get : ∀ url, P (HttpGet url) = true.
Hypothesis P_print : ∀ text, P (Print text) = true.
Hypothesis P_alert : ∀ title lines emoji, P (Alert title lines emoji) = true.
Hypothesis P_log : ∀ lv msg, P (Log lv msg) = true.
Hypothesis P_telegram : USE_TELEGRAM = true → ∀ e, is_telegram e = true → P e = true.

Lemma adds_polls_after st : adds P (set_stats incr_polls st) (set_stats incr_polls st).
Proof. apply adds_refl. Qed.

Lemma adds_fetch A url (r : reply A) st : adds P st (snd (fetch_json url r st)).
Proof.
  unfold fetch_json. destruct (fetch_json_try r); simpl.
  - by apply adds_request.
  - split; [done|]. exists [HttpGet url]. split; [done|]. simpl. rewrite P_get.
    repeat split; lia.
Qed.

Lemma adds_print text st : adds P st (emit (Print text) st).
Proof. by apply adds_emit. Qed.

Lemma adds_token c t st : adds P st (snd (get_token_info c t st)).
Proof.
  unfold get_token_info.
  pose proof (adds_fetch _ (DEX_TOKENS_URL c t)
                (w_tokens w (clock st) (DEX_TOKENS_URL c t)) st) as H.
  destruct (fetch_json _ _ st) as [data st1]. simpl in H.
  destruct data as [[[|p ps]|b]|]; simpl; exact H.
Qed.

Lemma adds_send text st : adds P st (snd (send_telegram_message text st)).
Proof.
  unfold send_telegram_message.
  case_eq USE_TELEGRAM; intros E; simpl; [|apply adds_refl].
  assert (adds P st (tick (emit (SendMessage text) st))) as H
    by by apply adds_request, P_telegram.
  destruct (w_post w (clock st)) as [resp|e]; simpl.
  - destruct (status_code resp =? 200)%Z; simpl; [exact H|].
    eapply adds_trans; [exact H | by apply adds_emit].
  - eapply adds_trans; [exact H | by apply adds_emit].
Qed.

Lemma adds_photo photo caption st : adds P st (snd (send_telegram_photo photo caption st)).
Proof.
  unfold send_telegram_photo.
  case_eq USE_TELEGRAM; intros E; simpl; [|apply adds_refl].
  assert (adds P st (tick (emit (SendPhoto photo caption) st))) as H
    by by apply adds_request, P_telegram.
  destruct (w_post w (clock st)) as [resp|e]; simpl.
  - destruct (status_code resp =? 200)%Z; simpl; [exact H|].
    eapply adds_trans; [exact H | apply adds_send].
  - eapply adds_trans; [exact H |].
    eapply adds_trans; [| apply adds_send].
    by apply adds_emit.
Qed.

Lemma adds_print_alert title lines emoji st : adds P st (print_alert title lines emoji st).
Proof.
  unfold print_alert.
  set (st0 := emit (Alert title lines emoji) st).
  assert (adds P st st0) as H0 by by apply adds_emit.
  case_eq USE_TELEGRAM; intros E; [|exact H0].
  unfold format_telegram_alert.
  match goal with
  | |- context [send_telegram_photo ?p ?m st0] =>
      pose proof (adds_photo p m st0) as Hp;
      destruct (send_telegram_photo p m st0) as [sent st1]
  end.
  simpl in Hp. destruct sent; simpl.
  - by eapply adds_trans.
  - eapply adds_trans; [exact H0|]. eapply adds_trans; [exact Hp | apply adds_send].
Qed.

(** the enrichment, the alert and the log record that end a detection *)
Lemma adds_announce c t title (f : option token_info → list string) emoji msg st0 :
  adds P st0
    (let '(token_info, st) := get_token_info c t st0 in
     emit (Log INFO msg) (print_alert title (f token_info) emoji st)).
Proof.
  pose proof (adds_token c t st0) as H.
  destruct (get_token_info c t st0) as [info st1]. simpl in H.
  eapply adds_trans; [exact H|].
  eapply adds_trans; [apply adds_print_alert | by apply adds_emit].
Qed.

Lemma adds_ad st a : adds P st (process_ad st a).
Proof.
  destruct (identity (ad_chainId a) (ad_tokenAddress a)) as [[c t]|] eqn:Hid;
    [|rewrite process_ad_skip by done; apply adds_refl].
  destruct (decide ((c, t) ∈ seen_ads st)) as [Hin|Hin].
  - rewrite (process_ad_seen _ _ _ Hid Hin). by apply adds_same.
  - unfold process_ad. rewrite Hid. cbv zeta. rewrite bool_decide_eq_false_2 by done.
    eapply adds_trans;
      [|apply (adds_announce c t "NEW AD" (ad_lines a c t) "📢"
                 ("New ad: " +:+ t +:+ " on " +:+ c))].
    by apply adds_same.
Qed.

Lemma adds_profile st p : adds P st (process_profile st p).
Proof.
  destruct (identity (pr_chainId p) (pr_tokenAddress p)) as [[c t]|] eqn:Hid;
    [|rewrite process_profile_skip by done; apply adds_refl].
  destruct (observe_profile_silent (c, t) p st) as [Hs Ht].
  rewrite (process_profile_eq _ _ _ _ Hid). cbv zeta.
  destruct (bool_decide _).
  - apply adds_same; by rewrite ?Hs, ?Ht.
  - eapply adds_trans;
      [|apply (adds_announce c t "NEW TOKEN PROFILE" (profile_lines p c t) "📝"
                 ("New profile: " +:+ t +:+ " on " +:+ c))].
    apply adds_same; simpl; by rewrite ?Hs, ?Ht.
Qed.

Lemma adds_boost st b : adds P st (process_boost st b).
Proof.
  destruct (identity (bo_chainId b) (bo_tokenAddress b)) as [[c t]|] eqn:Hid;
    [|rewrite process_boost_skip by auto; apply adds_refl].
  destruct (bo_totalAmount b) as [total|] eqn:Ht;
    [|rewrite process_boost_skip by auto; apply adds_refl].
  destruct (Z.le_gt_cases total (default 0%Z (seen_boosts st !! t))) as [Hle|Hlt].
  - rewrite (process_boost_stale _ _ _ _ _ Hid Ht Hle). by apply adds_same.
  - unfold process_boost. rewrite Hid, Ht. cbv zeta.
    change (seen_boosts (set_known_tokens _ st)) with (seen_boosts st).
    rewrite (proj2 (Z.leb_gt _ _) Hlt).
    eapply adds_trans;
      [|apply (adds_announce c t "NEW BOOST"
                 (boost_lines b c t total (default 0%Z (seen_boosts st !! t))) "🚀"
                 ("New boost: " +:+ t +:+ " on " +:+ c +:+ " - Total: " +:+ pretty total))].
    by apply adds_same.
Qed.

Lemma adds_order c t st o : adds P st (check_order c t st o).
Proof.
  destruct (Z.lt_ge_cases (default 0%Z (or_paymentTimestamp o)) bot_start_ms) as [Hold|Hs].
  { rewrite check_order_old by done. apply adds_refl. }
  destruct (Z.le_gt_cases (default 0%Z (or_paymentTimestamp o))
              (default 0%Z (seen_orders st !! t))) as [Hle|Hlt].
  { rewrite check_order_known by done. apply adds_refl. }
  unfold check_order. cbv zeta.
  rewrite (proj2 (Z.ltb_ge _ _) Hs).
  destruct (Z.gtb_spec (default 0%Z (or_paymentTimestamp o))
              (default 0%Z (seen_orders st !! t))); [|lia].
  eapply adds_trans;
    [|apply (adds_announce c t
               ("NEW ORDER - " +:+ PyStr.upper (default "unknown" (or_type o)))
               (order_lines o c t
                  (try_except (strftime_utc (default 0%Z (or_paymentTimestamp o)))
                     (λ _, pretty (default 0%Z (or_paymentTimestamp o))))) "💰"
               ("New order: " +:+ t +:+ " on " +:+ c
                +:+ " - Type: " +:+ default "unknown" (or_type o)))].
  by apply adds_same.
Qed.

Lemma adds_handle_updates us st : adds P st (fst (handle_updates us st)).
Proof.
  revert st. induction us as [|u us IH]; intros st; simpl; [apply adds_refl|].
  destruct (up_message u) as [[[text|] [chat|]]|]; simpl;
    try apply IH; try apply adds_refl.
  destruct (PyStr.startswith text "/start");
    [|destruct (PyStr.startswith text "/status")]; try apply IH.
  - eapply adds_trans; [apply adds_send | apply IH].
  - eapply adds_trans; [apply adds_send | apply IH].
Qed.

Lemma adds_updates st : adds P st (handle_telegram_updates st).
Proof.
  unfold handle_telegram_updates.
  case_eq USE_TELEGRAM; intros E; cbn [negb]; [|apply adds_refl]. cbv zeta.
  assert (adds P st (tick (emit (GetUpdates None) st))) as H0
    by by apply adds_request, P_telegram.
  destruct (w_updates w (clock st)) as [resp|e]; [|exact H0].
  destruct (status_code resp =? 200)%Z; [|exact H0].
  destruct (json resp) as [[d|]|e]; try exact H0.
  destruct (ud_result d) as [|u us]; [exact H0|].
  destruct (ud_ok d); [|exact H0].
  pose proof (adds_handle_updates (u :: us) (tick (emit (GetUpdates None) st))) as H1.
  destruct (handle_updates (u :: us) _) as [st1 raised]. simpl in H1.
  assert (adds P st st1) as H2 by by eapply adds_trans.
  destruct raised; [exact H2|].
  destruct (up_update_id _) as [n|]; [|exact H2].
  eapply adds_trans; [exact H2 | by apply adds_request, P_telegram].
Qed.

Lemma adds_init_ad st a : adds P st (initialize_ad st a).
Proof.
  unfold initialize_ad. destruct (identity _ _) as [k|]; [|apply adds_refl].
  by apply adds_same.
Qed.

Lemma adds_init_profile st p : adds P st (initialize_profile st p).
Proof.
  unfold initialize_profile. destruct (identity _ _) as [k|]; [|apply adds_refl].
  cbv zeta.
  destruct (opt_truthy (profile_image p)), (links_truthy (pr_links p)); by apply adds_same.
Qed.

Lemma adds_init_boost st b : adds P st (initialize_boost st b).
Proof.
  unfold initialize_boost.
  destruct (identity _ _) as [[c t]|]; [|apply adds_refl].
  destruct (bo_totalAmount b) as [total|]; [|apply adds_refl].
  destruct (negb _); [|apply adds_refl].
  by apply adds_same.
Qed.

Lemma adds_init_order t st o : adds P st (initialize_order t st o).
Proof.
  unfold initialize_order. cbv zeta. destruct (negb _); [|apply adds_refl].
  by apply adds_same.
Qed.

Ltac adds_steps :=
  intros; first
    [ apply adds_refl | apply adds_fetch | apply adds_print | apply adds_send
    | apply adds_updates | apply adds_ad | apply adds_profile | apply adds_boost
    | apply adds_order | apply adds_init_ad | apply adds_init_profile
    | apply adds_init_boost | apply adds_init_order
    | eapply adds_trans; eassumption ].

(** a turn of the loop after the increment of the poll counter *)
Lemma adds_poll_feeds st : adds P st (poll_feeds st).
Proof. apply lift_poll_feeds; adds_steps. Qed.

Lemma adds_poll_orders st : adds P st (poll_orders st).
Proof. apply lift_poll_orders; adds_steps. Qed.

Lemma adds_poll_report st : adds P st (poll_report st).
Proof. apply lift_poll_report; adds_steps. Qed.

Lemma adds_poll_turn st : adds P (set_stats incr_polls st) (poll_cycle st).
Proof.
  rewrite poll_cycle_eq.
  eapply adds_trans; [apply adds_poll_feeds|].
  eapply adds_trans; [apply adds_poll_orders | apply adds_poll_report].
Qed.

Lemma adds_initialize st : adds P st (initialize st).
Proof. apply lift_initialize; adds_steps. Qed.

Lemma adds_startup st : adds P st (startup st).
Proof. apply lift_startup; adds_steps. Qed.

Lemma adds_shutdown st : adds P st (shutdown st).
Proof. apply lift_shutdown; adds_steps. Qed.

(** the trace of a run, whatever the poll counter *)
Lemma adds_trace_cycles n st :
  ∃ tr, trace (poll_cycles n st) = trace st ++ tr ∧ forallb P tr = true
        ∧ errors (stats st) ≤ errors (stats (poll_cycles n st))
        ∧ errors (stats (poll_cycles n st)) ≤ errors (stats st) + length (gets tr).
Proof.
  revert st. induction n as [|n IH]; intros st; simpl.
  - exists []. rewrite app_nil_r. simpl. repeat split; lia.
  - destruct (adds_poll_turn st) as (_ & tr1 & E1 & F1 & L1 & U1).
    destruct (IH (poll_cycle st)) as (tr2 & E2 & F2 & L2 & U2).
    exists (tr1 ++ tr2). split; [by rewrite E2, E1, <- app_assoc|].
    split; [by rewrite forallb_app, F1, F2|].
    rewrite gets_app, length_app. simpl in *. lia.
Qed.

Lemma adds_trace_main n :
  forallb P (trace (main n)) = true
  ∧ errors (stats (main n)) ≤ length (gets (trace (main n))).
Proof.
  unfold main.
  destruct (adds_startup initial_state) as (_ & tr1 & E1 & F1 & L1 & U1).
  destruct (adds_trace_cycles n (startup initial_state)) as (tr2 & E2 & F2 & L2 & U2).
  destruct (adds_shutdown (poll_cycles n (startup initial_state)))
    as (_ & tr3 & E3 & F3 & L3 & U3).
  rewrite E3, E2, E1. simpl.
  split; [by rewrite !forallb_app, F1, F2, F3|].
  rewrite !gets_app, !length_app. simpl in *. lia.
Qed.

End Adds.

(** ** What the detectors leave alone *)

Lemma observe_profile_frame k p st :
  seen_ads (observe_profile k p st) = seen_ads st
  ∧ seen_boosts (observe_profile k p st) = seen_boosts st
  ∧ seen_orders (observe_profile k p st) = seen_orders st
  ∧ stats (observe_profile k p st) = stats st.
Proof.
  unfold observe_profile.
  destruct (opt_truthy (profile_image p)), (links_truthy (pr_links p)); by repeat split.
Qed.

Lemma quiet_frames st st' :
  quiet st st' →
  ads_frame st' = ads_frame st ∧ profiles_frame st' = profiles_frame st
  ∧ boosts_frame st' = boosts_frame st ∧ orders_frame st' = orders_frame st.
Proof.
  intros (Hd & Hc & _). apply data_eq in Hd. apply counters_eq in Hc.
  destruct Hd as (H1 & H2 & H3 & H4 & H5 & H6 & H7). destruct Hc as (C1 & C2 & C3).
  unfold ads_frame, profiles_frame, boosts_frame, orders_frame.
  by rewrite H1, H2, H3, H4, H5, H6, H7, C1, C2, C3.
Qed.

Lemma process_ad_frame st a : ads_frame (process_ad st a) = ads_frame st.
Proof.
  destruct (identity (ad_chainId a) (ad_tokenAddress a)) as [[c t]|] eqn:Hid;
    [|by rewrite process_ad_skip].
  destruct (decide ((c, t) ∈ seen_ads st)) as [Hin|Hin].
  - by rewrite (process_ad_seen _ _ _ Hid Hin).
  - destruct (process_ad_fires _ _ _ _ Hid Hin) as (info & Hd & Hc & _).
    cbv zeta in *. apply data_eq in Hd. apply counters_eq in Hc.
    destruct Hd as (_ & H2 & H3 & H4 & H5 & H6 & _). destruct Hc as (_ & C2 & C3).
    unfold ads_frame. by rewrite H2, H3, H4, H5, H6, C2, C3.
Qed.

Lemma process_profile_frame st p : profiles_frame (process_profile st p) = profiles_frame st.
Proof.
  destruct (identity (pr_chainId p) (pr_tokenAddress p)) as [[c t]|] eqn:Hid;
    [|by rewrite process_profile_skip].
  destruct (observe_profile_frame (c, t) p st) as (F1 & F2 & F3 & F4).
  destruct (decide ((c, t) ∈ seen_profiles st)) as [Hin|Hin].
  - rewrite (process_profile_seen _ _ _ Hid Hin).
    unfold profiles_frame. by rewrite F1, F2, F3, F4.
  - destruct (process_profile_fires _ _ _ _ Hid Hin) as (info & Hd & Hc & _).
    cbv zeta in *. apply data_eq in Hd. apply counters_eq in Hc.
    destruct Hd as (H1 & H2 & H3 & _). destruct Hc as (C1 & C2 & _).
    unfold profiles_frame. rewrite H1, H2, H3, C1, C2. simpl.
    by rewrite F1, F2, F3, F4.
Qed.

Lemma process_boost_frame st b : boosts_frame (process_boost st b) = boosts_frame st.
Proof.
  destruct (identity (bo_chainId b) (bo_tokenAddress b)) as [[c t]|] eqn:Hid;
    [|by rewrite process_boost_skip by auto].
  destruct (bo_totalAmount b) as [total|] eqn:Ht;
    [|by rewrite process_boost_skip by auto].
  destruct (Z.le_gt_cases total (default 0%Z (seen_boosts st !! t))) as [Hle|Hlt].
  - by rewrite (process_boost_stale _ _ _ _ _ Hid Ht Hle).
  - destruct (process_boost_fires _ _ _ _ _ Hid Ht Hlt) as (info & Hd & Hc & _).
    cbv zeta in *. apply data_eq in Hd. apply counters_eq in Hc.
    destruct Hd as (H1 & _ & H3 & H4 & H5 & H6 & _). destruct Hc as (C1 & _ & C3).
    unfold boosts_frame. by rewrite H1, H3, H4, H5, H6, C1, C3.
Qed.

Lemma check_order_frame c t st o : orders_frame (check_order c t st o) = orders_frame st.
Proof.
  destruct (Z.lt_ge_cases (default 0%Z (or_paymentTimestamp o)) bot_start_ms) as [Hold|Hs];
    [by rewrite check_order_old|].
  destruct (Z.le_gt_cases (default 0%Z (or_paymentTimestamp o))
              (default 0%Z (seen_orders st !! t))) as [Hle|Hlt];
    [by rewrite check_order_known|].
  destruct (check_order_fires c t st o Hs Hlt) as (info & Hd & Hc & _).
  cbv zeta in *. apply data_eq in Hd. apply counters_eq in Hc.
  destruct Hd as (H1 & H2 & _ & H4 & H5 & H6 & H7). destruct Hc as (C1 & C2 & _).
  unfold orders_frame. by rewrite H1, H2, H4, H5, H6, H7, C1, C2.
Qed.

(** X1: each detector keeps to its own part of the state.  The ads
    detector leaves the boost totals, the order times, the seen profiles,
    the profile caches and the boost and order counters as they are; the
    profiles detector leaves the seen ads, the boost totals, the order
    times and the ad and boost counters; the boosts detector leaves the
    seen ads, the order times, the seen profiles, the caches and the ad
    and order counters; the order checker leaves the seen ads, the boost
    totals, the seen profiles, the caches, the ad and boost counters, and
    also the known-token set, which it walks through. *)
Theorem detectors_keep_to_their_state :
  (∀ ads st, ads_frame (process_ads ads st) = ads_frame st)
  ∧ (∀ profiles st, profiles_frame (process_profiles profiles st) = profiles_frame st)
  ∧ (∀ boosts st, boosts_frame (process_boosts boosts st) = boosts_frame st)
  ∧ (∀ st, orders_frame (check_orders st) = orders_frame st).
Proof.
  split; [|split; [|split]].
  - intros ads st.
    apply (detect_process_ads (λ st st', ads_frame st' = ads_frame st));
      [intros; congruence | by intros ? ? (? & _)%quiet_frames | apply process_ad_frame].
  - intros profiles st.
    apply (detect_process_profiles (λ st st', profiles_frame st' = profiles_frame st));
      [intros; congruence | by intros ? ? (_ & ? & _)%quiet_frames | apply process_profile_frame].
  - intros boosts st.
    apply (detect_process_boosts (λ st st', boosts_frame st' = boosts_frame st));
      [intros; congruence | by intros ? ? (_ & _ & ? & _)%quiet_frames | apply process_boost_frame].
  - intros st.
    apply (detect_check_orders (λ st st', orders_frame st' = orders_frame st));
      [intros; congruence | by intros ? ? (_ & _ & _ & ?)%quiet_frames | apply check_order_frame].
Qed.

(** ** Stored totals and payment times *)

Lemma boosts_mono_refl st : boosts_mono st st.
Proof. intros t. lia. Qed.

Lemma orders_mono_refl st : orders_mono st st.
Proof. intros t. lia. Qed.

Lemma boosts_mono_same st st' : seen_boosts st' = seen_boosts st → boosts_mono st st'.
Proof. intros H t. by rewrite H. Qed.

Lemma boosts_mono_trans st1 st2 st3 :
  boosts_mono st1 st2 → boosts_mono st2 st3 → boosts_mono st1 st3.
Proof. intros H1 H2 t. specialize (H1 t). specialize (H2 t). lia. Qed.

Lemma orders_mono_same st st' : seen_orders st' = seen_orders st → orders_mono st st'.
Proof. intros H t. by rewrite H. Qed.

Lemma orders_mono_trans st1 st2 st3 :
  orders_mono st1 st2 → orders_mono st2 st3 → orders_mono st1 st3.
Proof. intros H1 H2 t. specialize (H1 t). specialize (H2 t). lia. Qed.

(** storing a value above the stored one *)
Lemma insert_mono (m : gmap string Z) t v t' :
  (default 0 (m !! t) ≤ v)%Z → (default 0 (m !! t') ≤ default 0 (<[ t := v ]> m !! t'))%Z.
Proof.
  intros H. destruct (decide (t = t')) as [<-|Hne].
  - by rewrite lookup_insert_eq.
  - by rewrite lookup_insert_ne.
Qed.

Lemma process_boost_mono st b : boosts_mono st (process_boost st b).
Proof.
  destruct (identity (bo_chainId b) (bo_tokenAddress b)) as [[c t]|] eqn:Hid;
    [|rewrite process_boost_skip by auto; apply boosts_mono_refl].
  destruct (bo_totalAmount b) as [total|] eqn:Ht;
    [|rewrite process_boost_skip by auto; apply boosts_mono_refl].
  destruct (Z.le_gt_cases total (default 0%Z (seen_boosts st !! t))) as [Hle|Hlt].
  - rewrite (process_boost_stale _ _ _ _ _ Hid Ht Hle). by apply boosts_mono_same.
  - destruct (process_boost_fires _ _ _ _ _ Hid Ht Hlt) as (info & Hd & _).
    cbv zeta in *. apply data_eq in Hd. destruct Hd as (_ & H2 & _).
    intros t'. rewrite H2. simpl. apply insert_mono. lia.
Qed.

Lemma check_order_mono c t st o : orders_mono st (check_order c t st o).
Proof.
  destruct (Z.lt_ge_cases (default 0%Z (or_paymentTimestamp o)) bot_start_ms) as [Hold|Hs];
    [rewrite check_order_old by done; apply orders_mono_refl|].
  destruct (Z.le_gt_cases (default 0%Z (or_paymentTimestamp o))
              (default 0%Z (seen_orders st !! t))) as [Hle|Hlt];
    [rewrite check_order_known by done; apply orders_mono_refl|].
  destruct (check_order_fires c t st o Hs Hlt) as (info & Hd & _).
  cbv zeta in *. apply data_eq in Hd. destruct Hd as (_ & _ & H3 & _).
  intros t'. rewrite H3. simpl. apply insert_mono. lia.
Qed.

Lemma initialize_order_mono t st o : orders_mono st (initialize_order t st o).
Proof.
  unfold initialize_order. cbv zeta. destruct (negb _); [|apply orders_mono_refl].
  intros t'. simpl. apply insert_mono. lia.
Qed.

Lemma quiet_boosts st st' : quiet st st' → seen_boosts st' = seen_boosts st.
Proof. intros (Hd & _). apply data_eq in Hd. by destruct Hd as (_ & ? & _). Qed.

Lemma quiet_orders st st' : quiet st st' → seen_orders st' = seen_orders st.
Proof. intros (Hd & _). apply data_eq in Hd. by destruct Hd as (_ & _ & ? & _). Qed.

(** X2: in the poll loop the total stored for a token address never
    goes down: whatever the feeds answer, after any number of turns the
    stored total of every token address (0 when there is none) is at
    least what it was. *)
Theorem stored_boost_totals_never_decrease n st : boosts_mono st (poll_cycles n st).
Proof.
  apply (detect_poll_cycles boosts_mono).
  - apply boosts_mono_trans.
  - intros s s' H. by apply boosts_mono_same, quiet_boosts.
  - intros s a. apply boosts_mono_same.
    pose proof (process_ad_frame s a) as H. unfold ads_frame in H. congruence.
  - intros s p. apply boosts_mono_same.
    pose proof (process_profile_frame s p) as H. unfold profiles_frame in H. congruence.
  - apply process_boost_mono.
  - intros c t s o. apply boosts_mono_same.
    pose proof (check_order_frame c t s o) as H. unfold orders_frame in H. congruence.
Qed.

Lemma initialize_steps_orders :
  (∀ st a, seen_orders (initialize_ad st a) = seen_orders st)
  ∧ (∀ st p, seen_orders (initialize_profile st p) = seen_orders st)
  ∧ (∀ st b, seen_orders (initialize_boost st b) = seen_orders st).
Proof.
  split; [|split].
  - intros st a. unfold initialize_ad. by destruct (identity _ _).
  - intros st p. unfold initialize_profile. destruct (identity _ _); [|done]. cbv zeta.
    by destruct (opt_truthy (profile_image p)), (links_truthy (pr_links p)).
  - intros st b. unfold initialize_boost.
    destruct (identity _ _) as [[c t]|]; [|done].
    destruct (bo_totalAmount b); [|done]. by destruct (negb _).
Qed.

Lemma orders_mono_steps :
  (∀ st a, orders_mono st (process_ad st a))
  ∧ (∀ st p, orders_mono st (process_profile st p))
  ∧ (∀ st b, orders_mono st (process_boost st b)).
Proof.
  split; [|split].
  - intros s a. apply orders_mono_same.
    pose proof (process_ad_frame s a) as H. unfold ads_frame in H. congruence.
  - intros s p. apply orders_mono_same.
    pose proof (process_profile_frame s p) as H. unfold profiles_frame in H. congruence.
  - intros s b. apply orders_mono_same.
    pose proof (process_boost_frame s b) as H. unfold boosts_frame in H. congruence.
Qed.

Lemma orders_mono_quiet st st' : quiet st st' → orders_mono st st'.
Proof. intros H. by apply orders_mono_same, quiet_orders. Qed.

Lemma orders_mono_cycles n st : orders_mono st (poll_cycles n st).
Proof.
  destruct orders_mono_steps as (Ha & Hp & Hb).
  apply (detect_poll_cycles orders_mono);
    [apply orders_mono_trans | apply orders_mono_quiet | apply Ha | apply Hp | apply Hb
    | apply check_order_mono].
Qed.

Lemma orders_mono_initialize_token st k : orders_mono st (initialize_token st k).
Proof.
  apply (detect_initialize_token orders_mono);
    [apply orders_mono_trans | apply orders_mono_quiet | apply initialize_order_mono].
Qed.

Lemma orders_mono_startup st : orders_mono st (startup st).
Proof.
  destruct initialize_steps_orders as (Ha & Hp & Hb).
  apply (detect_startup orders_mono);
    [apply orders_mono_trans | apply orders_mono_quiet
    | intros; by apply orders_mono_same | intros; by apply orders_mono_same
    | intros; by apply orders_mono_same | apply initialize_order_mono].
Qed.

(** X3: the payment time stored for a token address never goes down,
    neither at start-up nor in the poll loop: after the start-up and any
    number of turns the stored time of every token address (0 when there
    is none) is at least what it was. *)
Theorem stored_order_times_never_decrease n st :
  orders_mono st (startup st) ∧ orders_mono st (poll_cycles n st)
  ∧ orders_mono st (poll_cycles n (startup st)).
Proof.
  split; [apply orders_mono_startup|]. split; [apply orders_mono_cycles|].
  eapply orders_mono_trans; [apply orders_mono_startup | apply orders_mono_cycles].
Qed.

(** ** The poll counter and what hangs on it *)

Lemma all_effects_pass st st' : adds (λ _, true) st st' → polls (stats st') = polls (stats st).
Proof. by intros [H _]. Qed.

Lemma poll_cycle_polls st : polls (stats (poll_cycle st)) = S (polls (stats st)).
Proof.
  assert (adds (λ _, true) (set_stats incr_polls st) (poll_cycle st)) as [H _]
    by by apply adds_poll_turn.
  exact H.
Qed.

(** X4: every turn of the loop adds exactly one to the poll counter,
    and nothing else in the program touches it: after [n] turns it is
    [n] more than before, and at the end of a run of [n] turns it is
    [n]. *)
Theorem polls_counts_the_turns n :
  (∀ st, polls (stats (poll_cycles n st)) = polls (stats st) + n)
  ∧ polls (stats (main n)) = n.
Proof.
  assert (∀ st, polls (stats (poll_cycles n st)) = polls (stats st) + n) as Hn.
  { induction n as [|n IH]; intros st; simpl; [lia|].
    rewrite IH, poll_cycle_polls. lia. }
  split; [exact Hn|].
  unfold main.
  assert (∀ st, polls (stats (shutdown st)) = polls (stats st)) as Hs
    by (intros st; by apply all_effects_pass, adds_shutdown).
  assert (∀ st, polls (stats (startup st)) = polls (stats st)) as Hu
    by (intros st; by apply all_effects_pass, adds_startup).
  by rewrite Hs, Hn, Hu.
Qed.

Lemma events_same_alerts k tr tr' : alerts tr' = alerts tr → events k tr' = events k tr.
Proof. intros H. unfold events. by rewrite H. Qed.

Lemma orders_undisturbed_trans t st1 st2 st3 :
  orders_undisturbed t st1 st2 → orders_undisturbed t st2 st3 → orders_undisturbed t st1 st3.
Proof. intros [H1 E1] [H2 E2]. split; congruence. Qed.

Lemma orders_undisturbed_quiet t st st' : quiet st st' → orders_undisturbed t st st'.
Proof.
  intros H. split; [by rewrite (quiet_orders _ _ H)|].
  destruct H as (_ & _ & Ha). by apply events_same_alerts.
Qed.

(** the ads, profiles and boosts detectors raise no ORDER event *)
Lemma process_ad_no_order st a :
  events ORDER (trace (process_ad st a)) = events ORDER (trace st).
Proof.
  destruct (identity (ad_chainId a) (ad_tokenAddress a)) as [[c t]|] eqn:Hid;
    [|by rewrite process_ad_skip].
  destruct (decide ((c, t) ∈ seen_ads st)) as [Hin|Hin].
  - by rewrite (process_ad_seen _ _ _ Hid Hin).
  - destruct (process_ad_fires _ _ _ _ Hid Hin) as (info & _ & _ & Ha).
    cbv zeta in *. rewrite (events_snoc _ _ _ _ Ha). simpl. apply app_nil_r.
Qed.

Lemma process_profile_no_order st p :
  events ORDER (trace (process_profile st p)) = events ORDER (trace st).
Proof.
  destruct (identity (pr_chainId p) (pr_tokenAddress p)) as [[c t]|] eqn:Hid;
    [|by rewrite process_profile_skip].
  destruct (observe_profile_silent (c, t) p st) as [_ Htr].
  destruct (decide ((c, t) ∈ seen_profiles st)) as [Hin|Hin].
  - by rewrite (process_profile_seen _ _ _ Hid Hin), Htr.
  - destruct (process_profile_fires _ _ _ _ Hid Hin) as (info & _ & _ & Ha).
    cbv zeta in *. rewrite (events_snoc _ _ _ _ Ha), Htr. simpl. apply app_nil_r.
Qed.

Lemma process_boost_no_order st b :
  events ORDER (trace (process_boost st b)) = events ORDER (trace st).
Proof.
  destruct (identity (bo_chainId b) (bo_tokenAddress b)) as [[c t]|] eqn:Hid;
    [|by rewrite process_boost_skip by auto].
  destruct (bo_totalAmount b) as [total|] eqn:Ht;
    [|by rewrite process_boost_skip by auto].
  destruct (Z.le_gt_cases total (default 0%Z (seen_boosts st !! t))) as [Hle|Hlt].
  - by rewrite (process_boost_stale _ _ _ _ _ Hid Ht Hle).
  - destruct (process_boost_fires _ _ _ _ _ Hid Ht Hlt) as (info & _ & _ & Ha).
    cbv zeta in *. rewrite (events_snoc _ _ _ _ Ha). simpl. apply app_nil_r.
Qed.

Lemma poll_feeds_orders t st : orders_undisturbed t st (poll_feeds st).
Proof.
  apply (detect_poll_feeds (orders_undisturbed t)).
  - apply orders_undisturbed_trans.
  - apply orders_undisturbed_quiet.
  - intros s a. split; [|apply process_ad_no_order].
    pose proof (process_ad_frame s a) as H. unfold ads_frame in H. congruence.
  - intros s p. split; [|apply process_profile_no_order].
    pose proof (process_profile_frame s p) as H. unfold profiles_frame in H. congruence.
  - intros s b. split; [|apply process_boost_no_order].
    pose proof (process_boost_frame s b) as H. unfold boosts_frame in H. congruence.
Qed.

(** X5: the order checker runs on every fifth turn only.  In a turn
    whose number is not a multiple of five nothing is stored for any
    token address and no ORDER event is raised, whatever the servers
    answer. *)
Theorem orders_are_checked_every_fifth_turn st t :
  S (polls (stats st)) mod 5 ≠ 0 → orders_undisturbed t st (poll_cycle st).
Proof.
  intros Hmod. rewrite poll_cycle_eq.
  set (st1 := poll_feeds (set_stats incr_polls st)).
  assert (polls (stats st1) = S (polls (stats st))) as Hp.
  { assert (adds (λ _, true) (set_stats incr_polls st) st1) as [H _]
      by by apply adds_poll_feeds.
    exact H. }
  unfold poll_orders. rewrite Hp, (proj2 (Nat.eqb_neq _ _) Hmod).
  eapply orders_undisturbed_trans; [apply orders_undisturbed_quiet, quiet_polls|].
  eapply orders_undisturbed_trans; [apply poll_feeds_orders|].
  apply (detect_poll_report (orders_undisturbed t)), orders_undisturbed_quiet.
Qed.

(** ** Telegram *)

(** X6: without credentials nothing is ever sent to Telegram.  When
    the bot token or the chat id is missing or empty, a whole run of any
    length makes no request to Telegram: no photo, no message, no poll
    for commands. *)
Theorem no_telegram_request_without_credentials n :
  USE_TELEGRAM = false →
  forallb (λ e, negb (is_telegram e)) (trace (main n)) = true.
Proof.
  intros Hoff.
  apply (adds_trace_main (λ e, negb (is_telegram e))); try done.
  intros Hon. congruence.
Qed.

(** ** Start-up *)

(** X7: the seeding at start-up only prints and fetches.  Everything
    [initialize] adds to the trace is console output or a GET request to
    DexScreener: no alert, no log record, no request to Telegram; and it
    leaves the detection counters and the poll counter as they are. *)
Theorem initialize_only_prints_and_fetches st :
  counters (initialize st) = counters st
  ∧ polls (stats (initialize st)) = polls (stats st)
  ∧ ∃ tr, trace (initialize st) = trace st ++ tr ∧ forallb is_print_or_get tr = true.
Proof.
  split.
  - apply (detect_initialize (λ st st', counters st' = counters st)); try done.
    + intros; congruence.
    + by intros s s' (_ & H & _).
    + intros s a. unfold initialize_ad. by destruct (identity _ _).
    + intros s p. unfold initialize_profile. destruct (identity _ _); [|done]. cbv zeta.
      by destruct (opt_truthy (profile_image p)), (links_truthy (pr_links p)).
    + intros s b. unfold initialize_boost.
      destruct (identity _ _) as [[c t]|]; [|done].
      destruct (bo_totalAmount b); [|done]. by destruct (negb _).
    + intros t s o. unfold initialize_order. cbv zeta. by destruct (negb _).
  - destruct (adds_initialize is_print_or_get) with (st := st)
      as (Hp & tr & Ht & Hf & _); try done.
    split; [exact Hp|]. by exists tr.
Qed.

(** ** What the start-up seeds *)

Lemma fold_left_same {A B} (F : state → B) (f : state → A → state) :
  (∀ st x, F (f st x) = F st) → ∀ l st, F (fold_left f l st) = F st.
Proof.
  intros H. apply (fold_left_rel (λ st st', F st' = F st)); [done | | done].
  intros a b c Hab Hbc. congruence.
Qed.

Lemma fetch_json_clock {A} url (r : reply A) st :
  clock (snd (fetch_json url r st)) = S (clock st).
Proof. unfold fetch_json. by destruct (fetch_json_try r). Qed.

Lemma fetch_json_ok {A} url (v : A) st :
  fetch_json url (http_ok v) st = (Some v, tick (emit (HttpGet url) st)).
Proof. reflexivity. Qed.

Lemma send_telegram_message_clock text st :
  clock (snd (send_telegram_message text st)) = clock st + Nat.b2n USE_TELEGRAM.
Proof.
  unfold send_telegram_message. destruct USE_TELEGRAM; simpl; [|lia].
  destruct (w_post w (clock st)) as [resp|e]; simpl; [|lia].
  destruct (status_code resp =? 200)%Z; simpl; lia.
Qed.

Lemma banner_clock st : clock (banner st) = clock st + Nat.b2n USE_TELEGRAM.
Proof.
  unfold banner. cbv zeta.
  match goal with
  | |- context [send_telegram_message ?m ?s] =>
      pose proof (send_telegram_message_clock m s) as H
  end.
  destruct USE_TELEGRAM; simpl in *; [exact H | lia].
Qed.

Lemma initialize_ad_clock st a : clock (initialize_ad st a) = clock st.
Proof. unfold initialize_ad. by destruct (identity _ _). Qed.

Lemma seed_ads_clock st : clock (seed_ads st) = S (clock st).
Proof.
  unfold seed_ads.
  pose proof (fetch_json_clock DEX_ADS_URL (w_ads w (clock st)) st) as H.
  destruct (fetch_json _ _ st) as [v st1]. simpl in H.
  destruct v as [[l|b]|]; try exact H.
  cbv zeta. simpl. rewrite <- H. apply fold_left_same, initialize_ad_clock.
Qed.

(** every record of the list is marked as seen by the loop *)
Lemma initialize_ads_seen l st a k :
  a ∈ l → identity (ad_chainId a) (ad_tokenAddress a) = Some k →
  k ∈ seen_ads (fold_left initialize_ad l st).
Proof.
  revert st. induction l as [|x l IH]; intros st Hin Hid; [by apply elem_of_nil in Hin|].
  apply elem_of_cons in Hin as [->|Hin]; [|by apply IH].
  simpl. apply (seen_ads_grows _ _ (fold_left_sound _ initialize_ad_sound l _)).
  unfold initialize_ad. rewrite Hid. simpl.
  apply elem_of_union. left. by apply elem_of_singleton.
Qed.

Lemma initialize_profile_seen st p k :
  identity (pr_chainId p) (pr_tokenAddress p) = Some k →
  k ∈ seen_profiles (initialize_profile st p).
Proof.
  intros Hid. unfold initialize_profile. rewrite Hid. cbv zeta.
  destruct (opt_truthy (profile_image p)), (links_truthy (pr_links p)); simpl;
    (apply elem_of_union; left; by apply elem_of_singleton).
Qed.

Lemma initialize_profiles_seen l st p k :
  p ∈ l → identity (pr_chainId p) (pr_tokenAddress p) = Some k →
  k ∈ seen_profiles (fold_left initialize_profile l st).
Proof.
  revert st. induction l as [|x l IH]; intros st Hin Hid; [by apply elem_of_nil in Hin|].
  apply elem_of_cons in Hin as [->|Hin]; [|by apply IH].
  simpl. apply (seen_profiles_grows _ _ (fold_left_sound _ initialize_profile_sound l _)).
  by apply initialize_profile_seen.
Qed.

Lemma seed_ads_seen st l a k :
  w_ads w (clock st) = http_ok (Records l) →
  a ∈ l → identity (ad_chainId a) (ad_tokenAddress a) = Some k →
  k ∈ seen_ads (seed_ads st).
Proof.
  intros Hw Hin Hid. unfold seed_ads. rewrite Hw, fetch_json_ok.
  by apply (initialize_ads_seen l _ a).
Qed.

Lemma seed_profiles_seen st l p k :
  w_profiles w (clock st) = http_ok (Records l) →
  p ∈ l → identity (pr_chainId p) (pr_tokenAddress p) = Some k →
  k ∈ seen_profiles (seed_profiles st).
Proof.
  intros Hw Hin Hid. unfold seed_profiles. rewrite Hw, fetch_json_ok.
  destruct l as [|x l]; [by apply elem_of_nil in Hin|].
  by apply (initialize_profiles_seen (x :: l) _ p).
Qed.

(** the parts of the start-up keep what is seen *)
Lemma seed_sound :
  (∀ st, sound st (seed_ads st)) ∧ (∀ st, sound st (seed_profiles st))
  ∧ (∀ st, sound st (seed_boosts st)) ∧ (∀ st, sound st (seed_orders st)).
Proof.
  split; [|split; [|split]]; intros st.
  - apply (detect_seed_ads sound);
      [apply sound_trans | apply quiet_sound | apply initialize_ad_sound].
  - apply (detect_seed_profiles sound);
      [apply sound_trans | apply quiet_sound | apply initialize_profile_sound].
  - apply (detect_seed_boosts sound);
      [apply sound_trans | apply quiet_sound | apply initialize_boost_sound].
  - apply (detect_seed_orders sound);
      [apply sound_trans | apply quiet_sound | apply initialize_order_sound].
Qed.

(** X8: what is in the feeds at start-up raises no event later.  When
    the ads feed answers the first request of [initialize] with a list,
    every ad of the list is marked as seen, and processing it after the
    start-up and any number of turns adds nothing to the trace and
    counts nothing; likewise for the profiles of the list that answers
    the second request.  (The start-up message, when Telegram is
    configured, is the one request made before.) *)
Theorem records_seeded_at_startup_raise_no_event st n :
  let first := clock st + Nat.b2n USE_TELEGRAM in
  let st' := poll_cycles n (startup st) in
  (∀ l a, w_ads w first = http_ok (Records l) → a ∈ l →
     trace (process_ad st' a) = trace st' ∧ stats (process_ad st' a) = stats st')
  ∧ (∀ l p, w_profiles w (S first) = http_ok (Records l) → p ∈ l →
       trace (process_profile st' p) = trace st'
       ∧ stats (process_profile st' p) = stats st').
Proof.
  cbv zeta. destruct seed_sound as (Sa & Sp & Sb & So).
  set (st0 := emit (Print "🔍 Initializing bot...") (banner st)).
  assert (clock st0 = clock st + Nat.b2n USE_TELEGRAM) as Hc0 by apply banner_clock.
  assert (startup st
          = emit (Print (PyStr.nl +:+ "⏳ Monitoring for new events..." +:+ PyStr.nl))
              (seed_orders (seed_boosts (seed_profiles (seed_ads st0))))) as Hst
    by by rewrite startup_eq, initialize_eq.
  assert (sound (seed_profiles (seed_ads st0)) (poll_cycles n (startup st))) as Hlate.
  { rewrite Hst.
    eapply sound_trans; [apply Sb|]. eapply sound_trans; [apply So|].
    eapply sound_trans; [|apply poll_cycles_sound]. by apply emit_sound. }
  split.
  - intros l a Hw Hin.
    destruct (identity (ad_chainId a) (ad_tokenAddress a)) as [k|] eqn:Hid;
      [|by rewrite process_ad_skip].
    rewrite (process_ad_seen _ _ k Hid); [done|].
    apply (seen_ads_grows _ _ Hlate), (seen_ads_grows _ _ (Sp _)).
    rewrite <- Hc0 in Hw. by apply (seed_ads_seen st0 l a).
  - intros l p Hw Hin.
    destruct (identity (pr_chainId p) (pr_tokenAddress p)) as [k|] eqn:Hid;
      [|by rewrite process_profile_skip].
    rewrite (process_profile_seen _ _ k Hid).
    + destruct (observe_profile_silent k p (poll_cycles n (startup st))) as [Hs Ht].
      by rewrite Hs, Ht.
    + apply (seen_profiles_grows _ _ Hlate).
      rewrite <- Hc0, <- (seed_ads_clock st0) in Hw.
      by apply (seed_profiles_seen _ l p).
Qed.

(** *** Orders *)

Lemma initialize_orders_mono t os st : orders_mono st (fold_left (initialize_order t) os st).
Proof.
  apply (fold_left_rel orders_mono);
    [apply orders_mono_refl | apply orders_mono_trans | apply initialize_order_mono].
Qed.

(** after the loop over the orders of a token, the stored time is at
    least the payment time of each of them *)
Lemma initialize_orders_bound t os st o :
  o ∈ os → default 0%Z (or_paymentTimestamp o) ≠ 0%Z →
  (default 0 (or_paymentTimestamp o)
   ≤ default 0 (seen_orders (fold_left (initialize_order t) os st) !! t))%Z.
Proof.
  revert st. induction os as [|x os IH]; intros st Hin Hts; [by apply elem_of_nil in Hin|].
  apply elem_of_cons in Hin as [->|Hin]; [|by apply IH].
  simpl. etransitivity; [|apply initialize_orders_mono].
  unfold initialize_order. cbv zeta.
  rewrite (proj2 (Z.eqb_neq _ _) Hts). simpl. rewrite lookup_insert_eq. simpl. lia.
Qed.

(** X9: an order that the orders endpoint lists at start-up raises no
    event later.  When the request of [initialize] for a known token is
    answered with a list of orders, then, whatever the other tokens
    answer and after any number of turns, checking one of these orders
    again leaves the state as it is, provided the process was started
    after the epoch. *)
Theorem orders_listed_at_startup_raise_no_event st c t d o :
  (0 < bot_start_ms)%Z →
  w_orders w (clock st) (DEX_ORDERS_URL c t) = http_ok d →
  o ∈ default [] (od_orders d) →
  ∀ tokens text n chain,
    let st' :=
      poll_cycles n
        (emit (Print text) (fold_left initialize_token tokens (initialize_token st (c, t)))) in
    check_order chain t st' o = st'.
Proof.
  intros Hstart Hw Hin tokens text n chain. cbv zeta.
  set (st1 := initialize_token st (c, t)).
  set (st' := poll_cycles n _).
  assert (orders_mono st1 st') as Hmono.
  { apply (orders_mono_trans _ (fold_left initialize_token tokens st1)).
    - apply (fold_left_rel orders_mono initialize_token);
        [apply orders_mono_refl | apply orders_mono_trans
        | apply orders_mono_initialize_token].
    - eapply orders_mono_trans; [|apply orders_mono_cycles].
      by apply orders_mono_same. }
  destruct (decide (default 0%Z (or_paymentTimestamp o) = 0%Z)) as [Hz|Hnz].
  { apply check_order_old. lia. }
  apply check_order_known. etransitivity; [|apply Hmono].
  unfold st1, initialize_token. rewrite Hw, fetch_json_ok.
  by apply initialize_orders_bound.
Qed.

(** *** Boosts *)

(** X10: at start-up the total of the last record of a token address
    is stored, not the largest.  When the boosts feed lists two records
    of one token address, first one with the higher total and then one
    with the lower total, the lower total is what the seeding leaves,
    and the record with the higher total, although it was there at
    start-up, raises a BOOST event when it is processed next. *)
Theorem startup_stores_the_last_boost_total st b1 b2 c1 c2 t hi lo :
  observes_boost c1 t hi b1 → observes_boost c2 t lo b2 →
  (0 < lo)%Z → (lo < hi)%Z →
  let st' := initialize_boost (initialize_boost st b1) b2 in
  seen_boosts st' !! t = Some lo
  ∧ count_events BOOST (trace (process_boost st' b1)) = S (count_events BOOST (trace st')).
Proof.
  intros [Hid1 Ht1] [Hid2 Ht2] Hlo Hhi. cbv zeta.
  assert (seen_boosts (initialize_boost (initialize_boost st b1) b2) !! t = Some lo) as Hs.
  { unfold initialize_boost. rewrite Hid1, Ht1, Hid2, Ht2.
    rewrite (proj2 (Z.eqb_neq hi 0)), (proj2 (Z.eqb_neq lo 0)) by lia.
    simpl. apply lookup_insert_eq. }
  split; [exact Hs|].
  destruct (process_boost_events (initialize_boost (initialize_boost st b1) b2)
              b1 c1 t hi (conj Hid1 Ht1)) as (info & He & _).
  cbv zeta in He. rewrite Hs in He. simpl in He.
  rewrite (proj2 (Z.ltb_lt lo hi) Hhi) in He.
  unfold count_events. rewrite He, length_app. simpl. lia.
Qed.

(** ** Delivery failures and the log *)

(** X11: which delivery failures reach the log.  A photo request that
    raises leaves one warning; a photo request answered with a status
    other than 200 leaves none.  Each of the text requests that follow
    leaves one warning when it fails.  So an alert whose photo is
    refused with a status and whose text then goes through is delivered
    without any record of the refusal. *)
Theorem delivery_failures_in_the_log title lines emoji st :
  let n := clock st in
  ∃ rest,
    trace (print_alert title lines emoji st) = trace st ++ Alert title lines emoji :: rest
    ∧ length (warnings rest) =
        if USE_TELEGRAM then
          Nat.b2n (post_raised (w_post w n))
          + (if post_ok (w_post w n) then 0
             else if post_ok (w_post w (S n)) then 0
             else if post_ok (w_post w (S (S n))) then 1 else 2)
        else 0.
Proof.
  cbv zeta. unfold print_alert, format_telegram_alert.
  set (p := parse_lines lines).
  change (attach_profile (emit (Alert title lines emoji) st) p)
    with (attach_profile st p).
  set (x := attach_profile st p).
  set (message := alert_message _ _ _ _ x).
  set (photo := select_image (Some x) _ _).
  unfold send_telegram_photo, send_telegram_message.
  destruct USE_TELEGRAM; simpl; [|exists []; split; [done|done]].
  destruct (w_post w (clock st)) as [r1|e1]; simpl.
  - destruct (status_code r1 =? 200)%Z; simpl.
    + eexists. split; [by rewrite <- !app_assoc|done].
    + destruct (w_post w (S (clock st))) as [r2|e2]; simpl.
      * destruct (status_code r2 =? 200)%Z; simpl.
        -- eexists. split; [by rewrite <- !app_assoc|done].
        -- destruct (w_post w (S (S (clock st)))) as [r3|e3]; simpl;
             [destruct (status_code r3 =? 200)%Z; simpl|];
             (eexists; split; [by rewrite <- !app_assoc|done]).
      * destruct (w_post w (S (S (clock st)))) as [r3|e3]; simpl;
          [destruct (status_code r3 =? 200)%Z; simpl|];
          (eexists; split; [by rewrite <- !app_assoc|done]).
  - destruct (w_post w (S (clock st))) as [r2|e2]; simpl.
    + destruct (status_code r2 =? 200)%Z; simpl.
      * eexists. split; [by rewrite <- !app_assoc|done].
      * destruct (w_post w (S (S (clock st)))) as [r3|e3]; simpl;
          [destruct (status_code r3 =? 200)%Z; simpl|];
          (eexists; split; [by rewrite <- !app_assoc|done]).
    + destruct (w_post w (S (S (clock st)))) as [r3|e3]; simpl;
        [destruct (status_code r3 =? 200)%Z; simpl|];
        (eexists; split; [by rewrite <- !app_assoc|done]).
Qed.

(** ** The command listener *)

Lemma sends_app (l k : list effect) : sends (l ++ k) = sends l ++ sends k.
Proof. apply List.filter_app. Qed.

(** with Telegram configured, a text is one request, whatever comes of it *)
Lemma send_telegram_message_sends text st :
  USE_TELEGRAM = true →
  let st' := snd (send_telegram_message text st) in
  sends (trace st') = sends (trace st) ++ [SendMessage text] ∧ stats st' = stats st.
Proof.
  intros Hon. cbv zeta. unfold send_telegram_message. rewrite Hon. simpl.
  destruct (w_post w (clock st)) as [resp|e]; simpl.
  - destruct (status_code resp =? 200)%Z; simpl;
      rewrite !sends_app; simpl; by rewrite ?app_nil_r.
  - rewrite !sends_app. simpl. by rewrite ?app_nil_r.
Qed.

Lemma handle_updates_replies us st :
  USE_TELEGRAM = true → forallb has_chat us = true →
  let res := handle_updates us st in
  res.2 = false
  ∧ length (sends (trace res.1))
    = length (sends (trace st)) + length (List.filter is_command us)
  ∧ stats res.1 = stats st.
Proof.
  intros Hon. revert st. induction us as [|u us IH]; intros st Hchat; cbv zeta.
  { simpl. split; [done|]. split; [lia | done]. }
  simpl in Hchat. apply andb_true_iff in Hchat as [Hu Hus].
  destruct u as [[[[text|] [chat|]]|] uid];
    cbn -[welcome_msg status_msg send_telegram_message PyStr.startswith] in Hu |- *;
    try done; try (by apply IH).
  destruct (PyStr.startswith text "/start") eqn:E1;
    cbn -[welcome_msg status_msg send_telegram_message PyStr.startswith].
  - destruct (send_telegram_message_sends welcome_msg st Hon) as [Hs Hst].
    destruct (IH (snd (send_telegram_message welcome_msg st)) Hus) as (R1 & R2 & R3).
    cbv zeta in *. split; [done|]. split; [|congruence].
    rewrite R2, Hs, length_app. simpl. lia.
  - destruct (PyStr.startswith text "/status") eqn:E2;
      cbn -[welcome_msg status_msg send_telegram_message PyStr.startswith];
      [|by apply IH].
    destruct (send_telegram_message_sends
                (status_msg (w_runtime w (clock st)) (stats st)) st Hon) as [Hs Hst].
    destruct (IH (snd (send_telegram_message
                         (status_msg (w_runtime w (clock st)) (stats st)) st)) Hus)
      as (R1 & R2 & R3).
    cbv zeta in *. split; [done|]. split; [|congruence].
    rewrite R2, Hs, length_app. simpl. lia.
Qed.

(** X12: the command listener answers each command once and then
    acknowledges the batch.  When Telegram is configured and getUpdates
    answers a batch of updates whose text messages all carry a chat id,
    one message is sent for every update whose text starts with /start
    or /status and none for the others; the detection state, the
    counters and the alerts are left alone; and when the last update of
    the batch has an id, the handler ends with a getUpdates request whose
    offset is that id plus one. *)
Theorem commands_are_answered_once_and_acknowledged st u us :
  USE_TELEGRAM = true →
  w_updates w (clock st) = http_ok {| ud_ok := true; ud_result := u :: us |} →
  forallb has_chat (u :: us) = true →
  let st' := handle_telegram_updates st in
  length (sends (trace st'))
  = length (sends (trace st)) + length (List.filter is_command (u :: us))
  ∧ quiet st st'
  ∧ ∀ id, up_update_id (List.last (u :: us) u) = Some id →
      List.last (trace st') (Print "") = GetUpdates (Some (id + 1)%Z).
Proof.
  intros Hon Hw Hchat. cbv zeta.
  split; [|split; [apply handle_telegram_updates_quiet|]].
  - unfold handle_telegram_updates. rewrite Hon, Hw. cbn [negb http_ok status_code json].
    change (200 =? 200)%Z with true. cbv iota zeta. cbn [ud_result ud_ok].
    destruct (handle_updates_replies (u :: us) (tick (emit (GetUpdates None) st)) Hon Hchat)
      as (R1 & R2 & _).
    cbv zeta in *.
    destruct (handle_updates (u :: us) _) as [st1 raised]. simpl in R1, R2. subst raised.
    assert (length (sends (trace st1))
            = length (sends (trace st)) + length (List.filter is_command (u :: us))) as R.
    { rewrite R2. simpl. by rewrite sends_app, length_app, Nat.add_0_r. }
    destruct (up_update_id _); [|exact R].
    simpl. by rewrite sends_app, length_app, Nat.add_0_r.
  - intros id Hid.
    unfold handle_telegram_updates. rewrite Hon, Hw. cbn [negb http_ok status_code json].
    change (200 =? 200)%Z with true. cbv iota zeta. cbn [ud_result ud_ok].
    destruct (handle_updates_replies (u :: us) (tick (emit (GetUpdates None) st)) Hon Hchat)
      as (R1 & _).
    cbv zeta in *.
    destruct (handle_updates (u :: us) _) as [st1 raised]. simpl in R1. subst raised.
    rewrite Hid. simpl. apply last_last.
Qed.

(** ** The error counter *)

Lemma send_telegram_message_stats text st :
  stats (snd (send_telegram_message text st)) = stats st.
Proof.
  unfold send_telegram_message. destruct (negb _); [done|].
  destruct (w_post w (clock st)) as [resp|e]; simpl; [|done].
  by destruct (status_code resp =? 200)%Z.
Qed.

Lemma send_telegram_photo_stats photo caption st :
  stats (snd (send_telegram_photo photo caption st)) = stats st.
Proof.
  unfold send_telegram_photo. destruct (negb _); [done|].
  destruct (w_post w (clock st)) as [resp|e]; simpl.
  - destruct (status_code resp =? 200)%Z; [done|].
    by rewrite send_telegram_message_stats.
  - by rewrite send_telegram_message_stats.
Qed.

Lemma print_alert_stats title lines emoji st :
  stats (print_alert title lines emoji st) = stats st.
Proof.
  unfold print_alert. destruct USE_TELEGRAM; [|done].
  unfold format_telegram_alert.
  match goal with
  | |- context [send_telegram_photo ?p ?m ?s] =>
      pose proof (send_telegram_photo_stats p m s) as Hp;
      destruct (send_telegram_photo p m s) as [sent st1]
  end.
  simpl in Hp. destruct sent; simpl; [done|].
  by rewrite send_telegram_message_stats.
Qed.

(** X13: the error counter counts failed fetches and nothing else.  At
    the end of a run it is at most the number of GET requests made to
    DexScreener; and delivering an alert to Telegram, whatever comes of
    it, leaves every statistic as it is. *)
Theorem errors_count_failed_fetches_only :
  (∀ n, errors (stats (main n)) ≤ length (gets (trace (main n))))
  ∧ (∀ title lines emoji st, stats (print_alert title lines emoji st) = stats st).
Proof.
  split; [|apply print_alert_stats].
  intros n. by apply (adds_trace_main (λ _, true)).
Qed.

(** ** Known tokens *)

Lemma tracked_data st st' : data st' = data st → tracked st → tracked st'.
Proof.
  intros Hd. apply data_eq in Hd.
  destruct Hd as (H1 & H2 & _ & H4 & H5 & H6 & H7).
  unfold tracked. by rewrite H1, H2, H4, H5, H6, H7.
Qed.

(** a token is added to the known tokens, and perhaps to other parts *)
(** inclusions in a set to which an element is added *)
Ltac known_tac :=
  first
    [ done
    | by apply union_subseteq_r
    | by apply union_mono_l
    | by (etransitivity; [eassumption | apply union_subseteq_r])
    | by (apply elem_of_union; left; apply elem_of_singleton)
    | by (apply elem_of_union; right) ].

Lemma tracked_known k st : tracked st → tracked (set_known_tokens ({[ k ]} ∪ known_tokens st) st).
Proof.
  intros (H1 & H2 & H3 & H4 & H5). unfold tracked. simpl.
  split; [known_tac|]. split; [known_tac|]. split; [known_tac|]. split; [known_tac|].
  intros t Ht. destruct (H5 t Ht) as [c Hc]. exists c. known_tac.
Qed.

Lemma tracked_seen_ads k st :
  k ∈ known_tokens st → tracked st → tracked (set_seen_ads ({[ k ]} ∪ seen_ads st) st).
Proof.
  intros Hk (H1 & H2 & H3 & H4 & H5). unfold tracked. simpl.
  split; [|by repeat split].
  apply union_least; [by apply singleton_subseteq_l | done].
Qed.

Lemma tracked_seen_profiles k st :
  k ∈ known_tokens st → tracked st →
  tracked (set_seen_profiles ({[ k ]} ∪ seen_profiles st) st).
Proof.
  intros Hk (H1 & H2 & H3 & H4 & H5). unfold tracked. simpl.
  split; [done|]. split; [|by repeat split].
  apply union_least; [by apply singleton_subseteq_l | done].
Qed.

Lemma tracked_headers k v st :
  k ∈ known_tokens st → tracked st →
  tracked (set_profile_headers (<[ k := v ]> (profile_headers st)) st).
Proof.
  intros Hk (H1 & H2 & H3 & H4 & H5). unfold tracked. simpl.
  split; [done|]. split; [done|]. split; [|by split].
  rewrite dom_insert. apply union_least; [by apply singleton_subseteq_l | done].
Qed.

Lemma tracked_socials k v st :
  k ∈ known_tokens st → tracked st →
  tracked (set_profile_socials (<[ k := v ]> (profile_socials st)) st).
Proof.
  intros Hk (H1 & H2 & H3 & H4 & H5). unfold tracked. simpl.
  split; [done|]. split; [done|]. split; [done|]. split; [|done].
  rewrite dom_insert. apply union_least; [by apply singleton_subseteq_l | done].
Qed.

Lemma tracked_seen_boosts c t v st :
  (c, t) ∈ known_tokens st → tracked st →
  tracked (set_seen_boosts (<[ t := v ]> (seen_boosts st)) st).
Proof.
  intros Hk (H1 & H2 & H3 & H4 & H5). unfold tracked. simpl.
  split; [done|]. split; [done|]. split; [done|]. split; [done|].
  intros t'. rewrite dom_insert, elem_of_union, elem_of_singleton.
  intros [->|Ht]; [by exists c | by apply H5].
Qed.

Lemma known_added k st : k ∈ known_tokens (set_known_tokens ({[ k ]} ∪ known_tokens st) st).
Proof. simpl. known_tac. Qed.

Lemma tracked_observe k p st : tracked st → tracked (observe_profile k p st).
Proof.
  intros H. unfold observe_profile.
  pose proof (tracked_known k st H) as H0. pose proof (known_added k st) as Hk.
  destruct (opt_truthy (profile_image p)), (links_truthy (pr_links p)).
  - apply tracked_socials; [done|]. by apply tracked_headers.
  - by apply tracked_headers.
  - by apply tracked_socials.
  - done.
Qed.

Lemma known_observe k p st : k ∈ known_tokens (observe_profile k p st).
Proof.
  unfold observe_profile.
  destruct (opt_truthy (profile_image p)), (links_truthy (pr_links p)); apply known_added.
Qed.

Lemma tracked_process_ad st a : tracked st → tracked (process_ad st a).
Proof.
  intros H.
  destruct (identity (ad_chainId a) (ad_tokenAddress a)) as [[c t]|] eqn:Hid;
    [|by rewrite process_ad_skip].
  destruct (decide ((c, t) ∈ seen_ads st)) as [Hin|Hin].
  - rewrite (process_ad_seen _ _ _ Hid Hin). by apply tracked_known.
  - destruct (process_ad_fires _ _ _ _ Hid Hin) as (info & Hd & _).
    cbv zeta in Hd. apply (tracked_data _ _ Hd).
    apply (tracked_seen_ads (c, t) (set_known_tokens ({[ (c, t) ]} ∪ known_tokens st) st));
      [apply known_added | by apply tracked_known].
Qed.

Lemma tracked_process_profile st p : tracked st → tracked (process_profile st p).
Proof.
  intros H.
  destruct (identity (pr_chainId p) (pr_tokenAddress p)) as [[c t]|] eqn:Hid;
    [|by rewrite process_profile_skip].
  destruct (decide ((c, t) ∈ seen_profiles st)) as [Hin|Hin].
  - rewrite (process_profile_seen _ _ _ Hid Hin). by apply tracked_observe.
  - destruct (process_profile_fires _ _ _ _ Hid Hin) as (info & Hd & _).
    cbv zeta in Hd. apply (tracked_data _ _ Hd).
    rewrite <- (seen_profiles_observe (c, t) p st).
    apply (tracked_seen_profiles (c, t)); [apply known_observe | by apply tracked_observe].
Qed.

Lemma tracked_process_boost st b : tracked st → tracked (process_boost st b).
Proof.
  intros H.
  destruct (identity (bo_chainId b) (bo_tokenAddress b)) as [[c t]|] eqn:Hid;
    [|by rewrite process_boost_skip by auto].
  destruct (bo_totalAmount b) as [total|] eqn:Ht;
    [|by rewrite process_boost_skip by auto].
  destruct (Z.le_gt_cases total (default 0%Z (seen_boosts st !! t))) as [Hle|Hlt].
  - rewrite (process_boost_stale _ _ _ _ _ Hid Ht Hle). by apply tracked_known.
  - destruct (process_boost_fires _ _ _ _ _ Hid Ht Hlt) as (info & Hd & _).
    cbv zeta in Hd. apply (tracked_data _ _ Hd).
    apply (tracked_seen_boosts c t total
             (set_known_tokens ({[ (c, t) ]} ∪ known_tokens st) st));
      [apply known_added | by apply tracked_known].
Qed.

Lemma tracked_orders st st' : orders_frame st' = orders_frame st → tracked st → tracked st'.
Proof.
  unfold orders_frame. intros [= H1 H2 H3 H4 H5 H6 _ _].
  unfold tracked. by rewrite H1, H2, H3, H4, H5, H6.
Qed.

Lemma tracked_initialize_ad st a : tracked st → tracked (initialize_ad st a).
Proof.
  intros (H1 & H2 & H3 & H4 & H5). unfold initialize_ad.
  destruct (identity _ _) as [k|]; [|done].
  unfold tracked. simpl.
  split; [known_tac|]. split; [known_tac|]. split; [known_tac|]. split; [known_tac|].
  intros t Ht. destruct (H5 t Ht) as [c Hc]. exists c. known_tac.
Qed.

Lemma tracked_initialize_profile st p : tracked st → tracked (initialize_profile st p).
Proof.
  intros (H1 & H2 & H3 & H4 & H5). unfold initialize_profile.
  destruct (identity _ _) as [k|]; [|done]. cbv zeta.
  set (st1 := set_known_tokens _ (set_seen_profiles _ st)).
  assert (tracked st1) as Ht1.
  { unfold tracked, st1. simpl.
    split; [known_tac|]. split; [known_tac|]. split; [known_tac|]. split; [known_tac|].
    intros t Ht. destruct (H5 t Ht) as [c Hc]. exists c. known_tac. }
  assert (k ∈ known_tokens st1) as Hk by (unfold st1; simpl; known_tac).
  destruct (opt_truthy (profile_image p)), (links_truthy (pr_links p)).
  - apply tracked_socials; [done|]. by apply tracked_headers.
  - by apply tracked_headers.
  - by apply tracked_socials.
  - done.
Qed.

Lemma tracked_initialize_boost st b : tracked st → tracked (initialize_boost st b).
Proof.
  intros (H1 & H2 & H3 & H4 & H5). unfold initialize_boost.
  destruct (identity _ _) as [[c t]|]; [|done].
  destruct (bo_totalAmount b) as [total|]; [|done].
  destruct (negb _); [|done].
  unfold tracked. simpl.
  split; [known_tac|]. split; [known_tac|]. split; [known_tac|]. split; [known_tac|].
  intros t'. rewrite dom_insert, elem_of_union, elem_of_singleton.
  intros [->|Ht]; [exists c; known_tac|].
  destruct (H5 t' Ht) as [c' Hc]. exists c'. known_tac.
Qed.

Lemma tracked_initialize_order t st o : tracked st → tracked (initialize_order t st o).
Proof.
  unfold initialize_order. cbv zeta. by destruct (negb _).
Qed.

Lemma tracked_initial : tracked initial_state.
Proof.
  unfold tracked. simpl.
  split; [done|]. split; [done|]. split; [by rewrite dom_empty|].
  split; [by rewrite dom_empty|].
  intros t. rewrite dom_empty. by intros ?%elem_of_empty.
Qed.

(** X14: every token that the bot has seen is a token it tracks.  At
    every point of a run, the identity of every ad and of every profile
    marked as seen, and of every cached header image and list of links,
    is in the known-token set, whose orders are checked; and every token
    address with a stored boost total belongs to a known token. *)
Theorem seen_tokens_are_known_tokens n :
  tracked (main n)
  ∧ ∀ st, tracked st → tracked (poll_cycles n (startup st)).
Proof.
  assert (∀ st, tracked st → tracked (poll_cycles n (startup st))) as H.
  { intros st Hst.
    apply (detect_poll_cycles (λ st st', tracked st → tracked st')).
    - auto.
    - intros s s' (Hd & _). by apply tracked_data.
    - apply tracked_process_ad.
    - apply tracked_process_profile.
    - apply tracked_process_boost.
    - intros c t s o. apply tracked_orders, check_order_frame.
    - revert Hst. apply (detect_startup (λ st st', tracked st → tracked st')).
      + auto.
      + intros s s' (Hd & _). by apply tracked_data.
      + apply tracked_initialize_ad.
      + apply tracked_initialize_profile.
      + apply tracked_initialize_boost.
      + apply tracked_initialize_order. }
  split; [|exact H].
  unfold main.
  apply (detect_shutdown (λ st st', tracked st → tracked st'));
    [auto | intros s s' (Hd & _); by apply tracked_data |].
  apply H, tracked_initial.
Qed.

(** ** Feeds that do not change *)

Lemma silent_known k st : silent st (set_known_tokens ({[ k ]} ∪ known_tokens st) st).
Proof. by split. Qed.

Lemma process_ad_marks st a k :
  identity (ad_chainId a) (ad_tokenAddress a) = Some k → k ∈ seen_ads (process_ad st a).
Proof.
  intros Hid. destruct k as [c t].
  destruct (decide ((c, t) ∈ seen_ads st)) as [Hin|Hin].
  - by rewrite (process_ad_seen _ _ _ Hid Hin).
  - destruct (process_ad_fires _ _ _ _ Hid Hin) as (info & Hd & _).
    cbv zeta in Hd. apply data_eq in Hd. destruct Hd as (-> & _). simpl. known_tac.
Qed.

Lemma process_profile_marks st p k :
  identity (pr_chainId p) (pr_tokenAddress p) = Some k →
  k ∈ seen_profiles (process_profile st p).
Proof.
  intros Hid. destruct k as [c t].
  destruct (decide ((c, t) ∈ seen_profiles st)) as [Hin|Hin].
  - by rewrite (process_profile_seen _ _ _ Hid Hin), seen_profiles_observe.
  - destruct (process_profile_fires _ _ _ _ Hid Hin) as (info & Hd & _).
    cbv zeta in Hd. apply data_eq in Hd. destruct Hd as (_ & _ & _ & -> & _).
    simpl. known_tac.
Qed.

(** after a pass over a list, every record of the list is marked *)
Lemma process_ads_mark l st a k :
  a ∈ l → identity (ad_chainId a) (ad_tokenAddress a) = Some k →
  k ∈ seen_ads (fold_left process_ad l st).
Proof.
  revert st. induction l as [|x l IH]; intros st Hin Hid; [by apply elem_of_nil in Hin|].
  apply elem_of_cons in Hin as [->|Hin]; [|by apply IH].
  simpl. apply (seen_ads_grows _ _ (fold_left_sound _ process_ad_sound l _)).
  by apply process_ad_marks.
Qed.

Lemma process_profiles_mark l st p k :
  p ∈ l → identity (pr_chainId p) (pr_tokenAddress p) = Some k →
  k ∈ seen_profiles (fold_left process_profile l st).
Proof.
  revert st. induction l as [|x l IH]; intros st Hin Hid; [by apply elem_of_nil in Hin|].
  apply elem_of_cons in Hin as [->|Hin]; [|by apply IH].
  simpl. apply (seen_profiles_grows _ _ (fold_left_sound _ process_profile_sound l _)).
  by apply process_profile_marks.
Qed.

(** a pass over records that are all marked is silent *)
Lemma process_ads_marked l st :
  (∀ a k, a ∈ l → identity (ad_chainId a) (ad_tokenAddress a) = Some k → k ∈ seen_ads st) →
  silent st (fold_left process_ad l st).
Proof.
  revert st. induction l as [|x l IH]; intros st H; [apply silent_refl|]. simpl.
  assert (silent st (process_ad st x) ∧ seen_ads (process_ad st x) = seen_ads st)
    as [Hs Hseen].
  { destruct (identity (ad_chainId x) (ad_tokenAddress x)) as [k|] eqn:Hid;
      [|by rewrite process_ad_skip].
    rewrite (process_ad_seen _ _ k Hid); [done|].
    apply (H x); [apply elem_of_cons; by left | done]. }
  eapply silent_trans; [exact Hs|]. apply IH.
  intros a k Hin Hid. rewrite Hseen. apply (H a); [apply elem_of_cons; by right | done].
Qed.

Lemma process_profiles_marked l st :
  (∀ p k, p ∈ l → identity (pr_chainId p) (pr_tokenAddress p) = Some k →
          k ∈ seen_profiles st) →
  silent st (fold_left process_profile l st).
Proof.
  revert st. induction l as [|x l IH]; intros st H; [apply silent_refl|]. simpl.
  assert (silent st (process_profile st x)
          ∧ seen_profiles (process_profile st x) = seen_profiles st) as [Hs Hseen].
  { destruct (identity (pr_chainId x) (pr_tokenAddress x)) as [k|] eqn:Hid;
      [|by rewrite process_profile_skip].
    rewrite (process_profile_seen _ _ k Hid);
      [|apply (H x); [apply elem_of_cons; by left | done]].
    destruct (observe_profile_silent k x st) as [E1 E2].
    split; [|apply seen_profiles_observe].
    split; [unfold counters; by rewrite E1 | by rewrite E2]. }
  eapply silent_trans; [exact Hs|]. apply IH.
  intros p k Hin Hid. rewrite Hseen. apply (H p); [apply elem_of_cons; by right | done].
Qed.

(** the total of a boost record is at most what is stored after it *)
Lemma process_boost_stores st b c t total :
  observes_boost c t total b →
  (total ≤ default 0 (seen_boosts (process_boost st b) !! t))%Z.
Proof.
  intros Hb. destruct (process_boost_events st b c t total Hb) as (info & _ & Hs).
  cbv zeta in Hs. rewrite Hs.
  destruct (Z.ltb_spec (default 0%Z (seen_boosts st !! t)) total); simpl; lia.
Qed.

Lemma process_boosts_mono l st : boosts_mono st (fold_left process_boost l st).
Proof.
  apply (fold_left_rel boosts_mono);
    [apply boosts_mono_refl | apply boosts_mono_trans | apply process_boost_mono].
Qed.

Lemma process_boosts_store l st b c t total :
  b ∈ l → observes_boost c t total b →
  (total ≤ default 0 (seen_boosts (fold_left process_boost l st) !! t))%Z.
Proof.
  revert st. induction l as [|x l IH]; intros st Hin Hb; [by apply elem_of_nil in Hin|].
  apply elem_of_cons in Hin as [->|Hin]; [|by apply IH].
  simpl. etransitivity; [by apply (process_boost_stores st x c t total)|].
  apply process_boosts_mono.
Qed.

Lemma process_boosts_stored l st :
  (∀ b c t total, b ∈ l → observes_boost c t total b →
                  (total ≤ default 0 (seen_boosts st !! t))%Z) →
  silent st (fold_left process_boost l st).
Proof.
  revert st. induction l as [|x l IH]; intros st H; [apply silent_refl|]. simpl.
  assert (silent st (process_boost st x)
          ∧ seen_boosts (process_boost st x) = seen_boosts st) as [Hs Hseen].
  { destruct (identity (bo_chainId x) (bo_tokenAddress x)) as [[c t]|] eqn:Hid;
      [|by rewrite process_boost_skip by auto].
    destruct (bo_totalAmount x) as [total|] eqn:Ht;
      [|by rewrite process_boost_skip by auto].
    rewrite (process_boost_stale _ _ c t total Hid Ht); [done|].
    apply (H x c t total); [apply elem_of_cons; by left | by split]. }
  eapply silent_trans; [exact Hs|]. apply IH.
  intros b c t total Hin Hb. rewrite Hseen.
  apply (H b c t total); [apply elem_of_cons; by right | done].
Qed.

(** an order is paid before the start, or at most at the time stored
    after it has been checked *)
Lemma check_order_stores c t st o :
  (default 0 (or_paymentTimestamp o) < bot_start_ms)%Z
  ∨ (default 0 (or_paymentTimestamp o)
     ≤ default 0 (seen_orders (check_order c t st o) !! t))%Z.
Proof.
  destruct (check_order_events c t st o) as (info & _ & Hs). cbv zeta in Hs.
  rewrite Hs.
  destruct (Z.leb_spec bot_start_ms (default 0%Z (or_paymentTimestamp o))); [|by left].
  destruct (Z.ltb_spec (default 0%Z (seen_orders st !! t))
              (default 0%Z (or_paymentTimestamp o))); simpl; right; lia.
Qed.

Lemma check_orders_mono c t os st : orders_mono st (fold_left (check_order c t) os st).
Proof.
  apply (fold_left_rel orders_mono);
    [apply orders_mono_refl | apply orders_mono_trans | apply check_order_mono].
Qed.

Lemma check_orders_store c t os st o :
  o ∈ os →
  (default 0 (or_paymentTimestamp o) < bot_start_ms)%Z
  ∨ (default 0 (or_paymentTimestamp o)
     ≤ default 0 (seen_orders (fold_left (check_order c t) os st) !! t))%Z.
Proof.
  revert st. induction os as [|x os IH]; intros st Hin; [by apply elem_of_nil in Hin|].
  apply elem_of_cons in Hin as [->|Hin]; [|by apply IH].
  simpl. destruct (check_order_stores c t st x) as [Hold|Hle]; [by left|].
  right. etransitivity; [exact Hle | apply check_orders_mono].
Qed.

Lemma check_orders_stored c t os st :
  (∀ o, o ∈ os →
        (default 0 (or_paymentTimestamp o) < bot_start_ms)%Z
        ∨ (default 0 (or_paymentTimestamp o) ≤ default 0 (seen_orders st !! t))%Z) →
  fold_left (check_order c t) os st = st.
Proof.
  induction os as [|x os IH]; intros H; [done|]. simpl.
  assert (check_order c t st x = st) as ->.
  { destruct (H x) as [Hold|Hle]; [apply elem_of_cons; by left | |].
    - by apply check_order_old.
    - by apply check_order_known. }
  apply IH. intros o Hin. apply H, elem_of_cons. by right.
Qed.

(** X15: a feed that has not changed raises no event.  Processing the
    same answer of the ads feed once more, right after it has been
    processed, adds no alert and leaves the detection counters as they
    are; likewise for the profiles feed and for the boosts feed, also
    when the feed lists a token several times with different totals.
    Checking the orders of a token once more, right after they have been
    checked, leaves the whole state as it is. *)
Theorem unchanged_feeds_raise_no_event :
  (∀ ads st, silent (process_ads ads st) (process_ads ads (process_ads ads st)))
  ∧ (∀ profiles st,
       silent (process_profiles profiles st)
         (process_profiles profiles (process_profiles profiles st)))
  ∧ (∀ boosts st,
       silent (process_boosts boosts st) (process_boosts boosts (process_boosts boosts st)))
  ∧ (∀ c t os st,
       let st1 := fold_left (check_order c t) os st in
       fold_left (check_order c t) os st1 = st1).
Proof.
  split; [|split; [|split]]; cycle 3.
  { intros c t os st. cbv zeta. apply check_orders_stored.
    intros o Hin. by apply check_orders_store. }
  - intros [[l|b]|] st; simpl; try apply silent_refl.
    apply process_ads_marked. intros a k Hin Hid. by apply (process_ads_mark l st a).
  - intros [[l|b]|] st; simpl; try apply silent_refl.
    apply process_profiles_marked. intros p k Hin Hid.
    by apply (process_profiles_mark l st p).
  - intros [[l|b]|] st; simpl; try apply silent_refl.
    apply process_boosts_stored. intros b c t total Hin Hb.
    by apply (process_boosts_store l st b c).
Qed.

(** ** Alerts without enrichment *)

Lemma fetch_json_fetched {A} url (r : reply A) st : (fetch_json url r st).1 = fetched r.
Proof. unfold fetch_json, fetched. by destruct (fetch_json_try r). Qed.

Lemma get_token_info_empty c t st :
  no_pair (fetched (w_tokens w (clock st) (DEX_TOKENS_URL c t))) = true →
  (get_token_info c t st).1 = None.
Proof.
  intros H. unfold get_token_info.
  pose proof (fetch_json_fetched (DEX_TOKENS_URL c t)
                (w_tokens w (clock st) (DEX_TOKENS_URL c t)) st) as Hf.
  destruct (fetch_json _ _ st) as [v st1]. simpl in Hf. rewrite <- Hf in H.
  by destruct v as [[[|p ps]|b]|].
Qed.

(** X16: an alert is raised also when the enrichment fails.  When the
    tokens endpoint raises, answers with a status other than 200, with a
    null, with something that is not a list or with an empty list, a new
    ad still raises its alert; the lines of the alert show the token as
    "None (None)" and the price and the market capitalisation as
    "N/A". *)
Theorem alert_without_enrichment st a c t :
  identity (ad_chainId a) (ad_tokenAddress a) = Some (c, t) →
  (c, t) ∉ seen_ads st →
  no_pair (fetched (w_tokens w (clock st) (DEX_TOKENS_URL c t))) = true →
  let lines := ad_lines a c t None in
  alerts (trace (process_ad st a)) = alerts (trace st) ++ [("NEW AD", lines)]
  ∧ "Token: None (None)" ∈ lines
  ∧ "Price: $N/A" ∈ lines
  ∧ "Market Cap: $N/A" ∈ lines.
Proof.
  intros Hid Hin Hno. cbv zeta. split.
  - unfold process_ad. rewrite Hid. cbv zeta. rewrite bool_decide_eq_false_2 by done.
    set (st0 := set_stats incr_ads _).
    pose proof (get_token_info_empty c t st0 Hno) as He.
    pose proof (get_token_info_quiet c t st0) as (_ & _ & Ha).
    destruct (get_token_info c t st0) as [info st1]. simpl in He, Ha. subst info.
    destruct (print_alert_spec "NEW AD" (ad_lines a c t None) "📢" st1) as (_ & _ & Hp).
    cbv zeta in Hp.
    change (alerts (trace (print_alert "NEW AD" (ad_lines a c t None) "📢" st1)
                    ++ [Log INFO ("New ad: " +:+ t +:+ " on " +:+ c)])
            = alerts (trace st) ++ [("NEW AD", ad_lines a c t None)]).
    rewrite alerts_app, Hp, Ha. simpl. by rewrite app_nil_r.
  - unfold ad_lines, append_if, price_lines, token_line.
    destruct (opt_truthy (ad_url a)); cbn [app];
      rewrite !elem_of_cons; repeat split; auto 12.
Qed.

End Bot.

(** ** Fetching *)

Lemma fetch_json_cases {A} (url : string) (r : reply A) (st : state) :
  let st1 := tick (emit (HttpGet url) st) in
  match r with
  | Raised _ => fetch_json url r st = (None, set_stats incr_errors st1)
  | Returned response =>
      if (status_code response =? 200)%Z then
        match json response with
        | Raised _ => fetch_json url r st = (None, set_stats incr_errors st1)
        | Returned v => fetch_json url r st = (v, st1)
        end
      else fetch_json url r st = (None, st1)
  end.
Proof.
  unfold fetch_json, fetch_json_try. destruct r as [resp|e]; simpl; [|done].
  destruct (status_code resp =? 200)%Z; simpl; [|done].
  by destruct (json resp).
Qed.

(** C4 (as amended): a transport exception or a body that is not JSON
    makes the fetch return [None] and adds one to the error counter; a
    response with a status other than 200 makes it return [None] and
    leaves the error counter as it is; the fetch returns in every case.
    In a poll cycle a feed that answers HTTP 500 cannot be told from a
    feed that answers an empty list, and likewise for the enrichment. *)
Theorem fetch_failures_yield_none :
  (∀ A url (r : reply A) st,
     let res := fetch_json url r st in
     match r with
     | Raised _ => res.1 = None ∧ errors (stats res.2) = S (errors (stats st))
     | Returned response =>
         if (status_code response =? 200)%Z then
           match json response with
           | Raised _ => res.1 = None ∧ errors (stats res.2) = S (errors (stats st))
           | Returned v => res.1 = v ∧ errors (stats res.2) = errors (stats st)
           end
         else res.1 = None ∧ errors (stats res.2) = errors (stats st)
     end)
  ∧ (∀ w tok chat start strftime order st,
       (∀ body,
          poll_cycle (with_ads w (λ _, http_500 body)) tok chat start strftime order st
          = poll_cycle (with_ads w (λ _, http_ok (Records []))) tok chat start strftime order st)
       ∧ (∀ body,
            poll_cycle (with_profiles w (λ _, http_500 body)) tok chat start strftime order st
            = poll_cycle (with_profiles w (λ _, http_ok (Records [])))
                tok chat start strftime order st)
       ∧ (∀ body,
            poll_cycle (with_boosts w (λ _, http_500 body)) tok chat start strftime order st
            = poll_cycle (with_boosts w (λ _, http_ok (Records [])))
                tok chat start strftime order st)
       ∧ (∀ body c t,
            get_token_info (with_tokens w (λ _ _, http_500 body)) c t st
            = get_token_info (with_tokens w (λ _ _, http_ok (Records []))) c t st)).
Proof.
  split.
  - intros A url r st. pose proof (fetch_json_cases url r st) as H. cbv zeta in *.
    destruct r as [resp|e]; [|by rewrite H].
    destruct (status_code resp =? 200)%Z; [|by rewrite H].
    destruct (json resp); by rewrite H.
  - intros w tok chat start strftime order st.
    split; [|split; [|split]]; intros; reflexivity.
Qed.

(** ** Number formatting *)

Section Formatting.
Local Open Scope Z_scope.

Lemma round_half_even_nearest n d : 0 < d → nearest (round_half_even n d) n d.
Proof.
intros Hd. unfold nearest, round_half_even.
pose proof (Z.div_mod n d ltac:(lia)) as Hdm.
pose proof (Z.mod_pos_bound n d Hd) as Hb.
set (q := n / d) in *. set (r := n mod d) in *.
destruct (Z.ltb_spec (2 * r) d); [nia|].
destruct (Z.ltb_spec d (2 * r)); [nia|].
destruct (Z.even q); nia.
Qed.

Lemma round_half_even_nonneg n d : 0 < d → 0 ≤ n → 0 ≤ round_half_even n d.
Proof.
intros Hd Hn. unfold round_half_even.
pose proof (Z.div_pos n d Hn Hd).
repeat case_match; lia.
Qed.

Lemma scaled_exact_pos k m e : 0 ≤ (scaled_exact k m e).1 ∧ 0 < (scaled_exact k m e).2.
Proof.
unfold scaled_exact. destruct (Z.leb_spec 0 e); simpl.
- split; [|lia].
  apply Z.mul_nonneg_nonneg; [apply Z.mul_nonneg_nonneg|]; try lia;
    apply Z.pow_nonneg; lia.
- split; [apply Z.mul_nonneg_nonneg; [lia | apply Z.pow_nonneg; lia]|].
  apply Z.pow_pos_nonneg; lia.
Qed.

Lemma scaled_decimal_nearest k m e :
nearest (scaled_decimal k m e) (scaled_exact k m e).1 (scaled_exact k m e).2.
Proof.
unfold scaled_decimal. destruct (scaled_exact_pos k m e) as [_ Hd].
destruct (scaled_exact k m e) as [num den]. by apply round_half_even_nearest.
Qed.

Lemma scaled_decimal_nonneg k m e : 0 ≤ scaled_decimal k m e.
Proof.
unfold scaled_decimal. destruct (scaled_exact_pos k m e) as [Hn Hd].
destruct (scaled_exact k m e) as [num den]. by apply round_half_even_nonneg.
Qed.

Lemma digit_char_digit d : 0 ≤ d < 10 → PyStr.is_digit (digit_char d) = true.
Proof.
intros H.
assert (d = 0 ∨ d = 1 ∨ d = 2 ∨ d = 3 ∨ d = 4 ∨ d = 5 ∨ d = 6 ∨ d = 7 ∨ d = 8 ∨ d = 9)
  as Hd by lia.
repeat (destruct Hd as [->|Hd]; [reflexivity|]). by subst.
Qed.

Lemma last_digits_length k n acc :
String.length (last_digits k n acc) = (k + String.length acc)%nat.
Proof.
revert n acc. induction k as [|k IH]; intros n acc; simpl; [done|].
rewrite IH. simpl. lia.
Qed.

Lemma last_digits_digits k n acc :
PyStr.forallb PyStr.is_digit acc = true →
PyStr.forallb PyStr.is_digit (last_digits k n acc) = true.
Proof.
revert n acc. induction k as [|k IH]; intros n acc Hacc; simpl; [done|].
apply IH. simpl. rewrite Hacc, digit_char_digit; [done|].
apply Z.mod_pos_bound. lia.
Qed.

End Formatting.

Lemma pretty_N_char_digit x : PyStr.is_digit (pretty_N_char x) = true.
Proof. unfold pretty_N_char. by repeat case_match. Qed.

Lemma pretty_N_go_digits x s :
  PyStr.forallb PyStr.is_digit s = true →
  PyStr.forallb PyStr.is_digit (pretty_N_go x s) = true.
Proof.
  revert s. induction (N.lt_wf_0 x) as [x _ IH]; intros s Hs.
  destruct (decide (x = 0)%N) as [->|Hx]; [by rewrite pretty_N_go_0|].
  rewrite pretty_N_go_step by lia. apply IH.
  - apply N.div_lt; lia.
  - simpl. by rewrite pretty_N_char_digit, Hs.
Qed.

Lemma pretty_N_go_nonempty x s :
  PyStr.nonempty s = true → PyStr.nonempty (pretty_N_go x s) = true.
Proof.
  revert s. induction (N.lt_wf_0 x) as [x _ IH]; intros s Hs.
  destruct (decide (x = 0)%N) as [->|Hx]; [by rewrite pretty_N_go_0|].
  rewrite pretty_N_go_step by lia. apply IH; [apply N.div_lt; lia | done].
Qed.

Lemma int_digits_digits n : PyStr.forallb PyStr.is_digit (int_digits n) = true.
Proof.
  unfold int_digits, pretty, pretty_N. case_decide; [done|].
  by apply pretty_N_go_digits.
Qed.

Lemma int_digits_nonempty n : PyStr.nonempty (int_digits n) = true.
Proof.
  unfold int_digits, pretty, pretty_N. case_decide; [done|].
  rewrite pretty_N_go_step by lia. by apply pretty_N_go_nonempty.
Qed.

(** *** Grouping *)

Lemma grouped_bound k s : grouped k s → (1 ≤ k ≤ 3)%nat.
Proof. induction 1; lia. Qed.

Lemma group_go_grouped s :
  PyStr.forallb PyStr.is_digit s = true → PyStr.nonempty s = true →
  grouped (group_go s).2 (group_go s).1.
Proof.
  induction s as [|c s IH]; [done|]. simpl. intros Hd _.
  apply andb_true_iff in Hd as [Hc Hs].
  destruct s as [|c' s'].
  - simpl. by apply grouped_one.
  - specialize (IH Hs eq_refl). destruct (group_go (String c' s')) as [r k].
    simpl in IH. pose proof (grouped_bound _ _ IH).
    destruct (Nat.eqb_spec k 3) as [->|Hk]; simpl.
    + by apply grouped_comma.
    + apply grouped_digit; [done | lia | done].
Qed.

Lemma prefix_empty s : String.prefix "" s = true.
Proof. by destruct s. Qed.

Lemma replace_go_cons_other old new c s :
  String.prefix old (String c s) = false →
  PyStr.replace_go old new 0 (String c s) = String c (PyStr.replace_go old new 0 s).
Proof.
  intros H.
  change (PyStr.replace_go old new 0 (String c s))
    with (if String.prefix old (String c s)
          then new +:+ PyStr.replace_go old new (String.length old - 1) s
          else String c (PyStr.replace_go old new 0 s)).
  by rewrite H.
Qed.

Lemma prefix_comma c s : String.prefix "," (String c s) = Ascii.eqb "," c.
Proof.
  change (String.prefix "," (String c s))
    with (match ascii_dec "," c with
          | left _ => String.prefix "" s
          | right _ => false
          end).
  destruct (ascii_dec "," c) as [<-|Hne].
  - by rewrite prefix_empty.
  - symmetry. by apply Ascii.eqb_neq.
Qed.

Lemma ungroup s :
  PyStr.forallb PyStr.is_digit s = true →
  PyStr.replace (group3 s) "," "" = s.
Proof.
  unfold PyStr.replace, group3.
  induction s as [|c s IH]; [done|]. simpl. intros Hd.
  apply andb_true_iff in Hd as [Hc Hs]. specialize (IH Hs).
  assert (Ascii.eqb "," c = false) as Hcc.
  { apply Ascii.eqb_neq. intros <-. done. }
  destruct (group_go s) as [r k]. simpl in IH.
  destruct (k =? 3)%nat; simpl fst.
  - rewrite replace_go_cons_other by by rewrite prefix_comma.
    f_equal. change (PyStr.replace_go "," "" 0 (String "," r))
      with (if String.prefix "," (String "," r)
            then "" +:+ PyStr.replace_go "," "" 0 r
            else String "," (PyStr.replace_go "," "" 0 r)).
    rewrite prefix_comma. simpl. exact IH.
  - rewrite replace_go_cons_other by by rewrite prefix_comma.
    by f_equal.
Qed.

(** *** Trimming *)

Lemma rstrip_by_app p a b :
  PyStr.rstrip_by p (a +:+ b)
  = if PyStr.nonempty (PyStr.rstrip_by p b) then a +:+ PyStr.rstrip_by p b
    else PyStr.rstrip_by p a.
Proof.
  induction a as [|c a IH].
  - change ("" +:+ b) with b. by destruct (PyStr.rstrip_by p b).
  - change (String c a +:+ b) with (String c (a +:+ b)).
    change (PyStr.rstrip_by p (String c (a +:+ b)))
      with (match PyStr.rstrip_by p (a +:+ b) with
            | EmptyString => if p c then EmptyString else String c EmptyString
            | r => String c r
            end).
    rewrite IH. destruct (PyStr.rstrip_by p b) as [|x r] eqn:Hb;
      cbn [PyStr.nonempty].
    + reflexivity.
    + destruct (a +:+ String x r) eqn:E; [destruct a; discriminate|].
      change (String c a +:+ String x r) with (String c (a +:+ String x r)).
      by rewrite E.
Qed.

Lemma rstrip_by_none p s :
  PyStr.forallb (λ c, negb (p c)) s = true → PyStr.rstrip_by p s = s.
Proof.
  induction s as [|c s IH]; [done|]. simpl. intros H.
  apply andb_true_iff in H as [Hc Hs]. rewrite (IH Hs).
  destruct s; [|done]. by destruct (p c).
Qed.

(** what is stripped is made of stripped characters, and what is left
    does not end with one *)
Lemma rstrip_by_split p s :
  ∃ z, s = PyStr.rstrip_by p s +:+ z ∧ PyStr.forallb p z = true
       ∧ PyStr.ends_with p (PyStr.rstrip_by p s) = false.
Proof.
  induction s as [|c s (z & Hs & Hz & He)]; [by exists ""|].
  simpl. destruct (PyStr.rstrip_by p s) as [|x r] eqn:Hr.
  - destruct (p c) eqn:Hc.
    + exists (String c z). simpl in *. rewrite Hc, Hz. by rewrite Hs at 1.
    + exists z. simpl in *. rewrite Hc. by rewrite Hs at 1.
  - exists z. split; [|split; [done|]].
    + change (String c (String x r) +:+ z) with (String c (String x r +:+ z)).
      by rewrite <- Hs.
    + exact He.
Qed.

Lemma forallb_impl (p q : ascii → bool) s :
  (∀ c, p c = true → q c = true) → PyStr.forallb p s = true → PyStr.forallb q s = true.
Proof.
  intros Hpq. induction s as [|c s IH]; [done|]. simpl. intros H.
  apply andb_true_iff in H as [Hc Hs]. by rewrite (Hpq _ Hc), IH.
Qed.

Lemma forallb_app p a b :
  PyStr.forallb p (a +:+ b) = PyStr.forallb p a && PyStr.forallb p b.
Proof.
  induction a as [|c a IH]; [done|].
  change (String c a +:+ b) with (String c (a +:+ b)). simpl.
  by rewrite IH, andb_assoc.
Qed.

Lemma length_append a b : String.length (a +:+ b) = (String.length a + String.length b)%nat.
Proof.
  induction a as [|c a IH]; [done|].
  change (String c a +:+ b) with (String c (a +:+ b)). simpl. by rewrite IH.
Qed.

Lemma append_nil_r a : a +:+ "" = a.
Proof.
  induction a as [|c a IH]; [done|].
  change (String c a +:+ "") with (String c (a +:+ "")). by rewrite IH.
Qed.

Lemma digit_not_dot s :
  PyStr.forallb PyStr.is_digit s = true →
  PyStr.forallb (λ c, negb (Ascii.eqb "." c)) s = true.
Proof.
  apply forallb_impl. intros c Hc.
  destruct (Ascii.eqb_spec "." c) as [<-|]; done.
Qed.

(** the two renderings of a finite float by [format_price] *)
Lemma format_price_two_decimals m e :
  let n := scaled_decimal 2 m e in
  format_fixed true 2 (FFin false m e)
  = group3 (int_digits (n / 100)) +:+ "." +:+ last_digits 2 n "".
Proof. reflexivity. Qed.

Lemma format_price_trimmed neg m e :
  let n := scaled_decimal 8 m e in
  let ip := sign_str neg +:+ int_digits (n / 10 ^ 8) in
  let frac := PyStr.rstrip_char "0" (last_digits 8 n "") in
  PyStr.rstrip_char "." (PyStr.rstrip_char "0" (format_fixed false 8 (FFin neg m e)))
  = ip +:+ (if PyStr.nonempty frac then "." +:+ frac else "").
Proof.
  cbv zeta. unfold format_fixed, PyStr.rstrip_char.
  change (Z.of_nat 8) with 8%Z.
  set (n := scaled_decimal 8 m e).
  set (F := last_digits 8 n "").
  set (X := sign_str neg +:+ int_digits (n / 10 ^ 8)).
  change (sign_str neg +:+ int_digits (n / 10 ^ 8) +:+ "." +:+ F)
    with (sign_str neg +:+ (int_digits (n / 10 ^ 8) +:+ ("." +:+ F))).
  rewrite <- (append_assoc (sign_str neg)). fold X.
  rewrite <- (append_assoc X "." F).
  assert (PyStr.forallb PyStr.is_digit F = true) as HF
    by by apply last_digits_digits.
  assert (PyStr.forallb (λ c, negb (Ascii.eqb "." c)) X = true) as HX.
  { unfold X. rewrite forallb_app. apply andb_true_iff. split.
    - by destruct neg.
    - apply digit_not_dot, int_digits_digits. }
  destruct (rstrip_by_split (Ascii.eqb "0") F) as (z & HFz & Hz & He).
  set (frac := PyStr.rstrip_by (Ascii.eqb "0") F) in *.
  assert (PyStr.forallb PyStr.is_digit frac = true) as Hfrac.
  { rewrite HFz, forallb_app in HF. by apply andb_true_iff in HF as [? _]. }
  rewrite (rstrip_by_app (Ascii.eqb "0") (X +:+ ".") F). fold frac.
  destruct (PyStr.nonempty frac) eqn:Hne.
  - rewrite (rstrip_by_app (Ascii.eqb ".") (X +:+ ".") frac).
    rewrite (rstrip_by_none (Ascii.eqb ".") frac) by by apply digit_not_dot.
    rewrite Hne. apply append_assoc.
  - rewrite (rstrip_by_app (Ascii.eqb "0") X ".").
    change (PyStr.nonempty (PyStr.rstrip_by (Ascii.eqb "0") ".")) with true.
    cbv iota.
    change (PyStr.rstrip_by (Ascii.eqb "0") ".") with ".".
    rewrite (rstrip_by_app (Ascii.eqb ".") X ".").
    change (PyStr.nonempty (PyStr.rstrip_by (Ascii.eqb ".") ".")) with false.
    cbv iota. rewrite (rstrip_by_none _ X HX). by rewrite append_nil_r.
Qed.

(** C6 (as amended): [format_price] never raises.  An input that
    [float()] rejects gives "N/A".  A finite input of at least 1 gives
    the number rounded to two decimals, its integer part grouped by
    commas, as in 1234.5 -> "1,234.50".  A finite input below 1 gives the
    number rounded to eight decimals with the trailing zeros, and then a
    trailing point, trimmed: 0.000001234 gives "0.00000123".  Infinities
    and NaN give "inf", "-inf" and "nan". *)
Theorem format_price_renders :
  (∀ price,
     match py_float price with
     | Raised _ => format_price price = "N/A"
     | Returned FNan => format_price price = "nan"
     | Returned (FInf neg) => format_price price = sign_str neg +:+ "inf"
     | Returned (FFin neg m e) =>
         if ge_one (FFin neg m e) then
           let n := scaled_decimal 2 m e in
           let ip := group3 (int_digits (n / 100)) in
           let frac := last_digits 2 n "" in
           format_price price = ip +:+ "." +:+ frac
           ∧ (∃ k, grouped k ip)
           ∧ PyStr.replace ip "," "" = int_digits (n / 100)
           ∧ String.length frac = 2
           ∧ PyStr.forallb PyStr.is_digit frac = true
           ∧ nearest n (scaled_exact 2 m e).1 (scaled_exact 2 m e).2
         else
           let n := scaled_decimal 8 m e in
           let ip := sign_str neg +:+ int_digits (n / 10 ^ 8) in
           let frac := PyStr.rstrip_char "0" (last_digits 8 n "") in
           format_price price = ip +:+ (if PyStr.nonempty frac then "." +:+ frac else "")
           ∧ (∃ zeros, last_digits 8 n "" = frac +:+ zeros
                       ∧ PyStr.forallb (Ascii.eqb "0") zeros = true)
           ∧ String.length frac ≤ 8
           ∧ PyStr.forallb PyStr.is_digit frac = true
           ∧ PyStr.ends_with (Ascii.eqb "0") frac = false
           ∧ nearest n (scaled_exact 8 m e).1 (scaled_exact 8 m e).2
     end)
  ∧ py_float (VStr "1234.5") = Returned (FFin false 5429388417957888 (-42))
  ∧ format_price (VFloat (FFin false 5429388417957888 (-42))) = "1,234.50"
  ∧ py_float (VStr "0.000001234") = Returned (FFin false 5827400239861142 (-72))
  ∧ format_price (VFloat (FFin false 5827400239861142 (-72))) = "0.00000123"
  ∧ format_price (VStr "abc") = "N/A"
  ∧ format_price VNone = "N/A".
Proof.
  split; [|by vm_compute].
  intros price. unfold format_price, format_price_try.
  destruct (py_float price) as [[|neg|neg m e]|ex]; [done|by destruct neg| |done].
  unfold bind, try_except.
  destruct (ge_one (FFin neg m e)) eqn:Hge.
  - assert (neg = false) as -> by by destruct neg.
    rewrite format_price_two_decimals. cbv zeta.
    pose proof (int_digits_digits (scaled_decimal 2 m e / 100)) as Hd.
    pose proof (int_digits_nonempty (scaled_decimal 2 m e / 100)) as Hn.
    split; [done|]. split; [|split; [|split; [|split]]].
    + eexists. apply (group_go_grouped _ Hd Hn).
    + by apply ungroup.
    + by rewrite last_digits_length.
    + by apply last_digits_digits.
    + apply scaled_decimal_nearest.
  - rewrite format_price_trimmed. cbv zeta.
    set (n := scaled_decimal 8 m e).
    destruct (rstrip_by_split (Ascii.eqb "0") (last_digits 8 n "")) as (z & HFz & Hz & He).
    pose proof (last_digits_digits 8 n "" eq_refl) as HF.
    pose proof (last_digits_length 8 n "") as HL.
    unfold PyStr.rstrip_char.
    set (frac := PyStr.rstrip_by (Ascii.eqb "0") (last_digits 8 n "")) in *.
    rewrite HFz, forallb_app in HF. apply andb_true_iff in HF as [Hfrac _].
    rewrite HFz, length_append in HL. simpl in HL.
    split; [done|]. split; [by exists z|].
    split; [lia|]. split; [done|]. split; [done|]. apply scaled_decimal_nearest.
Qed.

(** ** The market capitalisation *)

(** X17: [format_market_cap] never raises.  An input that [float()]
    rejects, a NaN and an infinity give "N/A".  A finite input gives its
    integer part, cut towards zero and not rounded, grouped by commas; a
    negative input keeps its sign unless the integer part is 0. *)
Theorem format_market_cap_renders mc :
  match py_float mc with
  | Raised _ | Returned FNan | Returned (FInf _) => format_market_cap mc = "N/A"
  | Returned (FFin neg m e) =>
      let a := (if 0 <=? e then Z.of_N m * 2 ^ e else Z.of_N m / 2 ^ (- e))%Z in
      let ip := group3 (int_digits a) in
      format_market_cap mc = sign_str (neg && (0 <? a)%Z) +:+ ip
      ∧ (∃ k, grouped k ip)
      ∧ PyStr.replace ip "," "" = int_digits a
      ∧ (a * (scaled_exact 0 m e).2 ≤ (scaled_exact 0 m e).1
         < (a + 1) * (scaled_exact 0 m e).2)%Z
  end.
Proof.
  unfold format_market_cap, format_market_cap_try.
  destruct (py_float mc) as [[|neg|neg m e]|ex]; try done.
  cbv zeta. unfold bind, int_of_float, try_except, format_int_grouped.
  set (a := (if 0 <=? e then Z.of_N m * 2 ^ e else Z.of_N m / 2 ^ (- e))%Z).
  assert (0 ≤ a)%Z as Ha.
  { unfold a. destruct (Z.leb_spec 0 e).
    - apply Z.mul_nonneg_nonneg; [lia | apply Z.pow_nonneg; lia].
    - apply Z.div_pos; [lia | apply Z.pow_pos_nonneg; lia]. }
  pose proof (int_digits_digits a) as Hd.
  pose proof (int_digits_nonempty a) as Hn.
  split; [|split; [|split]].
  - destruct neg; simpl.
    + destruct (Z.ltb_spec 0 a).
      * rewrite (proj2 (Z.ltb_lt (- a) 0)) by lia. by rewrite Z.abs_neq, Z.opp_involutive by lia.
      * assert (a = 0%Z) as -> by lia. done.
    + rewrite (proj2 (Z.ltb_ge a 0)) by lia. by rewrite Z.abs_eq.
  - eexists. apply (group_go_grouped _ Hd Hn).
  - by apply ungroup.
  - unfold scaled_exact, a. destruct (Z.leb_spec 0 e); simpl; [lia|].
    assert (0 < 2 ^ (- e))%Z as Hp by (apply Z.pow_pos_nonneg; lia).
    pose proof (Z.div_mod (Z.of_N m) (2 ^ (- e)) ltac:(lia)) as Hdm.
    pose proof (Z.mod_pos_bound (Z.of_N m) (2 ^ (- e)) Hp) as Hb.
    nia.
Qed.

(** ** The event type of an alert *)

(** X18: the event type that [print_alert] reads off the title.  The
    titles of the ad, profile and boost alerts give AD, PROFILE and
    BOOST.  The title of an order alert ends with the order type in
    upper case, and the tests for PROFILE and BOOST come before the test
    for ORDER: an order whose type contains PROFILE (BOOST) is announced
    as a PROFILE (BOOST) alert, any other order as an ORDER alert.  The
    message of a PROFILE alert does not depend on the order type, the
    status and the payment time that were read from the lines. *)
Theorem event_type_is_read_off_the_title :
  event_type_of "NEW AD" = "AD"
  ∧ event_type_of "NEW TOKEN PROFILE" = "PROFILE"
  ∧ event_type_of "NEW BOOST" = "BOOST"
  ∧ (∀ order_type,
       event_type_of ("NEW ORDER - " +:+ order_type)
       = if PyStr.contains "PROFILE" order_type then "PROFILE"
         else if PyStr.contains "BOOST" order_type then "BOOST"
         else "ORDER")
  ∧ (∀ info c t x x',
       x_description x = x_description x' → x_social_links x = x_social_links x' →
       alert_message "PROFILE" info c t x = alert_message "PROFILE" info c t x').
Proof.
  split; [done|]. split; [done|]. split; [done|]. split.
  - intros order_type. unfold event_type_of.
    change (PyStr.contains "PROFILE" ("NEW ORDER - " +:+ order_type))
      with (PyStr.contains "PROFILE" order_type).
    change (PyStr.contains "BOOST" ("NEW ORDER - " +:+ order_type))
      with (PyStr.contains "BOOST" order_type).
    change (PyStr.contains "ORDER" ("NEW ORDER - " +:+ order_type)) with true.
    reflexivity.
  - intros info c t x x' Hd Hs. unfold alert_message. cbv zeta.
    change (String.eqb "PROFILE" "BOOST") with false.
    change (String.eqb "PROFILE" "ORDER") with false.
    change (String.eqb "PROFILE" "AD") with false.
    cbv iota. rewrite Hd, Hs.
    by destruct (extra_truthy x), (extra_truthy x').
Qed.

(** ** What [print_alert] reads back from the console lines *)

Lemma prefix_forallb p old s :
  String.prefix old s = true → PyStr.forallb p s = true → PyStr.forallb p old = true.
Proof.
  revert s. induction old as [|a old IH]; intros s; [done|].
  destruct s as [|b s]; [done|].
  change (String.prefix (String a old) (String b s))
    with (match ascii_dec a b with
          | left _ => String.prefix old s
          | right _ => false
          end).
  destruct (ascii_dec a b) as [<-|]; [|done].
  simpl. intros Hp Hs. apply andb_true_iff in Hs as [Ha Hs']. rewrite Ha. simpl.
  by apply (IH s).
Qed.

Lemma prefix_append old s : String.prefix old (old +:+ s) = true.
Proof.
  induction old as [|a old IH]; [apply prefix_empty|].
  change (String.prefix (String a old) (String a old +:+ s))
    with (match ascii_dec a a with
          | left _ => String.prefix old (old +:+ s)
          | right _ => false
          end).
  by destruct (ascii_dec a a).
Qed.

(** a string without a match is left as it is *)
Lemma replace_go_free p old new s :
  PyStr.forallb p old = false → PyStr.forallb p s = true →
  PyStr.replace_go old new 0 s = s.
Proof.
  intros Hold. induction s as [|c s IH]; [done|]. intros Hs.
  rewrite replace_go_cons_other.
  - simpl in Hs. apply andb_true_iff in Hs as [_ Hs]. by rewrite IH.
  - destruct (String.prefix old (String c s)) eqn:E; [|done].
    by rewrite (prefix_forallb p _ _ E Hs) in Hold.
Qed.

Lemma replace_go_hit old new c s :
  String.prefix old (String c s) = true →
  PyStr.replace_go old new 0 (String c s)
  = new +:+ PyStr.replace_go old new (String.length old - 1) s.
Proof.
  intros H.
  change (PyStr.replace_go old new 0 (String c s))
    with (if String.prefix old (String c s)
          then new +:+ PyStr.replace_go old new (String.length old - 1) s
          else String c (PyStr.replace_go old new 0 s)).
  by rewrite H.
Qed.

Lemma replace_go_skip old new x s :
  PyStr.replace_go old new (String.length x) (x +:+ s) = PyStr.replace_go old new 0 s.
Proof. induction x as [|a x IH]; [done | exact IH]. Qed.

(** a label in front of a value without a match is taken off *)
Lemma replace_label p label s :
  PyStr.nonempty label = true →
  PyStr.forallb p label = false → PyStr.forallb p s = true →
  PyStr.replace (label +:+ s) label "" = s.
Proof.
  intros Hne Hl Hs. destruct label as [|a x]; [done|].
  unfold PyStr.replace.
  change (String a x +:+ s) with (String a (x +:+ s)).
  rewrite replace_go_hit by apply (prefix_append (String a x)).
  change (String.length (String a x) - 1) with (String.length x - 0).
  rewrite Nat.sub_0_r, replace_go_skip.
  change ("" +:+ PyStr.replace_go (String a x) "" 0 s)
    with (PyStr.replace_go (String a x) "" 0 s).
  by apply (replace_go_free p).
Qed.

Lemma lstrip_by_none p s :
  PyStr.forallb (λ c, negb (p c)) s = true → PyStr.lstrip_by p s = s.
Proof.
  destruct s as [|c s]; [done|]. simpl. intros H.
  apply andb_true_iff in H as [Hc _]. by destruct (p c).
Qed.

Lemma strip_free s :
  PyStr.forallb (λ c, negb (PyStr.is_space c)) s = true → PyStr.strip s = s.
Proof.
  intros H. unfold PyStr.strip. rewrite lstrip_by_none by done. by apply rstrip_by_none.
Qed.

Lemma parse_line_chain acc c :
  PyStr.forallb (λ x, negb (PyStr.is_space x)) c = true →
  p_chain_id (parse_line acc ("Chain: " +:+ c)) = c
  ∧ p_token_address (parse_line acc ("Chain: " +:+ c)) = p_token_address acc.
Proof.
  intros H. unfold parse_line.
  change (PyStr.startswith ("Chain: " +:+ c) "Chain:") with true. cbv iota. simpl.
  split; [|done].
  rewrite (replace_label (λ x, negb (PyStr.is_space x))) by done.
  by apply strip_free.
Qed.

Lemma parse_line_address acc t :
  PyStr.forallb (λ x, negb (PyStr.is_space x)) t = true →
  p_chain_id (parse_line acc ("Address: " +:+ t)) = p_chain_id acc
  ∧ p_token_address (parse_line acc ("Address: " +:+ t)) = t.
Proof.
  intros H. unfold parse_line.
  change (PyStr.startswith ("Address: " +:+ t) "Chain:") with false.
  change (PyStr.startswith ("Address: " +:+ t) "Token:") with false.
  change (PyStr.startswith ("Address: " +:+ t) "Address:") with true. cbv iota. simpl.
  split; [done|].
  rewrite (replace_label (λ x, negb (PyStr.is_space x))) by done.
  by apply strip_free.
Qed.

(** a line with another label changes neither the chain nor the address *)
Lemma parse_line_other acc line :
  PyStr.startswith line "Chain:" = false → PyStr.startswith line "Address:" = false →
  p_chain_id (parse_line acc line) = p_chain_id acc
  ∧ p_token_address (parse_line acc line) = p_token_address acc.
Proof.
  intros H1 H2. unfold parse_line. rewrite H1, H2.
  repeat match goal with
         | |- context [if ?c then _ else _] => destruct c
         end; by split.
Qed.

Lemma parse_lines_other lines acc :
  Forall (λ line, PyStr.startswith line "Chain:" = false
                  ∧ PyStr.startswith line "Address:" = false) lines →
  p_chain_id (fold_left parse_line lines acc) = p_chain_id acc
  ∧ p_token_address (fold_left parse_line lines acc) = p_token_address acc.
Proof.
  revert acc. induction lines as [|l ls IH]; intros acc H; [done|].
  apply Forall_cons in H as [[H1 H2] Hls]. simpl.
  destruct (IH (parse_line acc l) Hls) as [-> ->].
  by apply parse_line_other.
Qed.

(** the lines of every alert: a first line, the chain, the token, the
    address, and lines with other labels *)
Lemma parse_lines_key first c token t rest :
  PyStr.forallb (λ x, negb (PyStr.is_space x)) c = true →
  PyStr.forallb (λ x, negb (PyStr.is_space x)) t = true →
  Forall (λ line, PyStr.startswith line "Chain:" = false
                  ∧ PyStr.startswith line "Address:" = false) (first :: token :: rest) →
  let p := parse_lines (first :: ("Chain: " +:+ c) :: token :: ("Address: " +:+ t) :: rest) in
  p_chain_id p = c ∧ p_token_address p = t.
Proof.
  intros Hc Ht H. apply Forall_cons in H as [[F1 F2] H].
  apply Forall_cons in H as [[T1 T2] Hrest].
  cbv zeta. unfold parse_lines. simpl.
  match goal with
  | |- context [fold_left parse_line rest ?a] =>
      destruct (parse_lines_other rest a Hrest) as [-> ->]
  end.
  match goal with
  | |- context [parse_line ?a ("Address: " +:+ t)] =>
      destruct (parse_line_address a t Ht) as [-> ->]
  end.
  split; [|done].
  match goal with
  | |- context [parse_line ?a token] =>
      destruct (parse_line_other a token T1 T2) as [-> _]
  end.
  match goal with
  | |- context [parse_line ?a ("Chain: " +:+ c)] =>
      by destruct (parse_line_chain a c Hc) as [-> _]
  end.
Qed.

(** X19: the chain and the token address survive the detour through
    the console lines.  For a chain identifier and a token address
    without white space, what [print_alert] reads back from the lines
    of an ad, profile, boost or order alert is this chain and this
    address, whatever the other fields of the record and the enrichment
    are; so the header image it attaches is the one cached for the token
    of the alert. *)
Theorem chain_and_address_are_read_back c t :
  PyStr.forallb (λ x, negb (PyStr.is_space x)) c = true →
  PyStr.forallb (λ x, negb (PyStr.is_space x)) t = true →
  (∀ a info,
     let p := parse_lines (ad_lines a c t info) in
     p_chain_id p = c ∧ p_token_address p = t)
  ∧ (∀ pr info,
       let p := parse_lines (profile_lines pr c t info) in
       p_chain_id p = c ∧ p_token_address p = t)
  ∧ (∀ b total previous info,
       let p := parse_lines (boost_lines b c t total previous info) in
       p_chain_id p = c ∧ p_token_address p = t)
  ∧ (∀ o date_str info,
       let p := parse_lines (order_lines o c t date_str info) in
       p_chain_id p = c ∧ p_token_address p = t)
  ∧ (∀ st lines,
       p_chain_id (parse_lines lines) = c → p_token_address (parse_lines lines) = t →
       cached_header st lines
       = if PyStr.nonempty c && PyStr.nonempty t then profile_headers st !! (c, t) else None).
Proof.
  intros Hc Ht.
  split; [|split; [|split; [|split]]].
  - intros a info. unfold ad_lines, price_lines, token_line, append_if.
    destruct (opt_truthy (ad_url a)); cbn [app];
      apply (parse_lines_key _ c _ t _ Hc Ht); repeat constructor.
  - intros pr info. unfold profile_lines, price_lines, token_line, append_if.
    destruct (opt_truthy (pr_description pr)), (opt_truthy (pr_url pr)); cbn [app];
      apply (parse_lines_key _ c _ t _ Hc Ht); repeat constructor.
  - intros b total previous info. unfold boost_lines, price_lines, token_line, append_if.
    destruct (0 <? previous)%Z; cbn [app];
      apply (parse_lines_key _ c _ t _ Hc Ht); repeat constructor.
  - intros o date_str info. unfold order_lines, price_lines, token_line. cbn [app].
    apply (parse_lines_key _ c _ t _ Hc Ht); repeat constructor.
  - intros st lines H1 H2. unfold cached_header. cbv zeta. by rewrite H1, H2.
Qed.

(** ** A grouped price is not a number *)

Lemma contains_comma_cons c s :
  PyStr.contains "," (String c s) = Ascii.eqb "," c || PyStr.contains "," s.
Proof.
  change (PyStr.contains "," (String c s))
    with (String.prefix "," (String c s) || PyStr.contains "," s).
  by rewrite prefix_comma.
Qed.

Lemma contains_comma_app a b :
  PyStr.contains "," (a +:+ b) = PyStr.contains "," a || PyStr.contains "," b.
Proof.
  induction a as [|c a IH]; [done|].
  change (String c a +:+ b) with (String c (a +:+ b)).
  by rewrite !contains_comma_cons, IH, orb_assoc.
Qed.

Lemma contains_comma_none p s :
  p ","%char = false → PyStr.forallb p s = true → PyStr.contains "," s = false.
Proof.
  intros Hp. induction s as [|c s IH]; [done|]. intros H. simpl in H.
  apply andb_true_iff in H as [Hc Hs]. rewrite contains_comma_cons, (IH Hs).
  destruct (Ascii.eqb_spec "," c) as [<-|]; [congruence | done].
Qed.

Lemma lstrip_by_comma p s :
  p ","%char = false → PyStr.contains "," (PyStr.lstrip_by p s) = PyStr.contains "," s.
Proof.
  intros Hp. induction s as [|c s IH]; [done|]. cbn [PyStr.lstrip_by].
  destruct (p c) eqn:Hc; [|done].
  rewrite IH, contains_comma_cons.
  destruct (Ascii.eqb_spec "," c) as [<-|]; [congruence | done].
Qed.

Lemma rstrip_by_comma p s :
  p ","%char = false → PyStr.contains "," (PyStr.rstrip_by p s) = PyStr.contains "," s.
Proof.
  intros Hp. destruct (rstrip_by_split p s) as (z & Hs & Hz & _).
  rewrite Hs at 2. rewrite contains_comma_app, (contains_comma_none p z Hp Hz).
  by rewrite orb_false_r.
Qed.

Lemma strip_comma s : PyStr.contains "," (PyStr.strip s) = PyStr.contains "," s.
Proof. unfold PyStr.strip. by rewrite rstrip_by_comma, lstrip_by_comma. Qed.

Lemma read_sign_comma s : PyStr.contains "," (read_sign s).2 = PyStr.contains "," s.
Proof.
  destruct s as [|c s]; [done|].
  destruct c as [[] [] [] [] [] [] [] []]; reflexivity.
Qed.

Lemma to_lower_comma c : Ascii.eqb "," (PyStr.to_lower c) = Ascii.eqb "," c.
Proof. destruct c as [[] [] [] [] [] [] [] []]; reflexivity. Qed.

Lemma lower_comma s : PyStr.contains "," (PyStr.lower s) = PyStr.contains "," s.
Proof.
  induction s as [|c s IH]; [done|].
  change (PyStr.lower (String c s)) with (String (PyStr.to_lower c) (PyStr.lower s)).
  by rewrite !contains_comma_cons, IH, to_lower_comma.
Qed.

Lemma digit_not_comma c : PyStr.is_digit c = true → Ascii.eqb "," c = false.
Proof. intros H. destruct (Ascii.eqb_spec "," c) as [<-|]; done. Qed.

Lemma underscore_not_comma c : is_underscore c = true → Ascii.eqb "," c = false.
Proof.
  unfold is_underscore. intros H. apply Ascii.eqb_eq in H as ->. reflexivity.
Qed.

(** the digits that are read hold no comma: what is left holds a comma
    exactly when the whole does *)
Lemma digits_tail_comma s :
  PyStr.contains "," (digits_tail s).2 = PyStr.contains "," s.
Proof.
  assert (PyStr.contains "," (digits_tail s).2 = PyStr.contains "," s
          ∧ ∀ c, PyStr.contains "," (digits_tail (String c s)).2
                 = PyStr.contains "," (String c s)) as [H _]; [|exact H].
  induction s as [|d s [IH1 IH2]].
  - split; [done|]. intros c.
    change (digits_tail (String c ""))
      with (if PyStr.is_digit c then ([digit_val c], "")
            else if is_underscore c then ([], String c "") else ([], String c "")).
    destruct (PyStr.is_digit c) eqn:Hd; [|by destruct (is_underscore c)].
    cbn [snd]. by rewrite contains_comma_cons, (digit_not_comma _ Hd).
  - split; [apply IH2|]. intros c.
    change (digits_tail (String c (String d s)))
      with (if PyStr.is_digit c then
              let '(ds, r) := digits_tail (String d s) in (digit_val c :: ds, r)
            else if is_underscore c then
              if PyStr.is_digit d then
                let '(ds, r) := digits_tail s in (digit_val d :: ds, r)
              else ([], String c (String d s))
            else ([], String c (String d s))).
    destruct (PyStr.is_digit c) eqn:Hc.
    + specialize (IH2 d). destruct (digits_tail (String d s)) as [ds r]. cbn [snd] in *.
      by rewrite IH2, (contains_comma_cons c), (digit_not_comma _ Hc).
    + destruct (is_underscore c) eqn:Hu; [|done].
      destruct (PyStr.is_digit d) eqn:Hd; [|done].
      destruct (digits_tail s) as [ds r]. cbn [snd] in *.
      by rewrite IH1, !contains_comma_cons, (underscore_not_comma _ Hu),
           (digit_not_comma _ Hd).
Qed.

Lemma digitpart_comma s ds r :
  digitpart s = Some (ds, r) → PyStr.contains "," r = PyStr.contains "," s.
Proof.
  unfold digitpart. destruct s as [|c s]; [done|].
  destruct (PyStr.is_digit c) eqn:Hc; [|done].
  pose proof (digits_tail_comma s) as H. destruct (digits_tail s) as [ds' r'].
  intros [= <- <-]. cbn [snd] in H.
  by rewrite H, contains_comma_cons, (digit_not_comma _ Hc).
Qed.

Lemma read_mantissa_comma s ds scale r :
  read_mantissa s = Some (ds, scale, r) → PyStr.contains "," r = PyStr.contains "," s.
Proof.
  unfold read_mantissa. destruct (digitpart s) as [[ip r0]|] eqn:E1.
  - apply digitpart_comma in E1. destruct r0 as [|c r1]; [by intros [= <- <- <-]|].
    destruct (Ascii.eqb_spec c ".") as [->|Hne].
    + destruct (digitpart r1) as [[fp r']|] eqn:E2; intros [= <- <- <-].
      * apply digitpart_comma in E2. by rewrite E2, <- E1.
      * by rewrite <- E1.
    + destruct c as [[] [] [] [] [] [] [] []]; try done; by intros [= <- <- <-].
  - destruct s as [|c r1]; [done|].
    destruct (Ascii.eqb_spec c ".") as [->|Hne].
    + destruct (digitpart r1) as [[fp r']|] eqn:E2; [|done]. intros [= <- <- <-].
      apply digitpart_comma in E2. by rewrite E2.
    + destruct c as [[] [] [] [] [] [] [] []]; done.
Qed.

Lemma read_exponent_comma r ex : read_exponent r = Some ex → PyStr.contains "," r = false.
Proof.
  unfold read_exponent. destruct r as [|c s]; [done|].
  destruct (Ascii.eqb c "e" || Ascii.eqb c "E") eqn:E; [|done].
  pose proof (read_sign_comma s) as Hs. destruct (read_sign s) as [neg s1]. cbn [snd] in Hs.
  destruct (digitpart s1) as [[ds r']|] eqn:Ed; [|done].
  destruct r'; [|done]. intros _.
  apply digitpart_comma in Ed. rewrite contains_comma_cons, <- Hs, <- Ed.
  apply orb_true_iff in E as [E|E]; apply Ascii.eqb_eq in E as ->; reflexivity.
Qed.

(** [float()] accepts no string with a comma *)
Lemma float_of_string_comma s :
  PyStr.contains "," s = true → float_of_string s = Raised ValueError.
Proof.
  intros H. unfold float_of_string.
  pose proof (read_sign_comma (PyStr.strip s)) as Hb.
  destruct (read_sign (PyStr.strip s)) as [neg body]. cbn [snd] in Hb.
  rewrite strip_comma, H in Hb.
  pose proof (lower_comma body) as Hw. rewrite Hb in Hw.
  destruct (String.eqb_spec (PyStr.lower body) "inf") as [E|_];
    [by rewrite E in Hw|].
  destruct (String.eqb_spec (PyStr.lower body) "infinity") as [E|_];
    [by rewrite E in Hw|].
  destruct (String.eqb_spec (PyStr.lower body) "nan") as [E|_];
    [by rewrite E in Hw|].
  cbn [orb].
  destruct (read_mantissa body) as [[[ds scale] r]|] eqn:Em; [|done].
  apply read_mantissa_comma in Em. rewrite Hb in Em.
  destruct (read_exponent r) as [ex|] eqn:Ee; [|done].
  apply read_exponent_comma in Ee. congruence.
Qed.

(** *** A price of 1000 or more is rendered with a comma *)

Lemma pretty_N_go_length x s :
  String.length s ≤ String.length (pretty_N_go x s).
Proof.
  revert s. induction (N.lt_wf_0 x) as [x _ IH]; intros s.
  destruct (decide (x = 0)%N) as [->|Hx]; [by rewrite pretty_N_go_0|].
  rewrite pretty_N_go_step by lia.
  etransitivity; [|apply IH; apply N.div_lt; lia]. simpl. lia.
Qed.

Lemma int_digits_length n : (1000 ≤ n)%Z → 4 ≤ String.length (int_digits n).
Proof.
  intros H. unfold int_digits, pretty, pretty_N.
  set (x := Z.to_N n). assert (1000 ≤ x)%N as Hx by lia. clearbody x.
  case_decide; [lia|].
  assert (10 ≤ x `div` 10)%N as H1 by (apply N.div_le_lower_bound; lia).
  assert (1 ≤ (x `div` 10) `div` 10)%N as H2 by (apply N.div_le_lower_bound; lia).
  assert (100 ≤ x `div` 10)%N as H3 by (apply N.div_le_lower_bound; lia).
  assert (10 ≤ (x `div` 10) `div` 10)%N as H4 by (apply N.div_le_lower_bound; lia).
  assert (1 ≤ ((x `div` 10) `div` 10) `div` 10)%N as H5 by (apply N.div_le_lower_bound; lia).
  rewrite pretty_N_go_step by lia.
  rewrite pretty_N_go_step by lia.
  rewrite pretty_N_go_step by lia.
  rewrite pretty_N_go_step by lia.
  etransitivity; [|apply pretty_N_go_length]. simpl. lia.
Qed.

Lemma group_go_length s : String.length s ≤ String.length (group_go s).1.
Proof.
  induction s as [|c s IH]; [done|]. simpl.
  destruct (group_go s) as [r k]. simpl in IH.
  destruct (k =? 3)%nat; simpl; lia.
Qed.

Lemma grouped_no_comma k s :
  grouped k s → PyStr.contains "," s = false → String.length s = k.
Proof.
  induction 1 as [d Hd|k d s Hg IH Hk Hd|d s Hg IH Hd]; intros Hc.
  - done.
  - rewrite contains_comma_cons in Hc. apply orb_false_iff in Hc as [_ Hc].
    simpl. by rewrite IH.
  - rewrite !contains_comma_cons in Hc. apply orb_false_iff in Hc as [_ Hc].
    by apply orb_false_iff in Hc as [Hc _].
Qed.

Lemma group3_comma s :
  PyStr.forallb PyStr.is_digit s = true → 4 ≤ String.length s →
  PyStr.contains "," (group3 s) = true.
Proof.
  intros Hd Hl.
  assert (PyStr.nonempty s = true) as Hn by (destruct s; [simpl in Hl; lia | done]).
  pose proof (group_go_grouped s Hd Hn) as Hg.
  pose proof (grouped_bound _ _ Hg) as Hb.
  pose proof (group_go_length s) as Hlen.
  unfold group3. destruct (PyStr.contains "," (group_go s).1) eqn:E; [done|].
  pose proof (grouped_no_comma _ _ Hg E). lia.
Qed.

(** the characters of a price of 1 or more: digits, commas and a point *)
Lemma grouped_chars k s :
  grouped k s →
  PyStr.forallb (λ c, PyStr.is_digit c || Ascii.eqb "," c || Ascii.eqb "." c) s = true.
Proof.
  induction 1 as [d Hd|k d s Hg IH Hk Hd|d s Hg IH Hd]; simpl;
    by rewrite ?Hd, ?IH.
Qed.

Lemma parse_line_price acc s :
  PyStr.forallb (λ c, PyStr.is_digit c || Ascii.eqb "," c || Ascii.eqb "." c) s = true →
  tg_price_usd (p_info (parse_line acc ("Price: $" +:+ s))) = Some s.
Proof.
  intros H. unfold parse_line.
  change (PyStr.startswith ("Price: $" +:+ s) "Chain:") with false.
  change (PyStr.startswith ("Price: $" +:+ s) "Token:") with false.
  change (PyStr.startswith ("Price: $" +:+ s) "Address:") with false.
  change (PyStr.startswith ("Price: $" +:+ s) "Price:") with true.
  cbv iota. simpl. f_equal.
  set (q := λ c, PyStr.is_digit c || Ascii.eqb "," c || Ascii.eqb "." c) in H.
  assert (PyStr.forallb q ("$" +:+ s) = false) as _ by done.
  assert (PyStr.replace ("Price: $" +:+ s) "Price: " "" = String "$" s) as ->.
  { unfold PyStr.replace.
    change ("Price: $" +:+ s) with (String "P" ("rice: " +:+ String "$" s)).
    rewrite replace_go_hit by apply (prefix_append "Price: " (String "$" s)).
    change (String.length "Price: " - 1) with (String.length "rice: ").
    rewrite replace_go_skip.
    change ("" +:+ PyStr.replace_go "Price: " "" 0 (String "$" s))
      with (String "$" (PyStr.replace_go "Price: " "" 0 s)).
    by rewrite (replace_go_free q). }
  assert (PyStr.replace (String "$" s) "$" "" = s) as ->.
  { apply (replace_label q "$" s); done. }
  apply strip_free. revert H. apply forallb_impl.
  intros c. unfold q. destruct c as [[] [] [] [] [] [] [] []]; done.
Qed.

(** X20: a price of 1000 or more reaches Telegram as N/A.
    [float()] rejects every string with a comma, so [format_price] turns
    it into "N/A".  For a finite price that rounds to 1000.00 or more,
    the console rendering holds a comma; [print_alert] reads this
    rendering back from the price line, taking off the label and the
    dollar sign but not the commas, and [format_telegram_alert] formats
    it again: the message shows "N/A" where the console shows the
    price. *)
Theorem grouped_price_is_shown_as_not_available :
  (∀ s, PyStr.contains "," s = true → format_price (VStr s) = "N/A")
  ∧ (∀ m e,
       ge_one (FFin false m e) = true → (100000 ≤ scaled_decimal 2 m e)%Z →
       let shown := format_price (VFloat (FFin false m e)) in
       PyStr.contains "," shown = true
       ∧ (∀ acc, tg_price_usd (p_info (parse_line acc ("Price: $" +:+ shown))) = Some shown)
       ∧ format_price (VStr shown) = "N/A").
Proof.
  assert (∀ s, PyStr.contains "," s = true → format_price (VStr s) = "N/A") as Hna.
  { intros s H. unfold format_price, format_price_try. simpl.
    by rewrite (float_of_string_comma s H). }
  split; [exact Hna|].
  intros m e Hge Hbig. cbv zeta.
  assert (format_price (VFloat (FFin false m e))
          = group3 (int_digits (scaled_decimal 2 m e / 100))
            +:+ "." +:+ last_digits 2 (scaled_decimal 2 m e) "") as ->.
  { unfold format_price, format_price_try. simpl py_float. unfold bind.
    rewrite Hge. apply (format_price_two_decimals m e). }
  set (n := scaled_decimal 2 m e) in *.
  pose proof (int_digits_digits (n / 100)) as Hd.
  pose proof (int_digits_nonempty (n / 100)) as Hn.
  assert (PyStr.contains "," (group3 (int_digits (n / 100))) = true) as Hcomma.
  { apply group3_comma; [done|]. apply int_digits_length.
    apply Z.div_le_lower_bound; lia. }
  assert (PyStr.contains ","
            (group3 (int_digits (n / 100)) +:+ "." +:+ last_digits 2 n "") = true) as Hc
    by by rewrite contains_comma_app, Hcomma.
  split; [exact Hc|]. split; [|by apply Hna].
  intros acc. apply parse_line_price.
  rewrite !forallb_app. apply andb_true_iff. split.
  - apply (grouped_chars _ _ (group_go_grouped _ Hd Hn)).
  - apply andb_true_iff. split; [done|].
    pose proof (last_digits_digits 2 n "" eq_refl) as Hl. revert Hl.
    apply forallb_impl. intros c Hcd. by rewrite Hcd.
Qed.

(** ** The set-up script *)

Lemma env_line_starts chat_id : PyStr.startswith (env_line chat_id) "TELEGRAM_CHAT_ID=" = true.
Proof. apply (prefix_append "TELEGRAM_CHAT_ID="). Qed.

(** X21: what [test_bot.py] writes back to [.env].  As many lines as
    it read; a file without a line for the chat id is written back as it
    was, so the chat id that was found is not recorded at all; and
    running the update again replaces the chat id of the first run: the
    last one wins, and an update with the same chat id changes
    nothing. *)
Theorem env_update_rewrites_existing_lines_only :
  (∀ chat_id lines, length (update_env chat_id lines) = length lines)
  ∧ (∀ chat_id lines,
       Forall (λ line, PyStr.startswith line "TELEGRAM_CHAT_ID=" = false) lines →
       update_env chat_id lines = lines)
  ∧ (∀ first second lines,
       update_env second (update_env first lines) = update_env second lines)
  ∧ (∀ chat_id lines line,
       line ∈ update_env chat_id lines →
       line = env_line chat_id ∨ line ∈ lines).
Proof.
  split; [|split; [|split]].
  - intros chat_id lines. unfold update_env. apply length_map.
  - intros chat_id lines H. unfold update_env.
    induction H as [|l ls Hl _ IH]; [done|]. simpl. by rewrite Hl, IH.
  - intros first second lines. unfold update_env. rewrite List.map_map.
    apply List.map_ext. intros l.
    destruct (PyStr.startswith l "TELEGRAM_CHAT_ID=") eqn:E.
    + by rewrite env_line_starts.
    + by rewrite E.
  - intros chat_id lines line. unfold update_env.
    induction lines as [|l ls IH]; simpl; [by intros ?%elem_of_nil|].
    rewrite !elem_of_cons. intros [->|H].
    + destruct (PyStr.startswith l "TELEGRAM_CHAT_ID="); auto.
    + destruct (IH H); auto.
Qed.

(** ** The theorems at concrete inputs *)

Lemma known_tokens_registered_and_kept_witness :
  ex_key ∈ known_tokens
             (process_boost ex_world ex_bot_token ex_chat_id initial_state
                (ex_boost (Some 5%Z))).
Proof.
  destruct (known_tokens_registered_and_kept ex_world ex_bot_token ex_chat_id
              ex_start_ms ex_strftime elements) as (_ & _ & H & _).
  apply (H initial_state (ex_boost (Some 5%Z)) ex_key 5%Z); reflexivity.
Defined.

(** a boost record with a chain and a token address but no total amount
    is skipped before its identity is registered *)
Lemma boost_without_total_is_not_registered :
  identity (bo_chainId (ex_boost None)) (bo_tokenAddress (ex_boost None)) = Some ex_key
  ∧ ex_key ∉ known_tokens
               (process_boost ex_world ex_bot_token ex_chat_id initial_state (ex_boost None)).
Proof. split; [reflexivity|]. apply not_elem_of_empty. Qed.

Lemma ad_and_profile_fire_on_first_occurrence_only_witness :
  let st1 := process_ad ex_world ex_bot_token ex_chat_id initial_state ex_ad in
  count_events AD (trace st1) = 1 ∧ ex_key ∈ seen_ads st1
  ∧ trace (process_ad ex_world ex_bot_token ex_chat_id
             (poll_cycles ex_world ex_bot_token ex_chat_id ex_start_ms ex_strftime
                elements 2 st1) ex_ad)
    = trace (poll_cycles ex_world ex_bot_token ex_chat_id ex_start_ms ex_strftime
               elements 2 st1).
Proof.
  destruct (ad_and_profile_fire_on_first_occurrence_only ex_world ex_bot_token ex_chat_id
              ex_start_ms ex_strftime elements) as [H _].
  destruct (H initial_state ex_ad ex_key eq_refl) as (H1 & H2 & H3).
  split; [exact H1|]. split; [exact H2|]. apply (H3 2 ex_ad eq_refl).
Defined.

Lemma profile_cache_last_image_wins_witness :
  profile_headers
    (process_profile ex_world ex_bot_token ex_chat_id initial_state
       (ex_profile (Some "https://img.example/a.png"))) !! ex_key
  = Some "https://img.example/a.png"
  ∧ profile_headers
      (process_profile ex_world ex_bot_token ex_chat_id
         (process_profile ex_world ex_bot_token ex_chat_id initial_state
            (ex_profile (Some "https://img.example/a.png")))
         (ex_profile (Some "https://img.example/b.png"))) !! ex_key
    = Some "https://img.example/b.png".
Proof.
  destruct (profile_cache_last_image_wins ex_world ex_bot_token ex_chat_id) as [_ H].
  apply (H initial_state _ (ex_profile (Some "https://img.example/a.png"))
           (ex_profile (Some "https://img.example/b.png")) ex_key
           "https://img.example/a.png" "https://img.example/b.png");
    [reflexivity | reflexivity | reflexivity | reflexivity | discriminate].
Defined.

(** a profile observed without any image leaves the cached image of an
    earlier observation in place *)
Lemma profile_without_image_keeps_cached_header :
  let st1 := process_profile ex_world ex_bot_token ex_chat_id initial_state
               (ex_profile (Some "https://img.example/a.png")) in
  let st2 := process_profile ex_world ex_bot_token ex_chat_id st1 (ex_profile None) in
  profile_image (ex_profile None) = None
  ∧ profile_headers st2 !! ex_key = Some "https://img.example/a.png"
  ∧ profile_headers st2 !! ex_key ≠ profile_image (ex_profile None).
Proof. by vm_compute. Qed.

Lemma boost_fires_iff_total_increases_witness :
  ∃ i1 i2 i3,
    events BOOST (trace (fold_left (process_boost ex_world ex_bot_token ex_chat_id)
       [ex_boost (Some 5%Z); ex_boost (Some 5%Z); ex_boost (Some 12%Z);
        ex_boost (Some 12%Z); ex_boost (Some 20%Z)] initial_state))
    = [("NEW BOOST", boost_lines (ex_boost (Some 5%Z)) ex_chain ex_token 5 0 i1);
       ("NEW BOOST", boost_lines (ex_boost (Some 12%Z)) ex_chain ex_token 12 5 i2);
       ("NEW BOOST", boost_lines (ex_boost (Some 20%Z)) ex_chain ex_token 20 12 i3)].
Proof.
  destruct (boost_fires_iff_total_increases ex_world ex_bot_token ex_chat_id) as [_ H].
  destruct (H ex_chain ex_token
              (ex_boost (Some 5%Z)) (ex_boost (Some 5%Z)) (ex_boost (Some 12%Z))
              (ex_boost (Some 12%Z)) (ex_boost (Some 20%Z))
              initial_state _ _ _ _
              ltac:(split; reflexivity) ltac:(split; reflexivity)
              ltac:(split; reflexivity) ltac:(split; reflexivity)
              ltac:(split; reflexivity) ltac:(reflexivity)
              ltac:(split; reflexivity) ltac:(split; reflexivity)
              ltac:(split; reflexivity) ltac:(split; reflexivity))
    as (i1 & i2 & i3 & He & _).
  exists i1, i2, i3. exact He.
Defined.

(** the first of the three events, raised against the default 0, has no
    line that reports an increase *)
Lemma boost_first_event_reports_no_delta :
  events BOOST (trace (fold_left (process_boost ex_world ex_bot_token ex_chat_id)
       [ex_boost (Some 5%Z); ex_boost (Some 5%Z); ex_boost (Some 12%Z);
        ex_boost (Some 12%Z); ex_boost (Some 20%Z)] initial_state))
  = [("NEW BOOST",
      ["Type: TOKEN BOOST"; "Chain: solana"; "Token: Example (EXM)";
       "Address: So1TokenAddress111"; "New Boost: 1 (Total: 5)";
       "Price: $1,234.50"; "Market Cap: $1,000,000"]);
     ("NEW BOOST",
      ["Type: TOKEN BOOST"; "Chain: solana"; "Token: Example (EXM)";
       "Address: So1TokenAddress111"; "New Boost: 1 (Total: 12)"; "Previous: 5 (+7)";
       "Price: $1,234.50"; "Market Cap: $1,000,000"]);
     ("NEW BOOST",
      ["Type: TOKEN BOOST"; "Chain: solana"; "Token: Example (EXM)";
       "Address: So1TokenAddress111"; "New Boost: 1 (Total: 20)"; "Previous: 12 (+8)";
       "Price: $1,234.50"; "Market Cap: $1,000,000"])]
  ∧ ¬ each_reports_delta (events BOOST (trace (fold_left (process_boost ex_world ex_bot_token ex_chat_id)
       [ex_boost (Some 5%Z); ex_boost (Some 5%Z); ex_boost (Some 12%Z);
        ex_boost (Some 12%Z); ex_boost (Some 20%Z)] initial_state))).
Proof.
  assert (events BOOST (trace (fold_left (process_boost ex_world ex_bot_token ex_chat_id)
       [ex_boost (Some 5%Z); ex_boost (Some 5%Z); ex_boost (Some 12%Z);
        ex_boost (Some 12%Z); ex_boost (Some 20%Z)] initial_state))
          = [("NEW BOOST",
              ["Type: TOKEN BOOST"; "Chain: solana"; "Token: Example (EXM)";
               "Address: So1TokenAddress111"; "New Boost: 1 (Total: 5)";
               "Price: $1,234.50"; "Market Cap: $1,000,000"]);
             ("NEW BOOST",
              ["Type: TOKEN BOOST"; "Chain: solana"; "Token: Example (EXM)";
               "Address: So1TokenAddress111"; "New Boost: 1 (Total: 12)";
               "Previous: 5 (+7)"; "Price: $1,234.50"; "Market Cap: $1,000,000"]);
             ("NEW BOOST",
              ["Type: TOKEN BOOST"; "Chain: solana"; "Token: Example (EXM)";
               "Address: So1TokenAddress111"; "New Boost: 1 (Total: 20)";
               "Previous: 12 (+8)"; "Price: $1,234.50"; "Market Cap: $1,000,000"])])
    as He by (vm_compute; reflexivity).
  split; [exact He|]. rewrite He. unfold each_reports_delta. intros H.
  apply Forall_cons in H as [(line & Hin & Hrep) _]. simpl in Hin.
  rewrite !elem_of_cons, elem_of_nil in Hin.
  destruct Hin as [->|[->|[->|[->|[->|[->|[->|[]]]]]]]]; discriminate Hrep.
Qed.

Lemma order_fires_iff_after_start_and_newer_witness :
  let check := check_order ex_world ex_bot_token ex_chat_id ex_start_ms ex_strftime
                 ex_chain ex_token in
  let s1 := check initial_state (ex_order ex_T1) in
  seen_orders s1 !! ex_token = Some ex_T1
  ∧ seen_orders (check s1 (ex_order ex_T2)) !! ex_token = Some ex_T2
  ∧ count_events ORDER (trace (check s1 (ex_order ex_T2)))
    = count_events ORDER (trace initial_state) + 2.
Proof.
  destruct (order_fires_iff_after_start_and_newer ex_world ex_bot_token ex_chat_id
              ex_start_ms ex_strftime) as (_ & _ & H).
  apply (H ex_chain ex_token (ex_order ex_T1) (ex_order ex_T2) ex_T1 ex_T2
           initial_state _ eq_refl eq_refl);
    [by vm_compute | by vm_compute | by vm_compute | split; reflexivity].
Defined.

(** a response with status 500 yields [None] and leaves the error counter
    at its value *)
Lemma fetch_500_does_not_count_an_error :
  let res := fetch_json DEX_ADS_URL (http_500 (A := feed ad) (Raised JSONDecodeError))
               initial_state in
  res.1 = None
  ∧ errors (stats res.2) = errors (stats initial_state)
  ∧ errors (stats res.2) ≠ S (errors (stats initial_state)).
Proof. by vm_compute. Qed.

(** at start-up a feed that answers 500 and a feed that answers an empty
    list differ by one line on the console *)
Lemma initialize_tells_500_from_empty_list :
  let init w := initialize w elements initial_state in
  let w500 := with_ads ex_world (λ _, http_500 (Raised JSONDecodeError)) in
  data (init w500) = data (init ex_world)
  ∧ trace (init ex_world)
    = [Print "🔍 Initializing bot..."; HttpGet DEX_ADS_URL;
       Print "✅ Found 0 active ads"; HttpGet DEX_PROFILES_URL; HttpGet DEX_BOOST_URL;
       Print "✅ Found 0 tokens with boosts";
       Print "✅ Tracking 0 tokens for new orders"]
  ∧ trace (init w500)
    = [Print "🔍 Initializing bot..."; HttpGet DEX_ADS_URL;
       HttpGet DEX_PROFILES_URL; HttpGet DEX_BOOST_URL;
       Print "✅ Found 0 tokens with boosts";
       Print "✅ Tracking 0 tokens for new orders"].
Proof. by vm_compute. Qed.

(** the float nearest to 0.000001234 is rendered with eight decimals *)
Lemma format_price_keeps_eight_decimals :
  py_float (VStr "0.000001234") = Returned (FFin false 5827400239861142 (-72))
  ∧ format_price (VFloat (FFin false 5827400239861142 (-72))) = "0.00000123"
  ∧ format_price (VFloat (FFin false 5827400239861142 (-72))) ≠ "0.000001234".
Proof. by vm_compute. Qed.

(** with Telegram failing, one alert makes three delivery requests: the
    photo, the text, and the text again *)
Lemma delivery_retries_the_text :
  ∃ photo message,
    sends (trace (print_alert ex_world_down ex_bot_token ex_chat_id "NEW AD"
                    (ad_lines ex_ad ex_chain ex_token None) "📢" initial_state))
    = [SendPhoto photo message; SendMessage message; SendMessage message].
Proof. eexists _, _. vm_compute. reflexivity. Qed.

(** a run in which one profile and one order are detected: both are
    counted as orders *)
Lemma profile_counted_as_order :
  let st := main ex_world_profile ex_bot_token ex_chat_id ex_start_ms ex_strftime
              elements 5 in
  count_events PROFILE (trace st) = 1 ∧ count_events ORDER (trace st) = 1
  ∧ orders_detected (stats st) = 2.
Proof. by vm_compute. Qed.

(** ** More theorems at concrete inputs *)

Lemma orders_are_checked_every_fifth_turn_witness :
  orders_undisturbed ex_token initial_state
    (poll_cycle ex_world_profile ex_bot_token ex_chat_id ex_start_ms ex_strftime
       elements initial_state).
Proof. apply orders_are_checked_every_fifth_turn. simpl. lia. Defined.

Lemma no_telegram_request_without_credentials_witness :
  forallb (λ e, negb (is_telegram e))
    (trace (main ex_world_seeded None ex_chat_id ex_start_ms ex_strftime elements 3))
  = true.
Proof. apply no_telegram_request_without_credentials. reflexivity. Defined.

Lemma records_seeded_at_startup_raise_no_event_witness :
  let st' :=
    poll_cycles ex_world_seeded ex_bot_token ex_chat_id ex_start_ms ex_strftime elements 2
      (startup ex_world_seeded ex_bot_token ex_chat_id elements initial_state) in
  (trace (process_ad ex_world_seeded ex_bot_token ex_chat_id st' ex_ad) = trace st'
   ∧ stats (process_ad ex_world_seeded ex_bot_token ex_chat_id st' ex_ad) = stats st')
  ∧ (trace (process_profile ex_world_seeded ex_bot_token ex_chat_id st' (ex_profile None))
     = trace st'
     ∧ stats (process_profile ex_world_seeded ex_bot_token ex_chat_id st' (ex_profile None))
       = stats st').
Proof.
  destruct (records_seeded_at_startup_raise_no_event ex_world_seeded ex_bot_token
              ex_chat_id ex_start_ms ex_strftime elements initial_state 2) as [Ha Hp].
  split.
  - apply (Ha [ex_ad] ex_ad); [reflexivity | constructor].
  - apply (Hp [ex_profile None] (ex_profile None)); [reflexivity | constructor].
Defined.

Lemma orders_listed_at_startup_raise_no_event_witness :
  let st' :=
    poll_cycles ex_world_profile ex_bot_token ex_chat_id ex_start_ms ex_strftime elements 1
      (emit (Print "")
         (fold_left (initialize_token ex_world_profile) []
            (initialize_token ex_world_profile initial_state ex_key))) in
  check_order ex_world_profile ex_bot_token ex_chat_id ex_start_ms ex_strftime
    ex_chain ex_token st' (ex_order ex_T1) = st'.
Proof.
  apply (orders_listed_at_startup_raise_no_event ex_world_profile ex_bot_token ex_chat_id
           ex_start_ms ex_strftime elements initial_state ex_chain ex_token
           {| od_orders := Some [ex_order ex_T1] |} (ex_order ex_T1));
    [reflexivity | reflexivity | constructor].
Defined.

Lemma startup_stores_the_last_boost_total_witness :
  let st' :=
    initialize_boost (initialize_boost initial_state (ex_boost (Some 10%Z)))
      (ex_boost (Some 5%Z)) in
  seen_boosts st' !! ex_token = Some 5%Z
  ∧ count_events BOOST
      (trace (process_boost ex_world ex_bot_token ex_chat_id st' (ex_boost (Some 10%Z))))
    = S (count_events BOOST (trace st')).
Proof.
  apply (startup_stores_the_last_boost_total ex_world ex_bot_token ex_chat_id initial_state
           (ex_boost (Some 10%Z)) (ex_boost (Some 5%Z)) ex_chain ex_chain ex_token 10 5);
    [split; reflexivity | split; reflexivity | lia | lia].
Defined.

Lemma commands_are_answered_once_and_acknowledged_witness :
  let st' := handle_telegram_updates ex_world_commands ex_bot_token ex_chat_id initial_state in
  length (sends (trace st')) = 2
  ∧ List.last (trace st') (Print "") = GetUpdates (Some 8%Z).
Proof.
  destruct (commands_are_answered_once_and_acknowledged ex_world_commands ex_bot_token
              ex_chat_id initial_state (ex_update "/start")
              [ex_update "hello"; ex_update "/status"] eq_refl eq_refl eq_refl)
    as (H1 & _ & H3).
  split; [exact H1 | exact (H3 7%Z eq_refl)].
Defined.

Lemma seen_tokens_are_known_tokens_witness :
  tracked
    (poll_cycles ex_world_seeded ex_bot_token ex_chat_id ex_start_ms ex_strftime elements 2
       (startup ex_world_seeded ex_bot_token ex_chat_id elements initial_state)).
Proof.
  destruct (seen_tokens_are_known_tokens ex_world_seeded ex_bot_token ex_chat_id
              ex_start_ms ex_strftime elements 2) as [_ H].
  apply H. unfold tracked. simpl.
  split; [reflexivity|]. split; [reflexivity|].
  split; [by rewrite dom_empty|]. split; [by rewrite dom_empty|].
  intros t. rewrite dom_empty. by intros ?%elem_of_empty.
Defined.

Lemma alert_without_enrichment_witness :
  alerts (trace (process_ad ex_world_bare ex_bot_token ex_chat_id initial_state ex_ad))
  = [("NEW AD", ad_lines ex_ad ex_chain ex_token None)]
  ∧ "Price: $N/A" ∈ ad_lines ex_ad ex_chain ex_token None.
Proof.
  destruct (alert_without_enrichment ex_world_bare ex_bot_token ex_chat_id initial_state
              ex_ad ex_chain ex_token eq_refl (not_elem_of_empty _) eq_refl)
    as (H1 & _ & H3 & _).
  split; [exact H1 | exact H3].
Defined.

Lemma event_type_is_read_off_the_title_witness :
  event_type_of ("NEW ORDER - " +:+ PyStr.upper "tokenProfile") = "PROFILE"
  ∧ alert_message "PROFILE" empty_info ex_chain ex_token ex_order_extra
    = alert_message "PROFILE" empty_info ex_chain ex_token empty_extra.
Proof.
  destruct event_type_is_read_off_the_title as (_ & _ & _ & H4 & H5).
  split; [exact (H4 (PyStr.upper "tokenProfile")) | apply H5; reflexivity].
Defined.

Lemma chain_and_address_are_read_back_witness :
  p_chain_id (parse_lines (ad_lines ex_ad ex_chain ex_token None)) = ex_chain
  ∧ p_token_address (parse_lines (ad_lines ex_ad ex_chain ex_token None)) = ex_token.
Proof.
  destruct (chain_and_address_are_read_back ex_chain ex_token eq_refl eq_refl) as [H _].
  exact (H ex_ad None).
Defined.

Lemma grouped_price_is_shown_as_not_available_witness :
  format_price (VStr (format_price (VFloat (FFin false 5429388417957888 (-42))))) = "N/A".
Proof.
  destruct grouped_price_is_shown_as_not_available as [_ H].
  destruct (H 5429388417957888%N (-42)%Z) as (_ & _ & H3);
    [reflexivity | by vm_compute | exact H3].
Defined.

Lemma env_update_rewrites_existing_lines_only_witness :
  update_env (Some 42%Z) ["TELEGRAM_BOT_TOKEN=123:abc" +:+ PyStr.nl; "POLL=2" +:+ PyStr.nl]
  = ["TELEGRAM_BOT_TOKEN=123:abc" +:+ PyStr.nl; "POLL=2" +:+ PyStr.nl].
Proof.
  destruct env_update_rewrites_existing_lines_only as (_ & H & _).
  apply H. repeat constructor.
Defined.

(** Ctrl-C while the bot waits for the enrichment of a profile it has
    just detected, in the first turn: 35 steps are made, the start-up,
    the increment of the poll counter, the three feeds, and the
    detection up to the request that goes out.  The profile is counted,
    its alert has not been printed, and the final statistics report one
    order. *)
Lemma interrupted_detection_is_counted_without_event :
  match main_task ex_world_profile ex_bot_token ex_chat_id ex_start_ms ex_strftime
          elements [35%nat] 1 with
  | Stopped false st =>
      orders_detected (stats st) = 1%nat
      ∧ count_events PROFILE (trace st) = 0%nat
      ∧ count_events ORDER (trace st) = 0%nat
      ∧ drop (length (trace st) - 3) (trace st)
        = [HttpGet (DEX_TOKENS_URL ex_chain ex_token);
           Print (PyStr.nl +:+ PyStr.nl +:+ "✅ Bot stopped!");
           Print "Final stats: Ads: 0, Boosts: 0, Orders: 1"]
  | _ => False
  end.
Proof. by vm_compute. Qed.
